(** * baby-web-app: the record module, the record modal and the floating button

    A shallow embedding of [src/lib/records.ts], of the record modal
    ([AddRecordModal]: [handleImageChange], [handleSubmit]) and of
    [src/components/FloatingActionButton.tsx], with the properties the
    specification states about them.

    JavaScript strings are sequences of UTF-16 code units, numbers are
    integers (no fraction, no NaN) except where the SDK turns a timestamp
    into milliseconds, which is computed in binary64 as it is there; objects
    used as documents are finite maps from field names to values, the
    database orders, filters and writes as the SDK documents it, refusing
    what the SDK refuses, and [async] code is sequential code in a
    monad that threads the state, may throw, and records the calls that leave
    the module (SDK calls, callbacks, console). *)

From Stdlib Require Import ZArith List Ascii String Sorting.Sorted Lia.
From Stdlib Require QArith.
From Stdlib Require Import Floats.SpecFloat.
From stdpp Require Import gmap strings list fin_maps sorting.

Local Open Scope Z_scope.

(** ** JavaScript strings *)

Module JsString.

(** A string is its list of UTF-16 code units. *)
Abbreviation jsstring := (list N).

(** Literals are written as Rocq strings, which hold UTF-8 bytes; [js]
    decodes them to code units (a four-byte sequence gives a surrogate
    pair). *)
Fixpoint utf16_of_utf8 (bs : list N) : list N :=
  match bs with
  | [] => []
  | b :: r =>
      if (b <? 128)%N then b :: utf16_of_utf8 r
      else if (b <? 224)%N then
        match r with
        | c1 :: r1 => ((b - 192) * 64 + (c1 - 128))%N :: utf16_of_utf8 r1
        | _ => []
        end
      else if (b <? 240)%N then
        match r with
        | c1 :: c2 :: r2 =>
            ((b - 224) * 4096 + (c1 - 128) * 64 + (c2 - 128))%N
              :: utf16_of_utf8 r2
        | _ => []
        end
      else
        match r with
        | c1 :: c2 :: c3 :: r3 =>
            let cp := ((b - 240) * 262144 + (c1 - 128) * 4096
                       + (c2 - 128) * 64 + (c3 - 128))%N in
            let v := (cp - 65536)%N in
            (55296 + v / 1024)%N :: (56320 + v mod 1024)%N
              :: utf16_of_utf8 r3
        | _ => []
        end
  end.

Definition js (s : string) : jsstring :=
  utf16_of_utf8 (List.map N_of_ascii (list_ascii_of_string s)).
#[global] Arguments js : simpl never.

(** [WhiteSpace] and [LineTerminator] of ECMA-262: the characters that
    [String.prototype.trim] strips and that [\s] matches. *)
Definition is_js_space (c : N) : bool :=
  ((9 <=? c) && (c <=? 13) || (c =? 32) || (c =? 160) || (c =? 5760)
   || (8192 <=? c) && (c <=? 8202) || (c =? 8232) || (c =? 8233)
   || (c =? 8239) || (c =? 8287) || (c =? 12288) || (c =? 65279))%N.

Fixpoint trimStart (s : jsstring) : jsstring :=
  match s with
  | c :: r => if is_js_space c then trimStart r else s
  | [] => []
  end.

(** [s.trim()] *)
Definition trim (s : jsstring) : jsstring :=
  rev (trimStart (rev (trimStart s))).

(** The separators of the tag pattern, the class [[,，\s]]. *)
Definition is_tag_sep (c : N) : bool :=
  ((c =? 44) || (c =? 65292))%N || is_js_space c.

(** [s.split(re)] for a pattern [re = [C]+] that matches one or more
    characters of a class [C], after ECMA-262 [RegExp.prototype[@@split]]:
    a match at position [q] exists exactly when [s[q]] is in [C] and runs
    to the end of the maximal run; the piece before it is pushed and the
    scan resumes behind the run; the remainder is pushed at the end.
    [tok] is the current piece, reversed; [in_run] says that the previous
    character belonged to a match. *)
Fixpoint split_go (C : N -> bool) (s : jsstring) (tok : jsstring)
    (in_run : bool) : list jsstring :=
  match s with
  | [] => [rev tok]
  | c :: r =>
      if C c then
        if in_run then split_go C r [] true
        else rev tok :: split_go C r [] true
      else split_go C r (c :: tok) false
  end.

Definition split_class (C : N -> bool) (s : jsstring) : list jsstring :=
  split_go C s [] false.

End JsString.
Export JsString.

(** ** Values stored in documents *)

(** [Timestamp] of the SDK: seconds since the epoch and nanoseconds. *)
Record Timestamp := { seconds : Z; nanoseconds : Z }.

(** The values a [RecordData] field holds: strings, numbers, timestamps,
    arrays of strings, [null], and the [serverTimestamp()] sentinel, which is
    a [FieldValue] and not a [Timestamp]. *)
Inductive jsvalue :=
| VNull
| VBool (b : bool)
| VNum (n : Z)
| VStr (s : jsstring)
| VTimestamp (t : Timestamp)
| VArr (l : list jsstring)
| VServerTimestamp.

#[global] Instance Timestamp_eq_dec : EqDecision Timestamp.
Proof. solve_decision. Defined.

#[global] Instance jsvalue_eq_dec : EqDecision jsvalue.
Proof. solve_decision. Defined.

(** A document's data, [DocumentData]: a field that is absent reads as
    [undefined], here [None]. *)
Abbreviation obj := (gmap string jsvalue).

(** JavaScript truthiness of a field read. *)
Definition truthy (v : option jsvalue) : bool :=
  match v with
  | None | Some VNull => false
  | Some (VBool b) => b
  | Some (VNum n) => negb (n =? 0)
  | Some (VStr s) => negb (bool_decide (s = []))
  | Some (VTimestamp _) | Some (VArr _) | Some VServerTimestamp => true
  end.

(** [v instanceof Timestamp] *)
Definition instanceof_Timestamp (v : jsvalue) : option Timestamp :=
  match v with VTimestamp t => Some t | _ => None end.

(** ** Dates *)

Module JsDate.

(** Time values are milliseconds since the epoch; the functions below are
    those of ECMA-262, "Time Values and Time Range" onwards. *)
Definition msPerDay : Z := 86400000.

Definition Day (t : Z) : Z := t / msPerDay.

Definition DaysInYear (y : Z) : Z :=
  if negb (y mod 4 =? 0) then 365
  else if negb (y mod 100 =? 0) then 366
  else if negb (y mod 400 =? 0) then 365
  else 366.

Definition DayFromYear (y : Z) : Z :=
  365 * (y - 1970) + (y - 1969) / 4 - (y - 1901) / 100 + (y - 1601) / 400.

(** [YearFromTime(t)] is the largest [y] with [DayFromYear y <= Day t]; it
    lies within one of the estimate [e]. *)
Definition YearFromTime (t : Z) : Z :=
  let d := Day t in
  let e := 1970 + d * 400 / 146097 in
  if DayFromYear (e + 1) <=? d then e + 1
  else if DayFromYear e <=? d then e
  else e - 1.

Definition InLeapYear (t : Z) : Z :=
  if DaysInYear (YearFromTime t) =? 366 then 1 else 0.

Definition DayWithinYear (t : Z) : Z :=
  Day t - DayFromYear (YearFromTime t).

Definition MonthFromTime (t : Z) : Z :=
  let d := DayWithinYear t in
  let L := InLeapYear t in
  if d <? 31 then 0
  else if d <? 59 + L then 1
  else if d <? 90 + L then 2
  else if d <? 120 + L then 3
  else if d <? 151 + L then 4
  else if d <? 181 + L then 5
  else if d <? 212 + L then 6
  else if d <? 243 + L then 7
  else if d <? 273 + L then 8
  else if d <? 304 + L then 9
  else if d <? 334 + L then 10
  else 11.

(** The arithmetic of JavaScript numbers, IEEE 754 binary64 with rounding
    to nearest, ties to even. *)
Definition prec : Z := 53.
Definition emax : Z := 1024.

(** The number that an integer literal or an integer-valued field is. *)
Definition number (n : Z) : spec_float := binary_normalize prec emax n 0 false.

(** [ToIntegerOrInfinity] on a finite number: the fraction is dropped. What
    is not finite reads as 0 here; it makes a date invalid. *)
Definition ToIntegerOrInfinity (x : spec_float) : Z :=
  match x with
  | S754_finite s m e =>
      let a := if 0 <=? e then Zpos m * 2 ^ e else Zpos m / 2 ^ (- e) in
      if s then - a else a
  | _ => 0
  end.

(** [Timestamp.toMillis()] of the SDK:
    [this.seconds * 1000 + this.nanoseconds / 1e6]. *)
Definition toMillis (ts : Timestamp) : spec_float :=
  SFadd prec emax
    (SFmul prec emax (number (seconds ts)) (number 1000))
    (SFdiv prec emax (number (nanoseconds ts)) (number 1000000)).

(** [Timestamp.toDate()]: [new Date(this.toMillis())]; the constructor of
    the date drops the fraction of a millisecond. The sum is rounded as
    every number is, so that the last nanoseconds before a full millisecond
    can give that millisecond. A [Timestamp] holds seconds of the years 1 to
    9999 and nanoseconds below 10^9, which its constructor checks; for
    these the sum is finite and the date is valid. *)
Definition toDate (ts : Timestamp) : Z := ToIntegerOrInfinity (toMillis ts).

Section Local.
(** The host's offset of local time from UTC, in milliseconds, at a given
    time value ([LocalTZA]). *)
Variable LocalTZA : Z -> Z.

Definition LocalTime (t : Z) : Z := t + LocalTZA t.

(** [date.getFullYear()] and [date.getMonth()] *)
Definition getFullYear (date : Z) : Z := YearFromTime (LocalTime date).
Definition getMonth (date : Z) : Z := MonthFromTime (LocalTime date).
End Local.

End JsDate.


(** ** The document database *)

(** [QueryDocumentSnapshot]: a document's id and its data. *)
Record DocSnap := { doc_id : jsstring; doc_data : gmap string jsvalue }.

Inductive WhereOp := OpEq | OpArrayContains.
Inductive Direction := Asc | Desc.

(** [QueryConstraint]: what [where], [orderBy], [limit] and [startAfter]
    return. *)
Inductive QueryConstraint :=
| Where (field : string) (op : WhereOp) (v : jsvalue)
| OrderBy (field : string) (dir : Direction)
| Limit (n : Z)
| StartAfter (cursor : DocSnap).

(** A [File] (or [Blob]): its MIME type and its bytes. *)
Record File := { file_type : jsstring; file_bytes : list N }.

(** The options object handed to [imageCompression]. *)
Record CompressionOptions := {
  maxSizeMB : QArith_base.Q;
  maxWidthOrHeight : Z;
  useWebWorker : bool;
  fileType : jsstring
}.

Inductive CreatableRecordType :=
| feeding | diaper | sleep | solid_food | measurement | snapshot.

#[global] Instance CreatableRecordType_eq_dec : EqDecision CreatableRecordType.
Proof. solve_decision. Defined.

(** The string a record type is in the source. *)
Definition type_name (t : CreatableRecordType) : jsstring :=
  match t with
  | feeding => js "feeding"
  | diaper => js "diaper"
  | sleep => js "sleep"
  | solid_food => js "solid-food"
  | measurement => js "measurement"
  | snapshot => js "snapshot"
  end.

(** What a [throw] carries: an [Error] with its message, or any other
    value. *)
Inductive thrown := Error (message : jsstring) | NotAnError.

(** The calls that leave the modelled code, in the order they are made. *)
Inductive Event :=
| DocRef (coll : string) (id : jsstring)
| AddDoc (coll : string) (data : obj)
| UpdateDoc (coll : string) (id : jsstring) (data : obj)
| DeleteDoc (coll : string) (id : jsstring)
| GetDocs (coll : string) (q : list QueryConstraint)
| UploadImage (file : File) (uid : jsstring)
| ImageCompression (file : File) (options : CompressionOptions)
| CreateObjectURL (file : File)
| RevokeObjectURL (url : jsstring)
| ConsoleLog (msg : string)
| ConsoleError (msg : string)
| PreventDefault
| ClearFileInput
| OnClose
| OnAddRecord (type : CreatableRecordType).

(** The [records] collection, in the order the documents were added. *)
Abbreviation Store := (list DocSnap).

(** What the SDK refuses while a query is built: a limit that is not
    positive, and a cursor document that lacks a field the query orders
    by. *)
Inductive SdkFault :=
| NotPositive (n : Z)
| CursorWithoutField (field : string).

(** What the code does not decide itself: the time zone, whether a call
    into the SDK (or into the storage module, or the compression library)
    throws, the message of the [FirestoreError] for a query the SDK
    refuses, the id and the server time a new document gets, the URLs and
    the compressed file that come back, and the conversions of form
    input. *)
Record Host := {
  LocalTZA : Z -> Z;
  fails : Event -> option thrown;
  sdkMessage : SdkFault -> jsstring;
  autoId : Store -> obj -> jsstring;
  serverNow : Store -> Timestamp;
  uploadedURL : File -> jsstring -> jsstring;
  compressedFile : File -> CompressionOptions -> File;
  objectURL : File -> jsstring;
  toNumber : jsstring -> jsvalue;
  timestampOfDateInput : jsstring -> thrown + Timestamp
}.

(** *** Queries *)

Module Firestore.

(** Strings are ordered by their UTF-8 bytes, that is by code point: the
    first code units that differ decide, in their numeric order when both
    or neither are surrogates, and otherwise the surrogate, which is part
    of a code point above U+FFFF, is the greater. [string_key] is an
    encoding whose lexicographic order is that order. *)
Definition is_surrogate (c : N) : bool := ((55296 <=? c) && (c <=? 57343))%N.

Definition string_key (s : jsstring) : list Z :=
  List.flat_map (fun c => [Z.b2z (is_surrogate c); Z.of_N c]) s.

(** Values are ordered by type first (null, booleans, numbers, timestamps,
    strings, arrays) and by content within a type; [value_key] is an
    encoding whose lexicographic order is that order. *)
Definition value_key (v : jsvalue) : list Z :=
  match v with
  | VNull => [0]
  | VBool b => [1; Z.b2z b]
  | VNum n => [2; n]
  | VTimestamp t => [3; seconds t; nanoseconds t]
  | VServerTimestamp => [4]
  | VStr s => 5 :: string_key s
  | VArr l =>
      6 :: List.concat
             (List.map
                (fun s =>
                   List.flat_map
                     (fun c => [Z.b2z (is_surrogate c) + 1; Z.of_N c]) s
                   ++ [0]) l)
  end.

Fixpoint lex_cmp (a b : list Z) : comparison :=
  match a, b with
  | [], [] => Eq
  | [], _ :: _ => Lt
  | _ :: _, [] => Gt
  | x :: a', y :: b' =>
      match x ?= y with
      | Eq => lex_cmp a' b'
      | c => c
      end
  end.

Definition field_key (d : DocSnap) (f : string) : list Z :=
  match doc_data d !! f with
  | Some v => value_key v
  | None => []
  end.

Definition directed (dir : Direction) (c : comparison) : comparison :=
  match dir with Asc => c | Desc => CompOpp c end.

(** Documents are compared by the [orderBy] fields in turn and, last, by
    their id, in the direction of the last [orderBy]. *)
Fixpoint doc_cmp (last : Direction) (obs : list (string * Direction))
    (d1 d2 : DocSnap) : comparison :=
  match obs with
  | [] => directed last (lex_cmp (string_key (doc_id d1))
                                 (string_key (doc_id d2)))
  | (f, dir) :: obs' =>
      match directed dir (lex_cmp (field_key d1 f) (field_key d2 f)) with
      | Eq => doc_cmp dir obs' d1 d2
      | c => c
      end
  end.

(** [d1] does not come after [d2]. *)
Definition doc_le (obs : list (string * Direction)) (d1 d2 : DocSnap) : Prop :=
  doc_cmp Asc obs d1 d2 <> Gt.

#[global] Instance doc_le_dec obs d1 d2 : Decision (doc_le obs d1 d2).
Proof. unfold doc_le. apply _. Defined.

(** A document passes [where(f, "==", v)] when it has the field with that
    value, [where(f, "array-contains", v)] when the field is an array that
    holds [v], and [orderBy(f)] when it has the field at all. *)
Definition passes (d : DocSnap) (c : QueryConstraint) : bool :=
  match c with
  | Where f OpEq v => bool_decide (doc_data d !! f = Some v)
  | Where f OpArrayContains v =>
      match doc_data d !! f, v with
      | Some (VArr l), VStr s => bool_decide (s ∈ l)
      | _, _ => false
      end
  | OrderBy f _ => bool_decide (is_Some (doc_data d !! f))
  | Limit _ | StartAfter _ => true
  end.

Definition orderBys (q : list QueryConstraint) : list (string * Direction) :=
  List.flat_map
    (fun c => match c with OrderBy f dir => [(f, dir)] | _ => [] end) q.

(** [startAfter(cursor)]: only documents strictly behind the cursor. *)
Definition behind_cursors (q : list QueryConstraint) (d : DocSnap) : bool :=
  List.forallb
    (fun c =>
       match c with
       | StartAfter cur =>
           match doc_cmp Asc (orderBys q) cur d with Lt => true | _ => false end
       | _ => true
       end) q.

Definition limited (q : list QueryConstraint) (l : list DocSnap) : list DocSnap :=
  List.fold_right
    (fun c acc => match c with Limit n => take (Z.to_nat n) acc | _ => acc end)
    l q.

(** The documents a query returns: the filters select, the order sorts, the
    cursor cuts the front and the limit the back, whatever the position of
    the constraints in the list. *)
Definition runQuery (store : Store) (q : list QueryConstraint) : list DocSnap :=
  limited q
    (List.filter (behind_cursors q)
       (merge_sort (doc_le (orderBys q))
          (List.filter (fun d => List.forallb (passes d) q) store))).

(** The field that a [startAfter] document of the query lacks among those
    the query orders by, if there is one. *)
Definition missing_cursor_field (q : list QueryConstraint) : option string :=
  head
    (List.flat_map
       (fun c =>
          match c with
          | StartAfter cur =>
              List.flat_map
                (fun ob => if bool_decide (doc_data cur !! ob.1 = None)
                           then [ob.1] else [])
                (orderBys q)
          | _ => []
          end) q).

(** A written [Timestamp] is cut down to microseconds,
    [new Timestamp(seconds, Math.floor(nanoseconds / 1000) * 1000)], and
    the server puts its own time where a written field holds the
    [serverTimestamp()] sentinel. *)
Definition microseconds (t : Timestamp) : Timestamp :=
  {| seconds := seconds t; nanoseconds := nanoseconds t / 1000 * 1000 |}.

Definition resolve_value (now : Timestamp) (v : jsvalue) : jsvalue :=
  match v with
  | VServerTimestamp => VTimestamp now
  | VTimestamp t => VTimestamp (microseconds t)
  | _ => v
  end.

Definition resolve (now : Timestamp) (data : obj) : obj :=
  resolve_value now <$> data.

End Firestore.

(** ** Sequential code that throws and calls out *)

Inductive Outcome (A : Type) :=
| Returns (a : A)
| Throws (e : thrown).
Arguments Returns {A} a.
Arguments Throws {A} e.

(** A computation over a state [S]: its outcome, the state it leaves and the
    calls it made. *)
Definition M (S A : Type) : Type := S -> Outcome A * S * list Event.

Section Monad.
Context {S : Type}.

Definition ret {A} (a : A) : M S A := fun s => (Returns a, s, []).

Definition throw {A} (e : thrown) : M S A := fun s => (Throws e, s, []).

Definition bind {A B} (m : M S A) (k : A -> M S B) : M S B :=
  fun s =>
    match m s with
    | (Returns a, s1, ev1) =>
        let '(r, s2, ev2) := k a s1 in (r, s2, ev1 ++ ev2)
    | (Throws e, s1, ev1) => (Throws e, s1, ev1)
    end.

(** [try { m } catch (e) { handler e }] *)
Definition try_catch {A} (m : M S A) (handler : thrown -> M S A) : M S A :=
  fun s =>
    match m s with
    | (Returns a, s1, ev1) => (Returns a, s1, ev1)
    | (Throws e, s1, ev1) =>
        let '(r, s2, ev2) := handler e s1 in (r, s2, ev1 ++ ev2)
    end.

(** [try { m } finally { fin }]: [fin] runs either way, and the outcome is
    that of [m] unless [fin] throws itself. *)
Definition try_finally {A} (m : M S A) (fin : M S unit) : M S A :=
  fun s =>
    let '(r, s1, ev1) := m s in
    match fin s1 with
    | (Returns _, s2, ev2) => (r, s2, ev1 ++ ev2)
    | (Throws e, s2, ev2) => (Throws e, s2, ev1 ++ ev2)
    end.

Definition emit (ev : Event) : M S unit := fun s => (Returns tt, s, [ev]).

Definition modify (f : S -> S) : M S unit := fun s => (Returns tt, f s, []).

Definition get : M S S := fun s => (Returns s, s, []).

(** A call that the host may let fail. *)
Definition call (h : Host) (ev : Event) : M S unit :=
  fun s =>
    (match fails h ev with Some e => Throws e | None => Returns tt end, s, [ev]).

End Monad.

Notation "x <- m ;; k" := (bind m (fun x => k))
  (at level 100, m at next level, right associativity).
Notation "m ;;; k" := (bind m (fun _ => k))
  (at level 100, right associativity).

Definition outcome {S A} (r : Outcome A * S * list Event) : Outcome A := r.1.1.
Definition final {S A} (r : Outcome A * S * list Event) : S := r.1.2.
Definition events {S A} (r : Outcome A * S * list Event) : list Event := r.2.

(** *** The SDK's operations on the [records] collection *)

Definition console_log {S} (msg : string) : M S unit := emit (ConsoleLog msg).
Definition console_error {S} (msg : string) : M S unit := emit (ConsoleError msg).

(** [doc(db, coll, id)] *)
Definition doc (h : Host) (coll : string) (id : jsstring) : M Store jsstring :=
  call h (DocRef coll id) ;;; ret id.

(** [addDoc(collection(db, coll), data)]: the new document's reference. *)
Definition addDoc (h : Host) (coll : string) (data : obj) : M Store jsstring :=
  call h (AddDoc coll data) ;;;
  store <- get ;;
  let id := autoId h store data in
  modify (fun st =>
            st ++ [{| doc_id := id;
                      doc_data := Firestore.resolve (serverNow h store) data |}]) ;;;
  ret id.

(** [updateDoc(ref, data)]: the fields of [data] replace those of the
    document; a document that does not exist makes the call fail. *)
Definition updateDoc (h : Host) (coll : string) (ref : jsstring) (data : obj)
  : M Store unit :=
  call h (UpdateDoc coll ref data) ;;;
  store <- get ;;
  if List.existsb (fun d => bool_decide (doc_id d = ref)) store then
    modify
      (List.map
         (fun d =>
            if bool_decide (doc_id d = ref)
            then {| doc_id := doc_id d;
                    doc_data := Firestore.resolve (serverNow h store) data
                                  ∪ doc_data d |}
            else d))
  else throw (Error (js "No document to update")).

(** [deleteDoc(ref)] *)
Definition deleteDoc (h : Host) (coll : string) (ref : jsstring) : M Store unit :=
  call h (DeleteDoc coll ref) ;;;
  modify (List.filter (fun d => negb (bool_decide (doc_id d = ref)))).

(** [limit(n)]: the SDK refuses a number that is not positive. *)
Definition limit {S} (h : Host) (n : Z) : M S QueryConstraint :=
  if n <=? 0 then throw (Error (sdkMessage h (NotPositive n)))
  else ret (Limit n).

(** [query(collection(db, coll), ...constraints)]: the SDK reads the
    position of a [startAfter] document from the fields the query orders
    by, and refuses a document that lacks one of them. *)
Definition query {S} (h : Host) (constraints : list QueryConstraint)
  : M S (list QueryConstraint) :=
  match Firestore.missing_cursor_field constraints with
  | Some f => throw (Error (sdkMessage h (CursorWithoutField f)))
  | None => ret constraints
  end.

(** [getDocs(q)] for a query [q] on the collection [coll]:
    [querySnapshot.docs]. *)
Definition getDocs (h : Host) (coll : string) (q : list QueryConstraint)
  : M Store (list DocSnap) :=
  call h (GetDocs coll q) ;;;
  store <- get ;;
  ret (Firestore.runQuery store q).

(** ** [src/lib/records.ts] *)

(** What the code reads of [UserProfile] (the auth context), and of the
    identity provider's [user]. *)
Record UserProfile := {
  displayName : option jsstring;
  familyIDs : option (list jsstring)
}.

Record User := { uid : jsstring }.

(** A [string | null] as a stored value. *)
Definition of_nullable (s : option jsstring) : jsvalue :=
  match s with Some s => VStr s | None => VNull end.

(** [a || b] on a field read *)
Definition or_else (a : option jsvalue) (b : jsvalue) : jsvalue :=
  match a with
  | Some v => if truthy a then v else b
  | None => b
  end.

(** [{ ...a, ...b }] *)
Definition spread (a b : obj) : obj := b ∪ a.

(** The object [dataToSave] of [addRecord], as it is when [addDoc] gets it:
    the caller's fields, then the three fields set over them, then, for a
    snapshot whose timestamp is a [Timestamp], the year and the month. *)
Definition dataToSave (h : Host) (recordData : obj) (userProfile : UserProfile)
  : obj :=
  let dataToSave :=
    <["timestamp" := or_else (recordData !! "timestamp") VServerTimestamp]>
      (<["creatorName" := of_nullable (displayName userProfile)]>
         (<["babyId" := VStr (js "baby_01")]> recordData)) in
  match bool_decide (recordData !! "type" = Some (VStr (js "snapshot"))),
        dataToSave !! "timestamp" ≫= instanceof_Timestamp with
  | true, Some ts =>
      let date := JsDate.toDate ts in
      <["month" := VNum (JsDate.getMonth (LocalTZA h) date + 1)]>
        (<["year" := VNum (JsDate.getFullYear (LocalTZA h) date)]> dataToSave)
  | _, _ => dataToSave
  end.

(** [addRecord(recordData, userProfile)] *)
Definition addRecord (h : Host) (recordData : obj)
    (userProfile : option UserProfile) : M Store jsstring :=
  if negb (truthy (recordData !! "familyId"))
     || negb (truthy (recordData !! "creatorId"))
  then throw (Error (js "Family ID and Creator ID are required."))
  else
    match userProfile with
    | None => throw (Error (js "User profile is not available."))
    | Some userProfile =>
        try_catch
          (docRef <- addDoc h "records" (dataToSave h recordData userProfile) ;;
           console_log "Document written with ID: " ;;;
           ret docRef)
          (fun e =>
             console_error "Error adding document: " ;;;
             throw (Error (js "Failed to add record.")))
    end.

(** The [options] of [getSnapshots]; an absent property is [None]. *)
Module Options.
Record Filter := {
  year : option Z;
  month : option Z;
  tag : option jsstring
}.
Record t := {
  perPage : option Z;
  lastDoc : option DocSnap;
  filter : option Filter
}.
End Options.

(** Truthiness of an optional number and of an optional string. *)
Definition truthy_num (n : option Z) : bool := truthy (VNum <$> n).
Definition truthy_str (s : option jsstring) : bool := truthy (VStr <$> s).

Definition push {A} (l : list A) (x : A) : list A := l ++ [x].

(** The array [baseConstraints] of [getSnapshots], as it is when the query
    is built from it; [limit(perPage)] may throw on the way. *)
Definition baseConstraints {S} (h : Host) (familyId : jsstring)
    (options : Options.t) : M S (list QueryConstraint) :=
  let perPage := if truthy_num (Options.perPage options)
                 then default 20 (Options.perPage options) else 20 in
  let baseConstraints :=
    [ Where "familyId" OpEq (VStr familyId);
      Where "type" OpEq (VStr (js "snapshot")) ] in
  let baseConstraints :=
    match Options.filter options with
    | Some f =>
        let c1 :=
          match Options.year f with
          | Some y => if truthy_num (Some y)
                      then push baseConstraints (Where "year" OpEq (VNum y))
                      else baseConstraints
          | None => baseConstraints
          end in
        let c2 :=
          match Options.month f with
          | Some m => if truthy_num (Some m)
                      then push c1 (Where "month" OpEq (VNum m))
                      else c1
          | None => c1
          end in
        match Options.tag f with
        | Some tg =>
            if truthy_str (Some tg) && negb (bool_decide (trim tg = []))
            then push c2 (Where "tags" OpArrayContains (VStr (trim tg)))
            else c2
        | None => c2
        end
    | None => baseConstraints
    end in
  let baseConstraints := push baseConstraints (OrderBy "timestamp" Desc) in
  limitPerPage <- limit h perPage ;;
  let baseConstraints := push baseConstraints limitPerPage in
  ret match Options.lastDoc options with
      | Some d => push baseConstraints (StartAfter d)
      | None => baseConstraints
      end.

(** [{ id: doc.id, ...doc.data() }] *)
Definition withId (d : DocSnap) : obj :=
  spread {[ "id" := VStr (doc_id d) ]} (doc_data d).

Record SnapshotPage := {
  snapshots : list obj;
  lastVisible : option DocSnap
}.

(** [getSnapshots(familyId, options)] *)
Definition getSnapshots (h : Host) (familyId : jsstring) (options : Options.t)
  : M Store SnapshotPage :=
  baseConstraints <- baseConstraints h familyId options ;;
  q <- query h baseConstraints ;;
  docs <- getDocs h "records" q ;;
  ret {| snapshots := List.map withId docs; lastVisible := last docs |}.

(** [updateRecord(recordId, updatedData)] *)
Definition updateRecord (h : Host) (recordId : jsstring) (updatedData : obj)
  : M Store unit :=
  if negb (truthy_str (Some recordId))
  then throw (Error (js "Record ID is required for updating."))
  else
    recordRef <- doc h "records" recordId ;;
    try_catch
      (updateDoc h "records" recordRef updatedData ;;;
       console_log "Document updated with ID: ")
      (fun e =>
         console_error "Error updating document: " ;;;
         throw (Error (js "Failed to update record."))).

(** [deleteRecord(recordId)] *)
Definition deleteRecord (h : Host) (recordId : jsstring) : M Store unit :=
  if negb (truthy_str (Some recordId))
  then throw (Error (js "Record ID is required for deletion."))
  else
    recordRef <- doc h "records" recordId ;;
    try_catch
      (deleteDoc h "records" recordRef ;;;
       console_log "Document deleted with ID: ")
      (fun e =>
         console_error "Error deleting document: " ;;;
         throw (Error (js "Failed to delete record."))).

(** [getMeasurementRecords(familyId, babyId)] *)
Definition getMeasurementRecords (h : Host) (familyId babyId : jsstring)
  : M Store (list obj) :=
  q <- query h
         [ Where "familyId" OpEq (VStr familyId);
           Where "babyId" OpEq (VStr babyId);
           Where "type" OpEq (VStr (js "measurement"));
           OrderBy "timestamp" Asc ] ;;
  docs <- getDocs h "records" q ;;
  ret (List.map withId docs).

(** ** The record modal, [AddRecordModal] *)

(** [uploadImage(file, uid)] of the storage module: the URL of the upload. *)
Definition uploadImage {S} (h : Host) (file : File) (uid : jsstring)
  : M S jsstring :=
  call h (UploadImage file uid) ;;; ret (uploadedURL h file uid).

(** [imageCompression(file, options)] of the compression library. *)
Definition imageCompression {S} (h : Host) (file : File)
    (options : CompressionOptions) : M S File :=
  call h (ImageCompression file options) ;;; ret (compressedFile h file options).

Module AddRecordModal.

(** The props; [onClose] is the event [OnClose]. *)
Record Props := {
  recordType : CreatableRecordType;
  existingRecord : option obj
}.

(** What [useAuth()] gives. *)
Record Auth := {
  user : option User;
  userProfile : option UserProfile
}.

(** The text inputs of the form, which the two handlers only read. *)
Record Form := {
  notes : jsstring;
  tags : jsstring;
  amount : jsstring;
  foodItems : jsstring;
  reaction : jsstring;
  measurementType : jsstring;
  value : jsstring;
  recordDate : jsstring
}.

(** The component's state. *)
Record State := {
  isSubmitting : bool;
  isProcessing : bool;
  error : jsstring;
  imageFile : option File;
  imagePreview : option jsstring;
  form : Form
}.

(** The handlers run over the component's state and the collection. *)
Abbreviation UI := (State * Store)%type.

Definition setState (f : State -> State) : M UI unit :=
  modify (fun '(st, db) => (f st, db)).

(** The state after each of the setters. *)
Definition withSubmitting (b : bool) (s : State) : State :=
  {| isSubmitting := b; isProcessing := isProcessing s; error := error s;
     imageFile := imageFile s; imagePreview := imagePreview s;
     form := form s |}.

Definition withProcessing (b : bool) (s : State) : State :=
  {| isSubmitting := isSubmitting s; isProcessing := b; error := error s;
     imageFile := imageFile s; imagePreview := imagePreview s;
     form := form s |}.

Definition withError (e : jsstring) (s : State) : State :=
  {| isSubmitting := isSubmitting s; isProcessing := isProcessing s;
     error := e; imageFile := imageFile s; imagePreview := imagePreview s;
     form := form s |}.

Definition withImageFile (f : option File) (s : State) : State :=
  {| isSubmitting := isSubmitting s; isProcessing := isProcessing s;
     error := error s; imageFile := f; imagePreview := imagePreview s;
     form := form s |}.

Definition withImagePreview (u : option jsstring) (s : State) : State :=
  {| isSubmitting := isSubmitting s; isProcessing := isProcessing s;
     error := error s; imageFile := imageFile s; imagePreview := u;
     form := form s |}.

Definition setIsSubmitting (b : bool) : M UI unit := setState (withSubmitting b).
Definition setIsProcessing (b : bool) : M UI unit := setState (withProcessing b).
Definition setError (e : jsstring) : M UI unit := setState (withError e).
Definition setImageFile (f : option File) : M UI unit := setState (withImageFile f).
Definition setImagePreview (u : option jsstring) : M UI unit :=
  setState (withImagePreview u).

(** A function of the record module, run from the component. *)
Definition records {A} (m : M Store A) : M UI A :=
  fun '(st, db) => let '(r, db', ev) := m db in (r, (st, db'), ev).

Definition onClose : M UI unit := emit OnClose.

Definition allowedTypes : list jsstring := [js "image/jpeg"; js "image/png"].

Definition compressionOptions : CompressionOptions :=
  {| maxSizeMB := QArith_base.Qmake 1 2;
     maxWidthOrHeight := 1920;
     useWebWorker := true;
     fileType := js "image/jpeg" |}.

(** [handleImageChange(e)], with [file] the first of [e.target.files] if
    there is one. The handler reads the state of the render it belongs to,
    here the state on entry. *)
Definition handleImageChange (h : Host) (file : option File) : M UI unit :=
  ui <- get ;;
  let imagePreview := imagePreview ui.1 in
  match file with
  | None => ret tt
  | Some file =>
      if negb (bool_decide (file_type file ∈ allowedTypes)) then
        setError (js "檔案格式不符，僅接受 JPG 或 PNG 格式。") ;;;
        emit ClearFileInput
      else
        setIsProcessing true ;;;
        setError (js "") ;;;
        try_finally
          (try_catch
             (console_log "開始壓縮圖片..." ;;;
              compressedFile <- imageCompression h file compressionOptions ;;
              console_log "圖片壓縮成功" ;;;
              setImageFile (Some compressedFile) ;;;
              (if truthy_str imagePreview
               then emit (RevokeObjectURL (default [] imagePreview))
               else ret tt) ;;;
              emit (CreateObjectURL compressedFile) ;;;
              setImagePreview (Some (objectURL h compressedFile)))
             (fun compressionError =>
                console_error "圖片壓縮失敗:" ;;;
                setError (js "無法處理此圖片，請更換一張試試。")))
          (setIsProcessing false)
  end.

(** [tags.split(/[,，\s]+/).filter(tag => tag.length > 0)] *)
Definition tagsArray (tags : jsstring) : list jsstring :=
  List.filter (fun tag => (0 <? length tag)%nat) (split_class is_tag_sep tags).

(** [existingRecord.id], handed to the record module as a string; an id
    that is missing is as falsy there as the empty string. *)
Definition idOf (record : obj) : jsstring :=
  match record !! "id" with
  | Some (VStr s) => s
  | _ => []
  end.

(** The object that [handleSubmit] hands to [addRecord] for a snapshot. *)
Definition snapshotData (familyId creatorId notes imageUrl : jsstring)
    (tagsArray : list jsstring) : obj :=
  {[ "type" := VStr (js "snapshot");
     "familyId" := VStr familyId;
     "creatorId" := VStr creatorId;
     "notes" := VStr notes;
     "imageUrl" := VStr imageUrl;
     "tags" := VArr tagsArray ]}.

(** The object [recordData] of [handleSubmit] behind the [switch], or what
    the conversion of the date threw. *)
Definition recordData (h : Host) (recordType : CreatableRecordType) (f : Form)
  : thrown + obj :=
  let recordData : obj := {[ "notes" := VStr (notes f) ]} in
  match recordType with
  | feeding => inr (<["amount" := toNumber h (amount f)]> recordData)
  | solid_food =>
      inr (<["reaction" := VStr (reaction f)]>
             (<["foodItems" := VStr (foodItems f)]> recordData))
  | measurement =>
      match timestampOfDateInput h (recordDate f) with
      | inl e => inl e
      | inr measurementTimestamp =>
          inr (<["timestamp" := VTimestamp measurementTimestamp]>
                 (<["value" := toNumber h (value f)]>
                    (<["measurementType" := VStr (measurementType f)]>
                       recordData)))
      end
  | _ => inr recordData
  end.

(** [recordData] with [type], [familyId] and [creatorId] assigned, for a new
    record. *)
Definition newRecordData (recordType : CreatableRecordType)
    (familyId creatorId : jsstring) (recordData : obj) : obj :=
  <["creatorId" := VStr creatorId]>
    (<["familyId" := VStr familyId]>
       (<["type" := VStr (type_name recordType)]> recordData)).

(** [err instanceof Error ? err.message : '...'] *)
Definition errorMessage (err : thrown) : jsstring :=
  match err with
  | Error message => message
  | NotAnError => js "儲存失敗，請稍後再試。"
  end.

(** [handleSubmit(e)]. The handler reads the state of the render it belongs
    to, here the state on entry. The [return] in the branch of a snapshot
    without an image leaves the [try] block early ([true] below), past
    [onClose()]; the [finally] block runs all the same. *)
Definition handleSubmit (h : Host) (p : Props) (a : Auth) : M UI unit :=
  ui <- get ;;
  let f := form ui.1 in
  let imageFile := imageFile ui.1 in
  emit PreventDefault ;;;
  match user a, userProfile a with
  | Some user, Some userProfile =>
      match familyIDs userProfile with
      | Some (familyID0 :: _) =>
          setIsSubmitting true ;;;
          setError (js "") ;;;
          try_finally
            (try_catch
               (returned <-
                  (if bool_decide (recordType p = snapshot) then
                     match imageFile with
                     | None =>
                         setError (js "請選擇一張要上傳的圖片。") ;;;
                         setIsSubmitting false ;;;
                         ret true
                     | Some imageFile =>
                         imageUrl <- uploadImage h imageFile (uid user) ;;
                         let tagsArray := tagsArray (tags f) in
                         records
                           (addRecord h
                              (snapshotData familyID0 (uid user) (notes f)
                                 imageUrl tagsArray)
                              (Some userProfile)) ;;;
                         ret false
                     end
                   else
                     recordData <-
                       match recordData h (recordType p) f with
                       | inl e => throw e
                       | inr recordData => ret recordData
                       end ;;
                     match existingRecord p with
                     | Some existingRecord =>
                         records (updateRecord h (idOf existingRecord) recordData)
                     | None =>
                         records
                           (addRecord h
                              (newRecordData (recordType p) familyID0 (uid user)
                                 recordData)
                              (Some userProfile)) ;;;
                         ret tt
                     end ;;;
                     ret false) ;;
                if returned then ret tt else onClose)
               (fun err =>
                  setError (errorMessage err) ;;;
                  console_error "err"))
            (setIsSubmitting false)
      | _ => setError (js "無法驗證使用者身份")
      end
  | _, _ => setError (js "無法驗證使用者身份")
  end.

End AddRecordModal.

(** ** The floating action button, [FloatingActionButton] *)

Module FloatingActionButton.

Record State := { isOpen : bool }.

Definition setIsOpen (b : bool) : M State unit :=
  modify (fun _ => {| isOpen := b |}).

(** [handleSubButtonClick(type)]; [onAddRecord] is the event
    [OnAddRecord]. *)
Definition handleSubButtonClick (type : CreatableRecordType) : M State unit :=
  emit (OnAddRecord type) ;;;
  setIsOpen false.

(** The buttons the component renders, top to bottom: the sub-buttons with
    the type their [onClick] passes on, and the main button. *)
Inductive Button :=
| SubButton (type : CreatableRecordType)
| MainButton.

Definition buttons : list Button :=
  [ SubButton snapshot; SubButton sleep; SubButton diaper; SubButton feeding;
    MainButton ].

Definition onClick (b : Button) : M State unit :=
  match b with
  | SubButton type => handleSubButtonClick type
  | MainButton => s <- get ;; setIsOpen (negb (isOpen s))
  end.

(** The record types that have a shortcut. *)
Definition shortcuts : list CreatableRecordType :=
  List.flat_map
    (fun b => match b with SubButton t => [t] | MainButton => [] end) buttons.

End FloatingActionButton.

(** ** The specification's words *)

(** Both identifiers of a record are there and not empty. *)
Definition idsGiven (recordData : obj) : bool :=
  truthy (recordData !! "familyId") && truthy (recordData !! "creatorId").


(** A string of white space only. *)
Definition all_whitespace (s : jsstring) : bool := List.forallb is_js_space s.

(** The query of the snapshot wall as the specification describes it:
    the two fixed filters; the year, the month and the tag filter when they
    are given (a number other than zero, a tag that is not white space
    only); newest first; a page of [perPage] documents or of 20; behind
    [lastDoc] when it is given. *)
Definition snapshot_query (familyId : jsstring) (perPage : option Z)
    (lastDoc : option DocSnap) (year month : option Z) (tag : option jsstring)
  : list QueryConstraint :=
  [ Where "familyId" OpEq (VStr familyId);
    Where "type" OpEq (VStr (js "snapshot")) ]
  ++ match year with
     | Some y => if y =? 0 then [] else [Where "year" OpEq (VNum y)]
     | None => []
     end
  ++ match month with
     | Some m => if m =? 0 then [] else [Where "month" OpEq (VNum m)]
     | None => []
     end
  ++ match tag with
     | Some t => if all_whitespace t then []
                 else [Where "tags" OpArrayContains (VStr (trim t))]
     | None => []
     end
  ++ [ OrderBy "timestamp" Desc;
       Limit (match perPage with
              | Some n => if n =? 0 then 20 else n
              | None => 20
              end) ]
  ++ match lastDoc with
     | Some d => [StartAfter d]
     | None => []
     end.

(** The size of a page: [perPage], or 20 when it is absent or zero. *)
Definition page_size (perPage : option Z) : Z :=
  match perPage with
  | Some n => if n =? 0 then 20 else n
  | None => 20
  end.

(** What the SDK refuses of a call of [getSnapshots] before any query is
    sent: a page size that is not positive, and else a [lastDoc] without a
    timestamp. *)
Definition query_fault (perPage : option Z) (lastDoc : option DocSnap)
  : option SdkFault :=
  if page_size perPage <=? 0 then Some (NotPositive (page_size perPage))
  else
    match lastDoc with
    | Some d => if bool_decide (doc_data d !! "timestamp" = None)
                then Some (CursorWithoutField "timestamp") else None
    | None => None
    end.

(** The calendar, counted out: a year is a leap year when 4 divides it,
    unless 100 does and 400 does not; the days before a year are those of
    the years from 1970 up to it, or back to it; the days before a month in
    its year are those of the months before it. *)
Definition leap_year (y : Z) : bool :=
  (y mod 4 =? 0) && (negb (y mod 100 =? 0) || (y mod 400 =? 0)).

Definition year_length (y : Z) : Z := if leap_year y then 366 else 365.

Definition month_lengths (y : Z) : list Z :=
  [31; if leap_year y then 29 else 28; 31; 30; 31; 30; 31; 31; 30; 31; 30; 31].

Fixpoint days_of_years (y : Z) (n : nat) : Z :=
  match n with
  | O => 0
  | S n => year_length y + days_of_years (y + 1) n
  end.

(** The day, counted from the first of January 1970, on which a year and a
    month of it begin, and the day after the last of the month. *)
Definition year_start (y : Z) : Z :=
  if 1970 <=? y then days_of_years 1970 (Z.to_nat (y - 1970))
  else - days_of_years y (Z.to_nat (1970 - y)).

Definition month_start (y m : Z) : Z :=
  year_start y + foldr Z.add 0 (take (Z.to_nat (m - 1)) (month_lengths y)).

Definition month_end (y m : Z) : Z :=
  year_start y + foldr Z.add 0 (take (Z.to_nat m) (month_lengths y)).

(** The day, counted from the first of January 1970, on which the instant
    of a timestamp falls in a zone [offset] milliseconds from UTC, counted
    exactly, in nanoseconds. *)
Definition day_of_instant (offset : Z) (ts : Timestamp) : Z :=
  (seconds ts * 1000000000 + nanoseconds ts + offset * 1000000)
  / (86400 * 1000000000).

(** What the constructor of [Timestamp] accepts. *)
Definition valid_timestamp (ts : Timestamp) : Prop :=
  -62135596800 <= seconds ts < 253402300800
  /\ 0 <= nanoseconds ts < 1000000000.

(** A record of type ['snapshot']. *)
Definition is_snapshot (recordData : obj) : Prop :=
  recordData !! "type" = Some (VStr (js "snapshot")).

(** The order of two documents by their [timestamp] field. *)
Definition timestamp_le (d1 d2 : DocSnap) : Prop :=
  Firestore.lex_cmp (Firestore.field_key d1 "timestamp")
                    (Firestore.field_key d2 "timestamp") <> Gt.

(** The measurements of a baby in a family that have a timestamp. *)
Definition is_measurement_of (familyId babyId : jsstring) (d : DocSnap) : bool :=
  bool_decide (doc_data d !! "familyId" = Some (VStr familyId))
  && bool_decide (doc_data d !! "babyId" = Some (VStr babyId))
  && bool_decide (doc_data d !! "type" = Some (VStr (js "measurement")))
  && bool_decide (is_Some (doc_data d !! "timestamp")).

(** The user-identity check of [handleSubmit]: there is a user, a profile,
    and a first family id. *)
Definition verified (a : AddRecordModal.Auth)
  : option (User * UserProfile * jsstring) :=
  match AddRecordModal.user a, AddRecordModal.userProfile a with
  | Some u, Some up =>
      match familyIDs up with
      | Some (familyId :: _) => Some (u, up, familyId)
      | _ => None
      end
  | _, _ => None
  end.

(** The state in which a submission ends: not submitting, with the error
    that was set last. *)
Definition submitted (e : jsstring) (st : AddRecordModal.State)
  : AddRecordModal.State :=
  AddRecordModal.withSubmitting false
    (AddRecordModal.withError e
       (AddRecordModal.withError (js "")
          (AddRecordModal.withSubmitting true st))).

(** What a verified submission does about storage: it invokes nothing
    because no image was chosen, or because the date of a measurement could
    not be converted, or it invokes the storage and record operations [op]
    (for a snapshot the upload and then [addRecord], otherwise
    [updateRecord] or [addRecord]). *)
Inductive Attempt :=
| NoImage
| BadDate (e : thrown)
| Invoke (op : M Store unit).

Definition attempt (h : Host) (p : AddRecordModal.Props) (u : User)
    (up : UserProfile) (familyId : jsstring) (st : AddRecordModal.State)
  : Attempt :=
  let f := AddRecordModal.form st in
  match AddRecordModal.recordType p with
  | snapshot =>
      match AddRecordModal.imageFile st with
      | None => NoImage
      | Some img =>
          Invoke
            (imageUrl <- uploadImage h img (uid u) ;;
             addRecord h
               (AddRecordModal.snapshotData familyId (uid u)
                  (AddRecordModal.notes f) imageUrl
                  (AddRecordModal.tagsArray (AddRecordModal.tags f)))
               (Some up) ;;;
             ret tt)
      end
  | t =>
      match AddRecordModal.recordData h t f with
      | inl e => BadDate e
      | inr recordData =>
          Invoke
            match AddRecordModal.existingRecord p with
            | Some existingRecord =>
                updateRecord h (AddRecordModal.idOf existingRecord) recordData
            | None =>
                addRecord h
                  (AddRecordModal.newRecordData t familyId (uid u) recordData)
                  (Some up) ;;;
                ret tt
            end
      end
  end.

(** A string without a separator, and a string of separators only. *)
Definition sep_free (t : jsstring) : Prop :=
  Forall (fun c => is_tag_sep c = false) t.

Definition all_sep (r : jsstring) : Prop :=
  Forall (fun c => is_tag_sep c = true) r.

(** Tags with the run of separators behind each of them, in a row: a tag is
    not empty and has no separator in it, and only the last run may be
    empty, so that the runs are maximal. *)
Fixpoint well_laid (pieces : list (jsstring * jsstring)) : Prop :=
  match pieces with
  | [] => True
  | (t, r) :: rest =>
      t <> [] /\ sep_free t /\ all_sep r /\ (rest <> [] -> r <> [])
      /\ well_laid rest
  end.

Fixpoint laid_out (pieces : list (jsstring * jsstring)) : jsstring :=
  match pieces with
  | [] => []
  | (t, r) :: rest => t ++ r ++ laid_out rest
  end.

(** [tag.length > 0] *)
Definition nonempty (tag : jsstring) : bool := (0 <? length tag)%nat.


(** ** Sample data *)

Module Sample.

(** A host eight hours east of UTC on which no call fails; the messages of
    the SDK are abridged. *)
Definition host : Host := {|
  LocalTZA := fun _ => 28800000;
  fails := fun _ => None;
  sdkMessage := fun fault =>
    match fault with
    | NotPositive _ => js "Function limit() requires a positive number."
    | CursorWithoutField _ =>
        js "Invalid query. The orderBy field does not exist in the document."
    end;
  autoId := fun store _ => js "doc" ++ [N.of_nat (48 + length store)];
  serverNow := fun store =>
    {| seconds := 1700000000 + Z.of_nat (length store); nanoseconds := 0 |};
  uploadedURL := fun _ uid => js "https://storage/" ++ uid;
  compressedFile := fun f o =>
    {| file_type := fileType o; file_bytes := take 2 (file_bytes f) |};
  objectURL := fun _ => js "blob:preview";
  toNumber := fun s => VNum (Z.of_nat (length s));
  timestampOfDateInput := fun s =>
    inr {| seconds := 86400 * Z.of_nat (length s); nanoseconds := 0 |}
|}.

Definition profile : UserProfile :=
  {| displayName := Some (js "Mia"); familyIDs := Some [js "fam1"] |}.

(** 2024-02-29 23:30:00 UTC, which is the first of March on [host]. *)
Definition leapDay : Timestamp := {| seconds := 1709249400; nanoseconds := 0 |}.

Definition snapshotData : obj :=
  {[ "type" := VStr (js "snapshot");
     "familyId" := VStr (js "fam1");
     "creatorId" := VStr (js "u1") ]}.

Definition measurementData : obj :=
  {[ "type" := VStr (js "measurement");
     "familyId" := VStr (js "fam1");
     "creatorId" := VStr (js "u1");
     "timestamp" := VTimestamp leapDay ]}.

Definition noOptions : Options.t :=
  {| Options.perPage := None; Options.lastDoc := None; Options.filter := None |}.

Definition yearOptions (y : Z) : Options.t :=
  {| Options.perPage := None; Options.lastDoc := None;
     Options.filter :=
       Some {| Options.year := Some y; Options.month := None;
               Options.tag := None |} |}.

Definition photo : DocSnap :=
  {| doc_id := js "p1";
     doc_data := {[ "type" := VStr (js "snapshot");
                    "familyId" := VStr (js "fam1");
                    "timestamp" := VTimestamp leapDay ]} |}.

(** A measurement that was stored without a timestamp. *)
Definition undated : DocSnap :=
  {| doc_id := js "m1";
     doc_data := {[ "type" := VStr (js "measurement");
                    "familyId" := VStr (js "fam1");
                    "babyId" := VStr (js "baby_01") ]} |}.

(** A measurement and a snapshot whose data have a field [id] of their
    own. *)
Definition labelled : DocSnap :=
  {| doc_id := js "m2";
     doc_data := {[ "type" := VStr (js "measurement");
                    "familyId" := VStr (js "fam1");
                    "babyId" := VStr (js "baby_01");
                    "id" := VStr (js "mine");
                    "timestamp" := VTimestamp leapDay ]} |}.

Definition labelledPhoto : DocSnap :=
  {| doc_id := js "p2";
     doc_data := {[ "type" := VStr (js "snapshot");
                    "familyId" := VStr (js "fam1");
                    "id" := VStr (js "mine");
                    "timestamp" := VTimestamp leapDay ]} |}.

(** The last nanosecond of February 2024 on [host]:
    2024-02-29 15:59:59.999999999 UTC. *)
Definition lastOfFebruary : Timestamp :=
  {| seconds := 1709222399; nanoseconds := 999999999 |}.

Definition measured (id : string) (s : Z) : DocSnap :=
  {| doc_id := js id;
     doc_data := {[ "type" := VStr (js "measurement");
                    "familyId" := VStr (js "fam1");
                    "babyId" := VStr (js "baby_01");
                    "timestamp" := VTimestamp {| seconds := s; nanoseconds := 0 |} ]} |}.

Definition photoAt (id : string) (s : Z) : DocSnap :=
  {| doc_id := js id;
     doc_data := {[ "type" := VStr (js "snapshot");
                    "familyId" := VStr (js "fam1");
                    "tags" := VArr [js "park"];
                    "timestamp" := VTimestamp {| seconds := s; nanoseconds := 0 |} ]} |}.

Definition pageOptions (n : Z) (after : option DocSnap) : Options.t :=
  {| Options.perPage := Some n; Options.lastDoc := after;
     Options.filter :=
       Some {| Options.year := None; Options.month := Some 0;
               Options.tag := Some (js " park ") |} |}.

Definition user : User := {| uid := js "u1" |}.

Definition auth : AddRecordModal.Auth :=
  {| AddRecordModal.user := Some user;
     AddRecordModal.userProfile := Some profile |}.

Definition snapshotProps : AddRecordModal.Props :=
  {| AddRecordModal.recordType := snapshot;
     AddRecordModal.existingRecord := None |}.

Definition feedingProps : AddRecordModal.Props :=
  {| AddRecordModal.recordType := feeding;
     AddRecordModal.existingRecord := None |}.

Definition form : AddRecordModal.Form :=
  {| AddRecordModal.notes := js "first steps";
     AddRecordModal.tags := js "park, 公園，sun ";
     AddRecordModal.amount := js "120";
     AddRecordModal.foodItems := js "";
     AddRecordModal.reaction := js "good";
     AddRecordModal.measurementType := js "weight";
     AddRecordModal.value := js "";
     AddRecordModal.recordDate := js "2024-03-01" |}.

Definition jpeg : File :=
  {| file_type := js "image/jpeg"; file_bytes := [255; 216; 255; 224]%N |}.

Definition gif : File :=
  {| file_type := js "image/gif"; file_bytes := [71; 73; 70]%N |}.

(** The modal as it opens, and with a compressed image chosen. *)
Definition idle : AddRecordModal.State :=
  {| AddRecordModal.isSubmitting := false;
     AddRecordModal.isProcessing := false;
     AddRecordModal.error := js "";
     AddRecordModal.imageFile := None;
     AddRecordModal.imagePreview := None;
     AddRecordModal.form := form |}.

Definition ready : AddRecordModal.State :=
  AddRecordModal.withImageFile
    (Some (compressedFile host jpeg AddRecordModal.compressionOptions)) idle.

(** A host on which the upload fails. *)
Definition offline : Host :=
  {| LocalTZA := LocalTZA host;
     fails := fun ev =>
       match ev with
       | UploadImage _ _ => Some (Error (js "network"))
       | _ => None
       end;
     sdkMessage := sdkMessage host;
     autoId := autoId host;
     serverNow := serverNow host;
     uploadedURL := uploadedURL host;
     compressedFile := compressedFile host;
     objectURL := objectURL host;
     toNumber := toNumber host;
     timestampOfDateInput := timestampOfDateInput host |}.

End Sample.

(** ** The record modal on an existing record *)

Module ExistingRecord.
Import AddRecordModal.

(** [array.join(separator)] on an array of strings. *)
Fixpoint join (separator : jsstring) (array : list jsstring) : jsstring :=
  match array with
  | [] => []
  | [x] => x
  | x :: rest => x ++ separator ++ join separator rest
  end.

(** What the effect on [existingRecord] hands to [setTags]:
    [Array.isArray(existingRecord.tags) ? existingRecord.tags.join(', ') : ''] *)
Definition tagsText (existingRecord : obj) : jsstring :=
  match existingRecord !! "tags" with
  | Some (VArr tags) => join (js ", ") tags
  | _ => js ""
  end.

(** [handleDelete()]; [confirmed] is what [window.confirm] answers, which is
    asked only when there is a record. *)
Definition handleDelete (h : Host) (p : Props) (confirmed : bool)
  : M UI unit :=
  match existingRecord p with
  | Some existingRecord =>
      if confirmed then
        try_catch
          (records (deleteRecord h (idOf existingRecord)) ;;;
           onClose)
          (fun err =>
             setError (js "刪除失敗，請稍後再試。") ;;;
             console_error "err")
      else ret tt
  | None => ret tt
  end.

End ExistingRecord.

(** The fields that the form of a record type writes, [recordData] of
    [handleSubmit] before [type], [familyId] and [creatorId] are assigned. *)
Definition formFields (recordType : CreatableRecordType) : list string :=
  match recordType with
  | feeding => ["notes"; "amount"]
  | solid_food => ["notes"; "foodItems"; "reaction"]
  | measurement => ["notes"; "measurementType"; "value"; "timestamp"]
  | _ => ["notes"]
  end.

(** Clicks on buttons of the floating action button, one after the other. *)
Fixpoint clicks (bs : list FloatingActionButton.Button)
  : M FloatingActionButton.State unit :=
  match bs with
  | [] => ret tt
  | b :: bs => FloatingActionButton.onClick b ;;; clicks bs
  end.

(** The types of the sub-buttons among [bs], in order. *)
Definition subButtonTypes (bs : list FloatingActionButton.Button)
  : list CreatableRecordType :=
  List.flat_map
    (fun b => match b with
              | FloatingActionButton.SubButton t => [t]
              | FloatingActionButton.MainButton => []
              end) bs.

(** ** [dateToString] *)

Module IsoDate.
Import JsDate.

(** [DateFromTime(t)] and the time within the day, of ECMA-262. *)
Definition DateFromTime (t : Z) : Z :=
  let d := DayWithinYear t in
  let L := InLeapYear t in
  match MonthFromTime t with
  | 0 => d + 1
  | 1 => d - 30
  | 2 => d - 58 - L
  | 3 => d - 89 - L
  | 4 => d - 119 - L
  | 5 => d - 150 - L
  | 6 => d - 180 - L
  | 7 => d - 211 - L
  | 8 => d - 242 - L
  | 9 => d - 272 - L
  | 10 => d - 303 - L
  | _ => d - 333 - L
  end.

Definition HourFromTime (t : Z) : Z := (t / 3600000) mod 24.
Definition MinFromTime (t : Z) : Z := (t / 60000) mod 60.
Definition SecFromTime (t : Z) : Z := (t / 1000) mod 60.
Definition msFromTime (t : Z) : Z := t mod 1000.

(** The [n] low decimal digits of [x], the most significant first. *)
Fixpoint digits (n : nat) (x : Z) : jsstring :=
  match n with
  | O => []
  | S n => digits n (x / 10) ++ [Z.to_N (48 + x mod 10)]
  end.

(** [date.toISOString()], with [date] the time value of the date and [None]
    an invalid date, for which the method throws a [RangeError] ([None]
    here): [YYYY-MM-DDTHH:mm:ss.sssZ], the year with a sign and six digits
    when it is not within 0 and 9999. *)
Definition toISOString (date : option Z) : option jsstring :=
  match date with
  | None => None
  | Some tv =>
      let y := YearFromTime tv in
      Some ((if (0 <=? y) && (y <=? 9999) then digits 4 y
             else (if y <? 0 then js "-" else js "+") ++ digits 6 (Z.abs y))
            ++ js "-" ++ digits 2 (MonthFromTime tv + 1)
            ++ js "-" ++ digits 2 (DateFromTime tv)
            ++ js "T" ++ digits 2 (HourFromTime tv)
            ++ js ":" ++ digits 2 (MinFromTime tv)
            ++ js ":" ++ digits 2 (SecFromTime tv)
            ++ js "." ++ digits 3 (msFromTime tv)
            ++ js "Z")
  end.

(** [s.split(separator)] for a separator of one code unit. *)
Fixpoint split (separator : N) (s : jsstring) : list jsstring :=
  match s with
  | [] => [[]]
  | c :: s' =>
      if (c =? separator)%N then [] :: split separator s'
      else match split separator s' with
           | piece :: pieces => (c :: piece) :: pieces
           | [] => [[c]]
           end
  end.

(** [dateToString(date)]: [date.toISOString().split('T')[0]]; the array has
    a first element whatever the string. *)
Definition dateToString (date : option Z) : option jsstring :=
  match toISOString date with
  | Some s => Some (List.hd [] (split 84 s))
  | None => None
  end.

End IsoDate.

(** ** The form of the record modal, as it is rendered *)

Module RecordForm.
Import AddRecordModal.

(** The fields of the form as [useState] makes them, with [now] the time
    value of [new Date()]; [dateToString] does not throw for it. *)
Definition initialForm (now : Z) : Form :=
  {| notes := js "";
     tags := js "";
     amount := js "";
     foodItems := js "";
     reaction := js "good";
     measurementType := js "weight";
     value := js "";
     recordDate := default [] (IsoDate.dateToString (Some now)) |}.

(** The text inputs that the component renders: the tags, for a snapshot,
    and the notes. *)
Inductive Input := TagsInput | NotesInput.

(** Their [onChange], [setTags(e.target.value)] and
    [setNotes(e.target.value)]. *)
Definition onChange (input : Input) (value : jsstring) (f : Form) : Form :=
  match input with
  | TagsInput =>
      {| notes := notes f; tags := value; amount := amount f;
         foodItems := foodItems f; reaction := reaction f;
         measurementType := measurementType f; value := AddRecordModal.value f;
         recordDate := recordDate f |}
  | NotesInput =>
      {| notes := value; tags := tags f; amount := amount f;
         foodItems := foodItems f; reaction := reaction f;
         measurementType := measurementType f; value := AddRecordModal.value f;
         recordDate := recordDate f |}
  end.

(** The form after the user has typed [edits], one after the other. *)
Definition typed (edits : list (Input * jsstring)) (f : Form) : Form :=
  fold_left (fun f e => onChange e.1 e.2 f) edits f.

End RecordForm.

(** * Properties *)

Example js_fullwidth_comma : js "，" = [65292%N].
Proof. reflexivity. Qed.

Example split_sample :
  split_class is_tag_sep (js ",a, b，，c ") = [js ""; js "a"; js "b"; js "c"; js ""].
Proof. reflexivity. Qed.

Example date_sample :
  let ts := {| seconds := 1709251200; nanoseconds := 0 |} in
  JsDate.getFullYear (fun _ => 0) (JsDate.toDate ts) = 2024
  /\ JsDate.getMonth (fun _ => 0) (JsDate.toDate ts) = 2
  /\ JsDate.getMonth (fun _ => -3600000) (JsDate.toDate ts) = 1.
Proof. repeat split; reflexivity. Qed.

Lemma YearFromTime_spec t :
  JsDate.DayFromYear (JsDate.YearFromTime t) <= JsDate.Day t
  < JsDate.DayFromYear (JsDate.YearFromTime t + 1).
Proof.
  unfold JsDate.YearFromTime, JsDate.DayFromYear.
  generalize (JsDate.Day t) as d. intros d. cbv zeta.
  repeat match goal with
         | |- context [ ?a <=? ?b ] => destruct (Z.leb_spec a b)
         end;
    Z.div_mod_to_equations; lia.
Qed.

(** A year has the days of [DaysInYear], so that the years follow one
    another without a gap. *)
Lemma DayFromYear_step y :
  JsDate.DayFromYear (y + 1) = JsDate.DayFromYear y + JsDate.DaysInYear y.
Proof.
  unfold JsDate.DayFromYear, JsDate.DaysInYear.
  repeat match goal with
         | |- context [ ?a =? ?b ] => destruct (Z.eqb_spec a b)
         end; cbn [negb];
    Z.div_mod_to_equations; lia.
Qed.

(** The day within the year is a day of that year. *)
Lemma DayWithinYear_range t :
  0 <= JsDate.DayWithinYear t < JsDate.DaysInYear (JsDate.YearFromTime t).
Proof.
  unfold JsDate.DayWithinYear.
  pose proof (YearFromTime_spec t) as H.
  rewrite DayFromYear_step in H. lia.
Qed.

(** ** The calendar counted out *)

Lemma year_length_DaysInYear y : year_length y = JsDate.DaysInYear y.
Proof.
  unfold year_length, leap_year, JsDate.DaysInYear.
  destruct (y mod 4 =? 0), (y mod 100 =? 0), (y mod 400 =? 0); reflexivity.
Qed.

Lemma days_of_years_spec n y :
  days_of_years y n
  = JsDate.DayFromYear (y + Z.of_nat n) - JsDate.DayFromYear y.
Proof.
  revert y. induction n as [|n IH]; intros y.
  - cbn [days_of_years]. replace (y + Z.of_nat 0) with y by lia. lia.
  - cbn [days_of_years]. rewrite IH, year_length_DaysInYear.
    replace (y + 1 + Z.of_nat n) with (y + Z.of_nat (S n)) by lia.
    rewrite DayFromYear_step. lia.
Qed.

(** The days counted year by year are those of the formula of ECMA-262. *)
Lemma year_start_spec y : year_start y = JsDate.DayFromYear y.
Proof.
  unfold year_start. destruct (Z.leb_spec 1970 y).
  - rewrite days_of_years_spec.
    replace (1970 + Z.of_nat (Z.to_nat (y - 1970))) with y by lia.
    change (JsDate.DayFromYear 1970) with 0. lia.
  - rewrite days_of_years_spec.
    replace (y + Z.of_nat (Z.to_nat (1970 - y))) with 1970 by lia.
    change (JsDate.DayFromYear 1970) with 0. lia.
Qed.

(** The year and the month of a time value are those in which its day
    falls. *)
Lemma month_of_day t :
  let y := JsDate.YearFromTime t in
  let m := JsDate.MonthFromTime t + 1 in
  1 <= m <= 12 /\ month_start y m <= JsDate.Day t < month_end y m.
Proof.
  cbv zeta.
  pose proof (DayWithinYear_range t) as Hd.
  unfold JsDate.MonthFromTime, JsDate.InLeapYear.
  rewrite <- year_length_DaysInYear in *.
  unfold month_start, month_end, month_lengths, year_length in *.
  rewrite year_start_spec.
  unfold JsDate.DayWithinYear in *.
  generalize dependent (JsDate.Day t). intros d Hd.
  generalize dependent (JsDate.DayFromYear (JsDate.YearFromTime t)).
  intros y0 Hd.
  destruct (leap_year (JsDate.YearFromTime t)); cbn [Z.eqb Pos.eqb] in *;
    repeat match goal with
           | |- context [ ?a <? ?b ] => destruct (Z.ltb_spec a b)
           end;
    repeat match goal with
           | |- context [ Z.to_nat ?e ] =>
               let v := eval vm_compute in (Z.to_nat e) in
               change (Z.to_nat e) with v
           end;
    cbn [take foldr]; lia.
Qed.

Lemma DayFromYear_lt y1 y2 :
  y1 < y2 -> JsDate.DayFromYear y1 < JsDate.DayFromYear y2.
Proof. unfold JsDate.DayFromYear. intros H. Z.div_mod_to_equations. lia. Qed.

Lemma month_cases m :
  1 <= m <= 12 ->
  m = 1 \/ m = 2 \/ m = 3 \/ m = 4 \/ m = 5 \/ m = 6 \/ m = 7 \/ m = 8
  \/ m = 9 \/ m = 10 \/ m = 11 \/ m = 12.
Proof. lia. Qed.

(** The days of a month, counted from the beginning of its year. *)
Lemma month_days y m :
  1 <= m <= 12 ->
  let L := if leap_year y then 1 else 0 in
  (m = 1 /\ month_start y m = year_start y /\ month_end y m = year_start y + 31)
  \/ (m = 2 /\ month_start y m = year_start y + 31
      /\ month_end y m = year_start y + 59 + L)
  \/ (m = 3 /\ month_start y m = year_start y + 59 + L
      /\ month_end y m = year_start y + 90 + L)
  \/ (m = 4 /\ month_start y m = year_start y + 90 + L
      /\ month_end y m = year_start y + 120 + L)
  \/ (m = 5 /\ month_start y m = year_start y + 120 + L
      /\ month_end y m = year_start y + 151 + L)
  \/ (m = 6 /\ month_start y m = year_start y + 151 + L
      /\ month_end y m = year_start y + 181 + L)
  \/ (m = 7 /\ month_start y m = year_start y + 181 + L
      /\ month_end y m = year_start y + 212 + L)
  \/ (m = 8 /\ month_start y m = year_start y + 212 + L
      /\ month_end y m = year_start y + 243 + L)
  \/ (m = 9 /\ month_start y m = year_start y + 243 + L
      /\ month_end y m = year_start y + 273 + L)
  \/ (m = 10 /\ month_start y m = year_start y + 273 + L
      /\ month_end y m = year_start y + 304 + L)
  \/ (m = 11 /\ month_start y m = year_start y + 304 + L
      /\ month_end y m = year_start y + 334 + L)
  \/ (m = 12 /\ month_start y m = year_start y + 334 + L
      /\ month_end y m = year_start y + 365 + L).
Proof.
  intros Hm. cbv zeta. unfold month_start, month_end, month_lengths.
  generalize (year_start y). intros y0.
  destruct (month_cases m Hm)
    as [->|[->|[->|[->|[->|[->|[->|[->|[->|[->|[->| ->]]]]]]]]]]];
    repeat match goal with
           | |- context [ Z.to_nat ?e ] =>
               let v := eval vm_compute in (Z.to_nat e) in
               change (Z.to_nat e) with v
           end;
    cbn [take foldr]; destruct (leap_year y); lia.
Qed.

(** The months do not overlap: the year and the month in which a day falls
    are those of the time value. *)
Lemma month_of_day_unique t y m :
  1 <= m <= 12 ->
  month_start y m <= JsDate.Day t < month_end y m ->
  y = JsDate.YearFromTime t /\ m = JsDate.MonthFromTime t + 1.
Proof.
  intros Hm Hd.
  assert (Hy : y = JsDate.YearFromTime t).
  { pose proof (YearFromTime_spec t) as Ht.
    assert (Hyr : JsDate.DayFromYear y <= JsDate.Day t
                  < JsDate.DayFromYear (y + 1)).
    { rewrite DayFromYear_step, <- year_length_DaysInYear, <- year_start_spec.
      unfold year_length. pose proof (month_days y m Hm) as Hc. cbv zeta in Hc.
      destruct (leap_year y); lia. }
    destruct (Z.lt_trichotomy y (JsDate.YearFromTime t)) as [Hlt | [Heq | Hgt]];
      [|exact Heq|]; exfalso.
    - destruct (Z.eq_dec (y + 1) (JsDate.YearFromTime t)) as [He | Hne].
      + rewrite He in Hyr. lia.
      + pose proof (DayFromYear_lt (y + 1) (JsDate.YearFromTime t)). lia.
    - destruct (Z.eq_dec (JsDate.YearFromTime t + 1) y) as [He | Hne].
      + rewrite He in Ht. lia.
      + pose proof (DayFromYear_lt (JsDate.YearFromTime t + 1) y). lia.
  }
  split; [exact Hy|]. subst y.
  pose proof (month_of_day t) as [Hm' Hd']. cbv zeta in Hm', Hd'.
  pose proof (month_days (JsDate.YearFromTime t) m Hm) as Hc.
  pose proof (month_days (JsDate.YearFromTime t) (JsDate.MonthFromTime t + 1)
                Hm') as Hc'.
  cbv zeta in Hc, Hc'.
  destruct (leap_year (JsDate.YearFromTime t)); lia.
Qed.

(** The local day of an instant is the day of its millisecond. *)
Lemma day_of_instant_millis offset ts :
  day_of_instant offset ts
  = JsDate.Day (seconds ts * 1000 + nanoseconds ts / 1000000 + offset).
Proof.
  unfold day_of_instant, JsDate.Day, JsDate.msPerDay.
  Z.div_mod_to_equations. lia.
Qed.

(** The last day of a leap year is in December, the day after it in
    January. *)
Example month_sample :
  JsDate.MonthFromTime (JsDate.msPerDay * (JsDate.DayFromYear 2025 - 1)) = 11
  /\ JsDate.DayWithinYear (JsDate.msPerDay * (JsDate.DayFromYear 2025 - 1)) = 365
  /\ JsDate.MonthFromTime (JsDate.msPerDay * JsDate.DayFromYear 2025) = 0
  /\ JsDate.YearFromTime (-1) = 1969.
Proof. repeat split; reflexivity. Qed.

(** ** How the record module's functions run *)

Lemma addRecord_run h recordData userProfile (store : Store) :
  addRecord h recordData userProfile store =
  if negb (idsGiven recordData)
  then (Throws (Error (js "Family ID and Creator ID are required.")), store, [])
  else
    match userProfile with
    | None => (Throws (Error (js "User profile is not available.")), store, [])
    | Some up =>
        let data := dataToSave h recordData up in
        match fails h (AddDoc "records" data) with
        | Some _ =>
            (Throws (Error (js "Failed to add record.")), store,
             [AddDoc "records" data; ConsoleError "Error adding document: "])
        | None =>
            (Returns (autoId h store data),
             store ++ [{| doc_id := autoId h store data;
                          doc_data := Firestore.resolve (serverNow h store) data |}],
             [AddDoc "records" data; ConsoleLog "Document written with ID: "])
        end
    end.
Proof.
  unfold addRecord, idsGiven.
  destruct (truthy (recordData !! "familyId")), (truthy (recordData !! "creatorId"));
    try reflexivity.
  destruct userProfile as [up|]; [|reflexivity].
  cbn [negb orb andb].
  unfold try_catch, bind, addDoc, call, get, modify, ret, console_log,
    console_error, emit, throw.
  destruct (fails h _); reflexivity.
Qed.

Lemma getDocs_run h coll q (store : Store) :
  getDocs h coll q store =
  (match fails h (GetDocs coll q) with
   | Some e => Throws e
   | None => Returns (Firestore.runQuery store q)
   end, store, [GetDocs coll q]).
Proof.
  unfold getDocs, bind, call, get, ret. destruct (fails h _); reflexivity.
Qed.

(** ** Trimming *)

Lemma trimStart_nil s : trimStart s = [] <-> all_whitespace s = true.
Proof.
  unfold all_whitespace.
  induction s as [|c s IH]; cbn; [tauto|].
  destruct (is_js_space c); cbn; [exact IH|]. split; discriminate.
Qed.

Lemma all_whitespace_app s1 s2 :
  all_whitespace (s1 ++ s2) = all_whitespace s1 && all_whitespace s2.
Proof. apply forallb_app. Qed.

Lemma trimStart_suffix s : exists p, s = p ++ trimStart s /\ all_whitespace p = true.
Proof.
  induction s as [|c s (p & Hs & Hp)]; cbn.
  - exists []. split; reflexivity.
  - destruct (is_js_space c) eqn:Hc.
    + exists (c :: p). split; [cbn; congruence|]. cbn. rewrite Hc. exact Hp.
    + exists []. split; reflexivity.
Qed.

Lemma all_whitespace_rev s : all_whitespace (rev s) = all_whitespace s.
Proof.
  unfold all_whitespace.
  induction s as [|c s IH]; [reflexivity|].
  cbn [rev]. rewrite forallb_app, IH. cbn.
  rewrite andb_true_r. apply andb_comm.
Qed.

Lemma trim_nil s : trim s = [] <-> all_whitespace s = true.
Proof.
  unfold trim. split.
  - intros H.
    assert (Hr : trimStart (rev (trimStart s)) = []).
    { destruct (trimStart (rev (trimStart s))) as [|x l]; [reflexivity|].
      cbn in H. destruct (rev l); discriminate. }
    apply trimStart_nil in Hr. rewrite all_whitespace_rev in Hr.
    destruct (trimStart_suffix s) as (p & Hs & Hp).
    rewrite Hs, all_whitespace_app, Hp, Hr. reflexivity.
  - intros H. apply trimStart_nil in H. rewrite H. reflexivity.
Qed.

Lemma truthy_num_spec n : truthy_num n = match n with Some y => negb (y =? 0) | None => false end.
Proof. destruct n; reflexivity. Qed.

Lemma truthy_tag tg :
  truthy_str (Some tg) && negb (bool_decide (trim tg = [])) = negb (all_whitespace tg).
Proof.
  destruct (all_whitespace tg) eqn:Hw.
  - apply trim_nil in Hw. rewrite (bool_decide_eq_true_2 _ Hw). apply andb_false_r.
  - assert (Ht : trim tg <> []) by (intros Ht; apply trim_nil in Ht; congruence).
    rewrite (bool_decide_eq_false_2 _ Ht).
    destruct tg; [discriminate|reflexivity].
Qed.

Lemma limit_run {S} h n (s : S) :
  limit h n s
  = if n <=? 0 then (Throws (Error (sdkMessage h (NotPositive n))), s, [])
    else (Returns (Limit n), s, []).
Proof. unfold limit. destruct (n <=? 0); reflexivity. Qed.

(** [baseConstraints] is the query of the specification, unless the page
    size is refused. *)
Lemma baseConstraints_spec {S} h familyId options (s : S) :
  baseConstraints h familyId options s =
  if page_size (Options.perPage options) <=? 0
  then (Throws (Error (sdkMessage h
                         (NotPositive (page_size (Options.perPage options))))),
        s, [])
  else
    (Returns
       (snapshot_query familyId (Options.perPage options)
          (Options.lastDoc options)
          (Options.filter options ≫= Options.year)
          (Options.filter options ≫= Options.month)
          (Options.filter options ≫= Options.tag)), s, []).
Proof.
  unfold baseConstraints, bind. cbv zeta. rewrite limit_run.
  assert (Hpp : (if truthy_num (Options.perPage options)
                 then default 20 (Options.perPage options) else 20)
                = page_size (Options.perPage options)).
  { rewrite truthy_num_spec. unfold page_size.
    destruct (Options.perPage options) as [n|]; [|reflexivity].
    destruct (n =? 0); reflexivity. }
  rewrite Hpp. destruct (page_size (Options.perPage options) <=? 0);
    [reflexivity|].
  unfold ret, snapshot_query, push, page_size.
  destruct options as [pp ld [[y m tg]|]];
    cbn [Options.perPage Options.lastDoc Options.filter Options.year
         Options.month Options.tag mbind option_bind].
  - destruct y as [y|], m as [m|], tg as [tg|], ld as [ld|];
      rewrite ?truthy_num_spec, ?truthy_tag;
      repeat match goal with
             | |- context [ negb (?a =? 0) ] => destruct (a =? 0)
             | |- context [ all_whitespace ?a ] => destruct (all_whitespace a)
             end;
      cbn [negb default app]; rewrite <- ?app_assoc; reflexivity.
  - destruct ld as [ld|]; cbn [app]; reflexivity.
Qed.

Lemma missing_cursor_snapshot_query familyId perPage lastDoc year month tag :
  Firestore.missing_cursor_field
    (snapshot_query familyId perPage lastDoc year month tag)
  = match lastDoc with
    | Some d => if bool_decide (doc_data d !! "timestamp" = None)
                then Some "timestamp" else None
    | None => None
    end.
Proof.
  unfold Firestore.missing_cursor_field, snapshot_query, Firestore.orderBys.
  destruct year as [y|]; [destruct (y =? 0)|];
    (destruct month as [m|]; [destruct (m =? 0)|]);
    (destruct tag as [t|]; [destruct (all_whitespace t)|]);
    (destruct lastDoc as [d|]; [|reflexivity]);
    cbn [flat_map app fst List.map]; destruct (bool_decide _); reflexivity.
Qed.

Lemma getSnapshots_run h familyId options (store : Store) :
  getSnapshots h familyId options store =
  let q := snapshot_query familyId (Options.perPage options)
             (Options.lastDoc options)
             (Options.filter options ≫= Options.year)
             (Options.filter options ≫= Options.month)
             (Options.filter options ≫= Options.tag) in
  let docs := Firestore.runQuery store q in
  match query_fault (Options.perPage options) (Options.lastDoc options) with
  | Some fault => (Throws (Error (sdkMessage h fault)), store, [])
  | None =>
      (match fails h (GetDocs "records" q) with
       | Some e => Throws e
       | None => Returns {| snapshots := List.map withId docs;
                            lastVisible := last docs |}
       end, store, [GetDocs "records" q])
  end.
Proof.
  unfold getSnapshots, query_fault. unfold bind at 1.
  rewrite baseConstraints_spec.
  destruct (page_size (Options.perPage options) <=? 0); [reflexivity|].
  cbv zeta. unfold bind at 1, query.
  rewrite missing_cursor_snapshot_query.
  destruct (Options.lastDoc options) as [d|];
    [destruct (bool_decide _); [reflexivity|]|];
    unfold ret, bind; rewrite getDocs_run;
    destruct (fails h _); reflexivity.
Qed.

Lemma getMeasurementRecords_run h familyId babyId (store : Store) :
  getMeasurementRecords h familyId babyId store =
  let q := [ Where "familyId" OpEq (VStr familyId);
             Where "babyId" OpEq (VStr babyId);
             Where "type" OpEq (VStr (js "measurement"));
             OrderBy "timestamp" Asc ] in
  (match fails h (GetDocs "records" q) with
   | Some e => Throws e
   | None => Returns (List.map withId (Firestore.runQuery store q))
   end, store, [GetDocs "records" q]).
Proof.
  unfold getMeasurementRecords. unfold bind at 1, query.
  change (Firestore.missing_cursor_field _) with (@None string).
  unfold ret, bind. rewrite getDocs_run. destruct (fails h _); reflexivity.
Qed.

(** ** Documents with their id *)

Lemma withId_field d f v : doc_data d !! f = Some v -> withId d !! f = Some v.
Proof. intros H. unfold withId, spread. apply lookup_union_Some_l, H. Qed.

Lemma withId_id d :
  doc_data d !! "id" = None -> withId d !! "id" = Some (VStr (doc_id d)).
Proof.
  intros H. unfold withId, spread.
  rewrite lookup_union_r by exact H. apply lookup_singleton_eq.
Qed.

Lemma withId_other d f : f <> "id" -> withId d !! f = doc_data d !! f.
Proof.
  intros H. unfold withId, spread.
  destruct (doc_data d !! f) as [v|] eqn:E.
  - apply lookup_union_Some_l, E.
  - rewrite lookup_union_r by exact E. apply lookup_singleton_ne. congruence.
Qed.

(** The object [{ id: doc.id, ...doc.data() }], field by field: a field of
    the data is kept as it is, also one called [id]; only when the data has
    no such field is [id] the document's id. *)
Lemma withId_lookup d f :
  withId d !! f
  = match doc_data d !! f with
    | Some v => Some v
    | None => if decide (f = "id") then Some (VStr (doc_id d)) else None
    end.
Proof.
  destruct (doc_data d !! f) as [v|] eqn:E.
  - apply withId_field, E.
  - destruct (decide (f = "id")) as [->|Hf].
    + apply withId_id, E.
    + rewrite withId_other by exact Hf. exact E.
Qed.

Lemma query_fault_None perPage lastDoc :
  query_fault perPage lastDoc = None
  <-> (forall n, perPage = Some n -> 0 <= n)
      /\ (forall d, lastDoc = Some d -> is_Some (doc_data d !! "timestamp")).
Proof.
  unfold query_fault, page_size. split.
  - intros H. split.
    + intros n ->. destruct (Z.eqb_spec n 0); [lia|].
      destruct (Z.leb_spec n 0); [discriminate|lia].
    + intros d ->.
      destruct (match perPage with Some n => _ | None => _ end <=? 0);
        [discriminate|].
      destruct (doc_data d !! "timestamp") as [v|]; [eexists; reflexivity|].
      rewrite bool_decide_eq_true_2 in H by reflexivity. discriminate.
  - intros [Hn Hd].
    assert (Hpp : (match perPage with
                   | Some n => if n =? 0 then 20 else n
                   | None => 20
                   end <=? 0) = false).
    { apply Z.leb_gt. destruct perPage as [n|]; [|lia].
      specialize (Hn n eq_refl). destruct (Z.eqb_spec n 0); lia. }
    rewrite Hpp. destruct lastDoc as [d|]; [|reflexivity].
    destruct (Hd d eq_refl) as [v Hv].
    rewrite bool_decide_eq_false_2 by congruence. reflexivity.
Qed.

(** ** C1 *)




(** Pages of two, newest first: the second page starts behind the last
    document of the first; a month of zero is no filter, and the tag is
    trimmed. *)
Example getSnapshots_pages :
  let store := [Sample.photoAt "a" 100; Sample.photoAt "b" 300;
                Sample.undated; Sample.photoAt "c" 200] in
  outcome (getSnapshots Sample.host (js "fam1") (Sample.pageOptions 2 None) store)
  = Returns {| snapshots := List.map withId [Sample.photoAt "b" 300;
                                             Sample.photoAt "c" 200];
               lastVisible := Some (Sample.photoAt "c" 200) |}
  /\ outcome (getSnapshots Sample.host (js "fam1")
                (Sample.pageOptions 2 (Some (Sample.photoAt "c" 200))) store)
     = Returns {| snapshots := List.map withId [Sample.photoAt "a" 100];
                  lastVisible := Some (Sample.photoAt "a" 100) |}
  /\ events (getSnapshots Sample.host (js "fam1") (Sample.pageOptions 0 None)
               store)
     = [GetDocs "records"
          [ Where "familyId" OpEq (VStr (js "fam1"));
            Where "type" OpEq (VStr (js "snapshot"));
            Where "tags" OpArrayContains (VStr (js "park"));
            OrderBy "timestamp" Desc;
            Limit 20 ]].
Proof. repeat split; vm_compute; reflexivity. Qed.

(** ** What [addRecord] writes *)

Lemma dataToSave_snapshot h recordData up ts :
  is_snapshot recordData ->
  recordData !! "timestamp" = Some (VTimestamp ts) ->
  dataToSave h recordData up =
  <["month" := VNum (JsDate.getMonth (LocalTZA h) (JsDate.toDate ts) + 1)]>
    (<["year" := VNum (JsDate.getFullYear (LocalTZA h) (JsDate.toDate ts))]>
       (<["timestamp" := VTimestamp ts]>
          (<["creatorName" := of_nullable (displayName up)]>
             (<["babyId" := VStr (js "baby_01")]> recordData)))).
Proof.
  intros Hty Hts. unfold dataToSave, is_snapshot in *.
  rewrite (bool_decide_eq_true_2 _ Hty), lookup_insert_eq, Hts. reflexivity.
Qed.

Lemma dataToSave_other h recordData up :
  ~ is_snapshot recordData ->
  dataToSave h recordData up =
  <["timestamp" := or_else (recordData !! "timestamp") VServerTimestamp]>
    (<["creatorName" := of_nullable (displayName up)]>
       (<["babyId" := VStr (js "baby_01")]> recordData)).
Proof.
  intros Hty. unfold dataToSave, is_snapshot in *.
  rewrite (bool_decide_eq_false_2 _ Hty). reflexivity.
Qed.

Lemma dataToSave_no_timestamp h recordData up :
  recordData !! "timestamp" = None ->
  dataToSave h recordData up =
  <["timestamp" := VServerTimestamp]>
    (<["creatorName" := of_nullable (displayName up)]>
       (<["babyId" := VStr (js "baby_01")]> recordData)).
Proof.
  intros Hts. unfold dataToSave.
  rewrite lookup_insert_eq, Hts. cbn [or_else mbind option_bind instanceof_Timestamp].
  destruct (bool_decide _); reflexivity.
Qed.

Lemma dataToSave_babyId h recordData up :
  dataToSave h recordData up !! "babyId" = Some (VStr (js "baby_01")).
Proof.
  unfold dataToSave.
  destruct (bool_decide _); [destruct (_ ≫= _)|];
    repeat (rewrite lookup_insert_ne by discriminate);
    apply lookup_insert_eq.
Qed.

Lemma dataToSave_creatorName h recordData up :
  dataToSave h recordData up !! "creatorName"
  = Some (of_nullable (displayName up)).
Proof.
  unfold dataToSave.
  destruct (bool_decide _); [destruct (_ ≫= _)|];
    repeat (rewrite lookup_insert_ne by discriminate);
    apply lookup_insert_eq.
Qed.

Lemma resolve_lookup now (data : obj) f :
  Firestore.resolve now data !! f = Firestore.resolve_value now <$> data !! f.
Proof. unfold Firestore.resolve. apply lookup_fmap. Qed.

Lemma MonthFromTime_range t : 0 <= JsDate.MonthFromTime t <= 11.
Proof.
  unfold JsDate.MonthFromTime. cbv zeta.
  repeat match goal with
         | |- context [ ?a <? ?b ] => destruct (a <? b)
         end; lia.
Qed.

(** A successful [addRecord] had a profile, made one [addDoc] call with
    [dataToSave], and appended one document, which holds that data with the
    server's time for the sentinel. *)
Lemma addRecord_returns h recordData userProfile (store : Store) id :
  outcome (addRecord h recordData userProfile store) = Returns id ->
  exists up,
    userProfile = Some up
    /\ idsGiven recordData = true
    /\ fails h (AddDoc "records" (dataToSave h recordData up)) = None
    /\ id = autoId h store (dataToSave h recordData up)
    /\ final (addRecord h recordData userProfile store)
       = store ++ [{| doc_id := id;
                      doc_data := Firestore.resolve (serverNow h store)
                                    (dataToSave h recordData up) |}]
    /\ events (addRecord h recordData userProfile store)
       = [AddDoc "records" (dataToSave h recordData up);
          ConsoleLog "Document written with ID: "].
Proof.
  rewrite addRecord_run.
  destruct (idsGiven recordData); [|discriminate].
  destruct userProfile as [up|]; [|discriminate].
  cbv zeta. destruct (fails h _) eqn:Hf; [discriminate|].
  cbn. intros [= <-]. exists up. repeat split; auto.
Qed.

(** ** C9 *)

(** C9. Every document that [addRecord] creates has [babyId] equal to
    ['baby_01'] and [creatorName] equal to the profile's [displayName],
    whatever [recordData] holds for these two fields; the same is true of
    the data of every [addDoc] call that [addRecord] makes. *)
Theorem addRecord_overwrites h recordData userProfile (store : Store) :
  (forall id,
     outcome (addRecord h recordData userProfile store) = Returns id ->
     exists up stored,
       userProfile = Some up
       /\ final (addRecord h recordData userProfile store) = store ++ [stored]
       /\ doc_id stored = id
       /\ doc_data stored !! "babyId" = Some (VStr (js "baby_01"))
       /\ doc_data stored !! "creatorName" = Some (of_nullable (displayName up)))
  /\ (forall coll data,
        In (AddDoc coll data) (events (addRecord h recordData userProfile store)) ->
        exists up,
          userProfile = Some up
          /\ data !! "babyId" = Some (VStr (js "baby_01"))
          /\ data !! "creatorName" = Some (of_nullable (displayName up))).
Proof.
  split.
  - intros id Hret.
    destruct (addRecord_returns _ _ _ _ _ Hret) as (up & -> & _ & _ & _ & Hfin & _).
    eexists up, _. split; [reflexivity|]. split; [exact Hfin|].
    cbn [doc_id doc_data]. split; [reflexivity|].
    rewrite !resolve_lookup, dataToSave_babyId, dataToSave_creatorName.
    split; [reflexivity|]. destruct (displayName up); reflexivity.
  - intros coll data Hin. rewrite addRecord_run in Hin.
    destruct (idsGiven recordData); [|destruct Hin].
    destruct userProfile as [up|]; [|destruct Hin].
    exists up. split; [reflexivity|].
    cbv zeta in Hin.
    assert (data = dataToSave h recordData up) as ->.
    { destruct (fails h _); cbn in Hin;
        destruct Hin as [[= _ H]|[H|[]]]; try discriminate; auto. }
    split; [apply dataToSave_babyId | apply dataToSave_creatorName].
Qed.

Lemma addRecord_overwrites_witness :
  exists stored,
    final (addRecord Sample.host
             (<["babyId" := VStr (js "other")]>
                (<["creatorName" := VStr (js "nobody")]> Sample.snapshotData))
             (Some Sample.profile) []) = [stored]
    /\ doc_data stored !! "babyId" = Some (VStr (js "baby_01"))
    /\ doc_data stored !! "creatorName" = Some (VStr (js "Mia")).
Proof.
  destruct (addRecord_overwrites Sample.host
              (<["babyId" := VStr (js "other")]>
                 (<["creatorName" := VStr (js "nobody")]> Sample.snapshotData))
              (Some Sample.profile) []) as [H _].
  destruct (H (js "doc0")) as (up & stored & Hup & Hfin & _ & Hb & Hc).
  - vm_compute. reflexivity.
  - injection Hup as <-. exists stored. split; [exact Hfin|].
    split; [exact Hb | exact Hc].
Defined.

(** ** The order of documents and what a query returns *)

Lemma lex_cmp_antisym a b :
  Firestore.lex_cmp b a = CompOpp (Firestore.lex_cmp a b).
Proof.
  revert b. induction a as [|x a IH]; intros [|y b]; cbn; try reflexivity.
  rewrite (Z.compare_antisym x y).
  destruct (x ?= y); cbn; auto.
Qed.

Lemma lex_cmp_trans a b c :
  Firestore.lex_cmp a b <> Gt -> Firestore.lex_cmp b c <> Gt ->
  Firestore.lex_cmp a c <> Gt.
Proof.
  revert b c. induction a as [|x a IH]; intros [|y b] [|z c]; cbn;
    try congruence.
  destruct (Z.compare_spec x y), (Z.compare_spec y z); subst; try congruence;
    intros H1 H2.
  - rewrite Z.compare_refl. eauto.
  - rewrite (proj2 (Z.compare_lt_iff _ _)) by lia. discriminate.
  - rewrite (proj2 (Z.compare_lt_iff _ _)) by lia. discriminate.
  - rewrite (proj2 (Z.compare_lt_iff _ _)) by lia. discriminate.
Qed.

Lemma directed_antisym dir c : Firestore.directed dir (CompOpp c)
                               = CompOpp (Firestore.directed dir c).
Proof. destruct dir; reflexivity. Qed.

Lemma doc_cmp_antisym last obs d1 d2 :
  Firestore.doc_cmp last obs d2 d1 = CompOpp (Firestore.doc_cmp last obs d1 d2).
Proof.
  revert last. induction obs as [|[f dir] obs IH]; intros last; cbn.
  - rewrite lex_cmp_antisym. apply directed_antisym.
  - rewrite lex_cmp_antisym, directed_antisym.
    destruct (Firestore.directed dir _); cbn; auto.
Qed.

#[global] Instance doc_le_total obs : Total (Firestore.doc_le obs).
Proof.
  intros d1 d2. unfold Firestore.doc_le.
  rewrite (doc_cmp_antisym Asc obs d1 d2).
  destruct (Firestore.doc_cmp Asc obs d1 d2); cbn; [left|left|right]; discriminate.
Qed.

#[global] Instance timestamp_le_trans : Transitive timestamp_le.
Proof. intros d1 d2 d3. apply lex_cmp_trans. Qed.

Lemma doc_le_timestamp dir d1 d2 :
  Firestore.doc_le [("timestamp", dir)] d1 d2 ->
  match dir with Asc => timestamp_le d1 d2 | Desc => timestamp_le d2 d1 end.
Proof.
  unfold Firestore.doc_le, timestamp_le. cbn.
  destruct dir; cbn.
  - destruct (Firestore.lex_cmp _ _); congruence.
  - rewrite (lex_cmp_antisym (Firestore.field_key d1 "timestamp")).
    destruct (Firestore.lex_cmp _ _); cbn; congruence.
Qed.

(** Between two timestamps the order is that of the seconds and then of the
    nanoseconds. *)
Lemma timestamp_le_Timestamp d1 d2 t1 t2 :
  doc_data d1 !! "timestamp" = Some (VTimestamp t1) ->
  doc_data d2 !! "timestamp" = Some (VTimestamp t2) ->
  timestamp_le d1 d2 <->
  seconds t1 < seconds t2
  \/ (seconds t1 = seconds t2 /\ nanoseconds t1 <= nanoseconds t2).
Proof.
  intros H1 H2. unfold timestamp_le, Firestore.field_key. rewrite H1, H2. cbn.
  destruct (Z.compare_spec (seconds t1) (seconds t2)),
           (Z.compare_spec (nanoseconds t1) (nanoseconds t2));
    split; intros; try lia; try congruence; try discriminate.
Qed.

Lemma In_limited q l d : In d (Firestore.limited q l) -> In d l.
Proof.
  unfold Firestore.limited. induction q as [|c q IH]; cbn; [auto|].
  destruct c; auto. intros H. apply IH.
  apply list_elem_of_In in H. apply list_elem_of_In.
  exact (subseteq_take _ _ _ H).
Qed.

(** Whatever a query returns is in the collection and passes every
    constraint of the query. *)
Lemma runQuery_In store q d :
  In d (Firestore.runQuery store q) ->
  In d store /\ forall c, In c q -> Firestore.passes d c = true.
Proof.
  unfold Firestore.runQuery. intros H.
  apply In_limited, List.filter_In in H. destruct H as [H _].
  apply list_elem_of_In in H. rewrite merge_sort_Permutation in H.
  apply list_elem_of_In, List.filter_In in H. destruct H as [H1 H2].
  split; [exact H1|]. apply forallb_forall. exact H2.
Qed.

(** ** C2 *)




(** A record of another type keeps the year it was given, and gets none
    when it was given none. *)
Example addRecord_measurement_no_year :
  exists stored,
    final (addRecord Sample.host Sample.measurementData (Some Sample.profile) [])
    = [stored]
    /\ doc_data stored !! "year" = None
    /\ doc_data stored !! "month" = None
    /\ doc_data stored !! "timestamp" = Some (VTimestamp Sample.leapDay).
Proof. eexists. repeat split; vm_compute; reflexivity. Qed.

(** ** C4 *)

Lemma updateRecord_run h recordId updatedData (store : Store) :
  recordId <> [] ->
  updateRecord h recordId updatedData store =
  match fails h (DocRef "records" recordId) with
  | Some e => (Throws e, store, [DocRef "records" recordId])
  | None =>
      match (updateDoc h "records" recordId updatedData store) with
      | (Returns _, store', ev) =>
          (Returns tt, store',
           DocRef "records" recordId :: ev ++ [ConsoleLog "Document updated with ID: "])
      | (Throws _, store', ev) =>
          (Throws (Error (js "Failed to update record.")), store',
           DocRef "records" recordId :: ev ++ [ConsoleError "Error updating document: "])
      end
  end.
Proof.
  intros Hid. unfold updateRecord, truthy_str. cbn [fmap option_fmap option_map truthy].
  rewrite (bool_decide_eq_false_2 _ Hid). cbn [negb].
  unfold bind at 1. unfold doc, bind at 1, call, ret.
  destruct (fails h (DocRef "records" recordId)); [reflexivity|].
  unfold try_catch, bind at 1.
  destruct (updateDoc h "records" recordId updatedData store) as [[[[]|e] s1] ev1];
    cbn; rewrite ?app_nil_r; reflexivity.
Qed.

(** A record is updated field by field, and deleted by its id; an id that
    is not in the collection makes the update fail. *)
Example updateRecord_deleteRecord_sample :
  let store := [Sample.measured "a" 100; Sample.measured "b" 200] in
  (exists d,
     final (updateRecord Sample.host (js "a") {[ "value" := VNum 7 ]} store)
     = [d; Sample.measured "b" 200]
     /\ doc_data d !! "value" = Some (VNum 7)
     /\ doc_data d !! "type" = Some (VStr (js "measurement")))
  /\ outcome (updateRecord Sample.host (js "z") {[ "value" := VNum 7 ]} store)
     = Throws (Error (js "Failed to update record."))
  /\ final (deleteRecord Sample.host (js "a") store) = [Sample.measured "b" 200].
Proof.
  cbv zeta. split; [eexists; repeat split; vm_compute; reflexivity|].
  split; vm_compute; reflexivity.
Qed.

(** The first of the two checks of [addRecord] wins: without the identifiers
    the message is theirs, also when there is no profile. And the two
    reading wrappers check nothing: with empty identifiers they send their
    query all the same. *)
Lemma crud_validation_counterexample :
  (outcome (addRecord Sample.host ∅ None [])
   = Throws (Error (js "Family ID and Creator ID are required."))
   /\ outcome (addRecord Sample.host ∅ None [])
      <> Throws (Error (js "User profile is not available.")))
  /\ getSnapshots Sample.host (js "") Sample.noOptions [Sample.photo]
     = (Returns {| snapshots := []; lastVisible := None |}, [Sample.photo],
        [GetDocs "records"
           [ Where "familyId" OpEq (VStr (js ""));
             Where "type" OpEq (VStr (js "snapshot"));
             OrderBy "timestamp" Desc;
             Limit 20 ]])
  /\ getMeasurementRecords Sample.host (js "") (js "") [Sample.photo]
     = (Returns [], [Sample.photo],
        [GetDocs "records"
           [ Where "familyId" OpEq (VStr (js ""));
             Where "babyId" OpEq (VStr (js ""));
             Where "type" OpEq (VStr (js "measurement"));
             OrderBy "timestamp" Asc ]]).
Proof.
  split; [split; [vm_compute; reflexivity | vm_compute; discriminate]|].
  split; vm_compute; reflexivity.
Qed.

(** C4, amended. Each of the three writing wrappers checks its identifiers
    before it calls the backend. [addRecord] throws
    ['Family ID and Creator ID are required.'] whenever [familyId] or
    [creatorId] is missing or empty, and ['User profile is not available.']
    whenever both are there and the profile is null; [updateRecord] and
    [deleteRecord] throw their ['Record ID is required ...'] message
    whenever the id is empty. In each case no call is made and the
    collection is as it was. The two reading wrappers check nothing:
    [getMeasurementRecords] sends its query whatever its arguments are, and
    so does [getSnapshots] whenever the query builders accept its
    options. *)
Theorem validation_before_backend :
  (forall h recordData userProfile (store : Store),
     truthy (recordData !! "familyId") = false
     \/ truthy (recordData !! "creatorId") = false ->
     addRecord h recordData userProfile store
     = (Throws (Error (js "Family ID and Creator ID are required.")), store, []))
  /\ (forall h recordData (store : Store),
        truthy (recordData !! "familyId") = true ->
        truthy (recordData !! "creatorId") = true ->
        addRecord h recordData None store
        = (Throws (Error (js "User profile is not available.")), store, []))
  /\ (forall h updatedData (store : Store),
        updateRecord h [] updatedData store
        = (Throws (Error (js "Record ID is required for updating.")), store, []))
  /\ (forall h (store : Store),
        deleteRecord h [] store
        = (Throws (Error (js "Record ID is required for deletion.")), store, []))
  /\ (forall h familyId babyId (store : Store),
        events (getMeasurementRecords h familyId babyId store)
        = [GetDocs "records"
             [ Where "familyId" OpEq (VStr familyId);
               Where "babyId" OpEq (VStr babyId);
               Where "type" OpEq (VStr (js "measurement"));
               OrderBy "timestamp" Asc ]])
  /\ (forall h familyId options (store : Store),
        query_fault (Options.perPage options) (Options.lastDoc options) = None ->
        events (getSnapshots h familyId options store)
        = [GetDocs "records"
             (snapshot_query familyId (Options.perPage options)
                (Options.lastDoc options)
                (Options.filter options ≫= Options.year)
                (Options.filter options ≫= Options.month)
                (Options.filter options ≫= Options.tag))]).
Proof.
  split; [|split; [|split; [|split; [|split]]]].
  - intros h rd up store H. rewrite addRecord_run. unfold idsGiven.
    destruct H as [-> | ->]; rewrite ?andb_false_r; reflexivity.
  - intros h rd store H1 H2. rewrite addRecord_run. unfold idsGiven.
    rewrite H1, H2. reflexivity.
  - reflexivity.
  - reflexivity.
  - intros h familyId babyId store. rewrite getMeasurementRecords_run.
    reflexivity.
  - intros h familyId options store Hq. rewrite getSnapshots_run.
    cbv zeta. rewrite Hq. reflexivity.
Qed.

(** A field that is missing, or an empty string, is falsy. *)
Lemma missing_or_empty_falsy (recordData : obj) f :
  recordData !! f = None \/ recordData !! f = Some (VStr []) ->
  truthy (recordData !! f) = false.
Proof. intros [-> | ->]; reflexivity. Qed.

Lemma validation_before_backend_witness :
  addRecord Sample.host {[ "familyId" := VStr (js "fam1") ]} (Some Sample.profile)
    [Sample.photo]
  = (Throws (Error (js "Family ID and Creator ID are required.")),
     [Sample.photo], [])
  /\ addRecord Sample.host Sample.snapshotData None [Sample.photo]
     = (Throws (Error (js "User profile is not available.")), [Sample.photo], []).
Proof.
  destruct validation_before_backend as (H1 & H2 & _).
  split.
  - apply H1. right. vm_compute. reflexivity.
  - apply H2; vm_compute; reflexivity.
Defined.

(** ** C5 *)

Lemma filter_all {A} (l : list A) : List.filter (fun _ => true) l = l.
Proof. induction l; cbn; congruence. Qed.

Lemma Sorted_weaken {A} (R R' : relation A) l :
  (forall x y, R x y -> R' x y) -> Sorted R l -> Sorted R' l.
Proof.
  intros HR. induction 1 as [|x l _ IH Hd]; constructor; [exact IH|].
  destruct Hd; constructor; auto.
Qed.

Lemma measurement_query_result store familyId babyId :
  Firestore.runQuery store
    [ Where "familyId" OpEq (VStr familyId);
      Where "babyId" OpEq (VStr babyId);
      Where "type" OpEq (VStr (js "measurement"));
      OrderBy "timestamp" Asc ]
  = merge_sort (Firestore.doc_le [("timestamp", Asc)])
      (List.filter (is_measurement_of familyId babyId) store).
Proof.
  unfold Firestore.runQuery.
  cbn [Firestore.limited fold_right Firestore.orderBys flat_map app].
  unfold Firestore.behind_cursors. cbn [forallb andb].
  rewrite filter_all. f_equal. apply List.filter_ext. intros d.
  unfold is_measurement_of. cbn [forallb Firestore.passes].
  rewrite andb_true_r, !andb_assoc. reflexivity.
Qed.

(** A measurement whose data has a field [id] of its own comes back with
    that field, not with its document id. *)
Lemma getMeasurementRecords_counterexample :
  outcome (getMeasurementRecords Sample.host (js "fam1") (js "baby_01")
             [Sample.labelled])
  = Returns [withId Sample.labelled]
  /\ doc_id Sample.labelled = js "m2"
  /\ withId Sample.labelled !! "id" = Some (VStr (js "mine")).
Proof. repeat split; vm_compute; reflexivity. Qed.

(** C5, amended. For every [familyId] and [babyId], [getMeasurementRecords]
    sends one query and, unless that call fails, returns exactly the records
    of the collection whose [familyId] and [babyId] are the given ones, whose
    [type] is ['measurement'] and which have a [timestamp] field, as every
    record that [addRecord] writes has, in ascending order of the
    [timestamp] field. Each comes as the object
    [{ id: doc.id, ...doc.data() }]: the fields of its data as they are, and
    [id] the document's id when the data has no field of that name. *)
Theorem getMeasurementRecords_result h familyId babyId (store : Store) :
  let q := [ Where "familyId" OpEq (VStr familyId);
             Where "babyId" OpEq (VStr babyId);
             Where "type" OpEq (VStr (js "measurement"));
             OrderBy "timestamp" Asc ] in
  exists docs,
    getMeasurementRecords h familyId babyId store
    = (match fails h (GetDocs "records" q) with
       | Some e => Throws e
       | None => Returns (List.map withId docs)
       end, store, [GetDocs "records" q])
    /\ docs ≡ₚ List.filter (is_measurement_of familyId babyId) store
    /\ StronglySorted timestamp_le docs
    /\ (forall d f,
          withId d !! f
          = match doc_data d !! f with
            | Some v => Some v
            | None => if decide (f = "id") then Some (VStr (doc_id d))
                      else None
            end).
Proof.
  intros q. eexists. split; [apply getMeasurementRecords_run|].
  rewrite measurement_query_result. split; [|split].
  - apply merge_sort_Permutation.
  - apply Sorted_StronglySorted; [apply _|].
    eapply Sorted_weaken; [|apply Sorted_merge_sort; apply _].
    intros d1 d2 H. exact (doc_le_timestamp Asc d1 d2 H).
  - apply withId_lookup.
Qed.

(** Three measurements come back oldest first; a document without a
    timestamp, as another client may have written it, does not come back:
    the order clause leaves it out. *)
Example getMeasurementRecords_sample :
  outcome (getMeasurementRecords Sample.host (js "fam1") (js "baby_01")
             [Sample.measured "b" 300; Sample.undated;
              Sample.measured "a" 100; Sample.measured "c" 200])
  = Returns (List.map withId
               [Sample.measured "a" 100; Sample.measured "c" 200;
                Sample.measured "b" 300]).
Proof. vm_compute. reflexivity. Qed.

(** What [addRecord] stores has a timestamp, so the documents that come
    from it are not left out. *)
Lemma addRecord_writes_timestamp h recordData userProfile (store : Store) id :
  outcome (addRecord h recordData userProfile store) = Returns id ->
  exists stored,
    final (addRecord h recordData userProfile store) = store ++ [stored]
    /\ is_Some (doc_data stored !! "timestamp").
Proof.
  intros Hret.
  destruct (addRecord_returns _ _ _ _ _ Hret) as (up & -> & _ & _ & _ & Hfin & _).
  eexists. split; [exact Hfin|]. cbn [doc_data].
  rewrite resolve_lookup. unfold dataToSave.
  destruct (bool_decide _); [destruct (_ ≫= _)|];
    repeat (rewrite lookup_insert_ne by discriminate);
    rewrite lookup_insert_eq; eexists; reflexivity.
Qed.

(** ** How the modal's handlers run *)

Ltac run :=
  cbv beta iota zeta delta
    [bind try_finally try_catch AddRecordModal.setIsSubmitting AddRecordModal.setIsProcessing
     AddRecordModal.setError
     AddRecordModal.setImageFile AddRecordModal.setImagePreview
     AddRecordModal.setState AddRecordModal.onClose uploadImage
     imageCompression console_log console_error call emit modify get ret
     throw AddRecordModal.records fst snd];
  cbn [app].

Ltac state :=
  cbv beta iota zeta delta
    [submitted AddRecordModal.withSubmitting AddRecordModal.withProcessing
     AddRecordModal.withError AddRecordModal.withImageFile
     AddRecordModal.withImagePreview AddRecordModal.isSubmitting
     AddRecordModal.isProcessing AddRecordModal.error
     AddRecordModal.imageFile AddRecordModal.imagePreview
     AddRecordModal.form fst snd];
  cbn [app]; rewrite ?app_nil_r.

Section Modal.
Import AddRecordModal.


Lemma verified_inv a u up familyId :
  verified a = Some (u, up, familyId) ->
  user a = Some u /\ userProfile a = Some up
  /\ exists rest, familyIDs up = Some (familyId :: rest).
Proof.
  unfold verified. destruct (user a), (userProfile a) as [up'|]; try discriminate.
  destruct (familyIDs up') as [[|fid rest]|] eqn:E; try discriminate.
  intros [= <- <- <-]. eauto.
Qed.

Lemma handleSubmit_unverified h p a st (db : Store) :
  verified a = None ->
  handleSubmit h p a (st, db)
  = (Returns tt, (withError (js "無法驗證使用者身份") st, db), [PreventDefault]).
Proof.
  unfold verified, handleSubmit. intros H.
  destruct (user a), (userProfile a) as [up|]; try reflexivity.
  destruct (familyIDs up) as [[|]|]; try discriminate; reflexivity.
Qed.

Lemma handleSubmit_snapshot h p a u up familyId st (db : Store) :
  verified a = Some (u, up, familyId) ->
  recordType p = snapshot ->
  handleSubmit h p a (st, db) =
  match imageFile st with
  | None =>
      (Returns tt, (submitted (js "請選擇一張要上傳的圖片。") st, db),
       [PreventDefault])
  | Some img =>
      match fails h (UploadImage img (uid u)) with
      | Some e =>
          (Returns tt, (submitted (errorMessage e) st, db),
           [PreventDefault; UploadImage img (uid u); ConsoleError "err"])
      | None =>
          match addRecord h
                  (snapshotData familyId (uid u) (notes (form st))
                     (uploadedURL h img (uid u)) (tagsArray (tags (form st))))
                  (Some up) db with
          | (Returns _, db', ev) =>
              (Returns tt, (submitted (js "") st, db'),
               PreventDefault :: UploadImage img (uid u) :: ev ++ [OnClose])
          | (Throws e, db', ev) =>
              (Returns tt, (submitted (errorMessage e) st, db'),
               PreventDefault :: UploadImage img (uid u) :: ev
                 ++ [ConsoleError "err"])
          end
      end
  end.
Proof.
  intros Hv Hty. destruct (verified_inv _ _ _ _ Hv) as (Hu & Hup & rest & Hf).
  unfold handleSubmit. rewrite Hu, Hup, Hf, Hty.
  rewrite (bool_decide_eq_true_2 _ eq_refl).
  run.
  destruct (imageFile st) as [img|]; [|state; reflexivity].
  destruct (fails h (UploadImage img (uid u))); run; [state; reflexivity|].
  destruct (addRecord h _ (Some up) db) as [[[id|e] db'] ev];
    run; state; reflexivity.
Qed.

Lemma handleSubmit_run h p a u up familyId st (db : Store) :
  verified a = Some (u, up, familyId) ->
  handleSubmit h p a (st, db) =
  match attempt h p u up familyId st with
  | NoImage =>
      (Returns tt, (submitted (js "請選擇一張要上傳的圖片。") st, db),
       [PreventDefault])
  | BadDate e =>
      (Returns tt, (submitted (errorMessage e) st, db),
       [PreventDefault; ConsoleError "err"])
  | Invoke op =>
      match op db with
      | (Returns _, db', ev) =>
          (Returns tt, (submitted (js "") st, db'),
           PreventDefault :: ev ++ [OnClose])
      | (Throws e, db', ev) =>
          (Returns tt, (submitted (errorMessage e) st, db'),
           PreventDefault :: ev ++ [ConsoleError "err"])
      end
  end.
Proof.
  intros Hv. destruct (verified_inv _ _ _ _ Hv) as (Hu & Hup & rest & Hf).
  unfold handleSubmit, attempt. rewrite Hu, Hup, Hf.
  destruct (recordType p) eqn:Hty;
    match goal with
    | |- context [ bool_decide (snapshot = snapshot) ] =>
        rewrite (bool_decide_eq_true_2 (snapshot = snapshot) eq_refl)
    | |- context [ bool_decide (?t = snapshot) ] =>
        rewrite (bool_decide_eq_false_2 (t = snapshot)) by discriminate
    end.
  6:{ run.
      destruct (imageFile st) as [img|]; [|state; reflexivity].
      destruct (fails h (UploadImage img (uid u))); run; [state; reflexivity|].
      destruct (addRecord h _ (Some up) db) as [[[id|e] db'] ev];
        run; state; rewrite <- ?app_assoc; reflexivity. }
  all: cbv beta iota zeta delta [recordData]; run;
    try destruct (timestampOfDateInput h _) as [e|ts];
    run; try (state; reflexivity);
    (destruct (existingRecord p) as [er|];
     [ destruct (updateRecord h _ _ db) as [[[[]|e] db'] ev]
     | destruct (addRecord h _ (Some up) db) as [[[id|e] db'] ev] ];
     run; state; rewrite <- ?app_assoc; reflexivity).
Qed.

End Modal.

(** ** Splitting the tags *)

Section Split.
Variable C : N -> bool.

Lemma split_go_free t s tok b :
  Forall (fun c => C c = false) t ->
  split_go C (t ++ s) tok b
  = split_go C s (rev t ++ tok) (match t with [] => b | _ => false end).
Proof.
  intros Ht. revert tok b.
  induction Ht as [|c t Hc _ IH]; intros tok b; [reflexivity|].
  cbn [app split_go rev]. rewrite Hc, IH, <- app_assoc. cbn [app].
  destruct t; reflexivity.
Qed.

Lemma split_go_run r s :
  Forall (fun c => C c = true) r ->
  split_go C (r ++ s) [] true = split_go C s [] true.
Proof.
  induction 1 as [|c r Hc _ IH]; [reflexivity|].
  cbn [app split_go]. rewrite Hc. exact IH.
Qed.

Lemma split_go_run_first r s tok :
  Forall (fun c => C c = true) r -> r <> [] ->
  split_go C (r ++ s) tok false = rev tok :: split_go C s [] true.
Proof.
  intros Hr Hne. destruct Hr as [|c r Hc Hr]; [congruence|].
  cbn [app split_go]. rewrite Hc. f_equal. apply split_go_run, Hr.
Qed.

End Split.

Lemma nonempty_true t : t <> [] -> nonempty t = true.
Proof. destruct t; [congruence|reflexivity]. Qed.

Lemma tags_laid_out b pieces :
  well_laid pieces ->
  List.filter nonempty (split_go is_tag_sep (laid_out pieces) [] b)
  = List.map fst pieces.
Proof.
  revert b. induction pieces as [|[t r] rest IH]; intros b Hw; [reflexivity|].
  destruct Hw as (Ht & Hfree & Hr & Hlast & Hw).
  cbn [laid_out List.map fst].
  rewrite split_go_free by exact Hfree. rewrite app_nil_r.
  assert (Hb : match t with [] => b | _ :: _ => false end = false)
    by (destruct t; congruence).
  rewrite Hb. destruct r as [|c r].
  - destruct rest as [|pr rest]; [|exfalso; apply Hlast; congruence].
    cbn [app laid_out split_go List.filter List.map]. rewrite rev_involutive.
    rewrite nonempty_true by exact Ht. reflexivity.
  - rewrite split_go_run_first by (exact Hr || discriminate).
    rewrite rev_involutive. cbn [List.filter].
    rewrite nonempty_true by exact Ht. f_equal. apply IH, Hw.
Qed.

(** The tags of a string laid out as separators and tags are the tags. *)
Lemma tagsArray_laid_out lead pieces :
  all_sep lead -> well_laid pieces ->
  AddRecordModal.tagsArray (lead ++ laid_out pieces) = List.map fst pieces.
Proof.
  intros Hl Hw. unfold AddRecordModal.tagsArray, split_class.
  change (fun tag : jsstring => (0 <? length tag)%nat) with nonempty.
  destruct lead as [|c lead].
  - apply tags_laid_out, Hw.
  - rewrite split_go_run_first by (exact Hl || discriminate).
    cbn [rev List.filter nonempty length Nat.ltb Nat.leb].
    apply tags_laid_out, Hw.
Qed.

(** Every string is laid out that way. *)
Lemma laid_out_exists s :
  exists lead pieces,
    all_sep lead /\ well_laid pieces /\ s = lead ++ laid_out pieces.
Proof.
  induction s as [|c s (lead & pieces & Hl & Hw & ->)].
  - exists [], []. repeat split. constructor.
  - destruct (is_tag_sep c) eqn:Hc.
    + exists (c :: lead), pieces. repeat split; [constructor|]; auto.
    + destruct lead as [|l0 lead].
      * destruct pieces as [|[t r] rest].
        -- exists [], [([c], [])]. repeat split; try constructor; auto;
             try discriminate; try constructor; congruence.
        -- destruct Hw as (Ht & Hfree & Hr & Hlast & Hw).
           exists [], ((c :: t, r) :: rest).
           repeat split; try constructor; auto; discriminate.
      * exists [], (([c], l0 :: lead) :: pieces).
        split; [constructor|]. split; [|reflexivity].
        cbn [well_laid]. split; [discriminate|].
        split; [repeat constructor; exact Hc|].
        split; [exact Hl|]. split; [discriminate | exact Hw].
Qed.

(** ** The calls of the record module *)

Lemma addRecord_events h recordData userProfile (store : Store) :
  events (addRecord h recordData userProfile store) = []
  \/ exists up c,
       userProfile = Some up
       /\ events (addRecord h recordData userProfile store)
          = [AddDoc "records" (dataToSave h recordData up); c]
       /\ (c = ConsoleLog "Document written with ID: "
           \/ c = ConsoleError "Error adding document: ").
Proof.
  rewrite addRecord_run.
  destruct (idsGiven recordData); [|left; reflexivity].
  destruct userProfile as [up|]; [|left; reflexivity].
  right. cbv zeta. destruct (fails h _); eexists up, _; eauto.
Qed.

Lemma addRecord_calls h recordData userProfile (store : Store) coll data :
  In (AddDoc coll data) (events (addRecord h recordData userProfile store)) ->
  exists up,
    userProfile = Some up /\ coll = "records"
    /\ data = dataToSave h recordData up.
Proof.
  destruct (addRecord_events h recordData userProfile store)
    as [-> | (up & c & -> & -> & Hc)]; [intros []|].
  intros [[= <- <-] | [H | []]]; [eauto|].
  destruct Hc; subst; discriminate.
Qed.

Lemma addRecord_no_callback h recordData userProfile (store : Store) ev :
  In ev (events (addRecord h recordData userProfile store)) ->
  ev <> OnClose /\ forall f u, ev <> UploadImage f u.
Proof.
  destruct (addRecord_events h recordData userProfile store)
    as [-> | (up & c & -> & -> & Hc)]; [intros []|].
  intros [<- | [<- | []]]; [split; intros; discriminate|].
  destruct Hc; subst; split; intros; discriminate.
Qed.

Lemma updateDoc_run h coll ref data (store : Store) :
  exists r store',
    updateDoc h coll ref data store = (r, store', [UpdateDoc coll ref data]).
Proof.
  unfold updateDoc, bind, call, get, modify, throw.
  destruct (fails h _); [eauto|].
  destruct (existsb _ store); eauto.
Qed.

Lemma updateRecord_no_callback h recordId updatedData (store : Store) ev :
  In ev (events (updateRecord h recordId updatedData store)) ->
  ev <> OnClose /\ (forall f u, ev <> UploadImage f u)
  /\ forall c d, ev <> AddDoc c d.
Proof.
  destruct (decide (recordId = [])) as [-> | Hid]; [intros []|].
  rewrite updateRecord_run by exact Hid.
  destruct (fails h (DocRef "records" recordId)).
  { intros [<- | []]. repeat split; intros; discriminate. }
  destruct (updateDoc_run h "records" recordId updatedData store)
    as (r & store' & ->).
  destruct r as [[]|e]; cbn [events snd app];
    intros [<- | [<- | [<- | []]]]; repeat split; intros; discriminate.
Qed.

(** ** What the modal stores for a snapshot *)

Section Snapshot.
Import AddRecordModal.

Lemma snapshotData_fields familyId creatorId notes imageUrl tagsArray :
  let d := snapshotData familyId creatorId notes imageUrl tagsArray in
  d !! "type" = Some (VStr (js "snapshot"))
  /\ d !! "familyId" = Some (VStr familyId)
  /\ d !! "creatorId" = Some (VStr creatorId)
  /\ d !! "imageUrl" = Some (VStr imageUrl)
  /\ d !! "tags" = Some (VArr tagsArray)
  /\ d !! "timestamp" = None
  /\ d !! "year" = None
  /\ d !! "month" = None.
Proof.
  unfold snapshotData. cbv zeta.
  repeat split;
    repeat (rewrite lookup_insert_ne by discriminate);
    first [ apply lookup_insert_eq
          | apply lookup_singleton_eq
          | apply lookup_singleton_ne; discriminate ].
Qed.

Lemma dataToSave_snapshotData h familyId creatorId notes imageUrl tagsArray up :
  let d := dataToSave h
             (snapshotData familyId creatorId notes imageUrl tagsArray) up in
  d !! "timestamp" = Some VServerTimestamp
  /\ d !! "year" = None
  /\ d !! "month" = None
  /\ d !! "tags" = Some (VArr tagsArray)
  /\ d !! "imageUrl" = Some (VStr imageUrl).
Proof.
  destruct (snapshotData_fields familyId creatorId notes imageUrl tagsArray)
    as (_ & _ & _ & Hi & Hg & Ht & Hy & Hm).
  cbv zeta. rewrite dataToSave_no_timestamp by exact Ht.
  repeat split; repeat (rewrite lookup_insert_ne by discriminate);
    first [ apply lookup_insert_eq | assumption ].
Qed.

(** Whatever a snapshot submission hands to [addDoc] is the data that
    [addRecord] makes of the form's fields. *)
Lemma handleSubmit_snapshot_calls h p a st (db : Store) coll data :
  recordType p = snapshot ->
  In (AddDoc coll data) (events (handleSubmit h p a (st, db))) ->
  exists u up familyId img,
    verified a = Some (u, up, familyId)
    /\ imageFile st = Some img
    /\ data = dataToSave h
                (snapshotData familyId (uid u) (notes (form st))
                   (uploadedURL h img (uid u)) (tagsArray (tags (form st))))
                up.
Proof.
  intros Hty. destruct (verified a) as [[[u up] familyId]|] eqn:Hv.
  2:{ rewrite handleSubmit_unverified by exact Hv.
      intros [H | []]. discriminate. }
  rewrite (handleSubmit_snapshot h p a u up familyId st db Hv Hty).
  destruct (imageFile st) as [img|]; [|intros [H | []]; discriminate].
  destruct (fails h (UploadImage img (uid u))).
  { intros [H | [H | [H | []]]]; discriminate. }
  destruct (addRecord h _ (Some up) db) as [[r db'] ev] eqn:Hadd.
  assert (Hev : In (AddDoc coll data) ev ->
                data = dataToSave h
                         (snapshotData familyId (uid u) (notes (form st))
                            (uploadedURL h img (uid u))
                            (tagsArray (tags (form st)))) up).
  { intros Hin.
    assert (Hin' : In (AddDoc coll data) (events (addRecord h
                     (snapshotData familyId (uid u) (notes (form st))
                        (uploadedURL h img (uid u))
                        (tagsArray (tags (form st)))) (Some up) db)))
      by (rewrite Hadd; exact Hin).
    apply addRecord_calls in Hin'. destruct Hin' as (up' & [= <-] & _ & ->).
    reflexivity. }
  intros Hin. exists u, up, familyId, img. split; [reflexivity|].
  split; [reflexivity|]. apply Hev.
  destruct r; cbn [events snd] in Hin;
    destruct Hin as [H | [H | Hin]]; try discriminate;
    apply in_app_or in Hin; destruct Hin as [Hin | [H | []]];
    try discriminate; exact Hin.
Qed.

(** A snapshot submission that closed the modal had an image, uploaded it,
    and appended one document, made of the form's fields and of the URL of
    the upload. *)
Lemma handleSubmit_snapshot_closed h p a st (db : Store) :
  recordType p = snapshot ->
  In OnClose (events (handleSubmit h p a (st, db))) ->
  exists u up familyId img stored,
    verified a = Some (u, up, familyId)
    /\ imageFile st = Some img
    /\ fails h (UploadImage img (uid u)) = None
    /\ (final (handleSubmit h p a (st, db))).2 = db ++ [stored]
    /\ doc_data stored
       = Firestore.resolve (serverNow h db)
           (dataToSave h
              (snapshotData familyId (uid u) (notes (form st))
                 (uploadedURL h img (uid u)) (tagsArray (tags (form st))))
              up).
Proof.
  intros Hty. destruct (verified a) as [[[u up] familyId]|] eqn:Hv.
  2:{ rewrite handleSubmit_unverified by exact Hv.
      intros [H | []]. discriminate. }
  rewrite (handleSubmit_snapshot h p a u up familyId st db Hv Hty).
  destruct (imageFile st) as [img|]; [|intros [H | []]; discriminate].
  destruct (fails h (UploadImage img (uid u))) eqn:Hup.
  { intros [H | [H | [H | []]]]; discriminate. }
  destruct (addRecord h _ (Some up) db) as [[r db'] ev] eqn:Hadd.
  assert (Hno : ~ In OnClose ev).
  { intros Hin.
    assert (Hin' : In OnClose (events (addRecord h
                     (snapshotData familyId (uid u) (notes (form st))
                        (uploadedURL h img (uid u))
                        (tagsArray (tags (form st)))) (Some up) db)))
      by (rewrite Hadd; exact Hin).
    apply addRecord_no_callback in Hin'. destruct Hin' as [Hin' _].
    congruence. }
  destruct r as [id|e]; cbn [events final snd fst].
  - intros _.
    assert (Hret : outcome (addRecord h
                     (snapshotData familyId (uid u) (notes (form st))
                        (uploadedURL h img (uid u))
                        (tagsArray (tags (form st)))) (Some up) db)
                   = Returns id) by (rewrite Hadd; reflexivity).
    destruct (addRecord_returns _ _ _ _ _ Hret)
      as (up' & [= <-] & _ & _ & _ & Hfin & _).
    rewrite Hadd in Hfin. cbn [final fst snd] in Hfin.
    eexists u, up, familyId, img, _.
    split; [reflexivity|]. split; [reflexivity|]. split; [exact Hup|].
    split; [exact Hfin | reflexivity].
  - intros [H | [H | Hin]]; try discriminate.
    apply in_app_or in Hin. destruct Hin as [Hin | [H | []]];
      [contradiction | discriminate].
Qed.

End Snapshot.

(** ** C3 *)

Section Submit.
Import AddRecordModal.

Example tagsArray_sample :
  tagsArray (js "第一次, 公園，好天氣") = [js "第一次"; js "公園"; js "好天氣"]
  /\ tagsArray (js " ,，") = []
  /\ tagsArray (js "") = [].
Proof. repeat split; vm_compute; reflexivity. Qed.

(** C3. The tags of a snapshot are the pieces of the tags input between the
    maximal runs of separators (ASCII comma, fullwidth comma, white space),
    without the empty pieces: every input is a row of tags, each not empty
    and free of separators, with runs of separators before, between and
    behind them, and its tags array is that row of tags; an input of
    separators only gives the empty array. That array is what a snapshot
    submission hands to [addDoc] as [tags], and what the stored document
    holds when the submission went through. *)
Theorem tags_parsed :
  (forall lead pieces,
     all_sep lead -> well_laid pieces ->
     tagsArray (lead ++ laid_out pieces) = List.map fst pieces)
  /\ (forall s, exists lead pieces,
        all_sep lead /\ well_laid pieces /\ s = lead ++ laid_out pieces)
  /\ (forall s, all_sep s -> tagsArray s = [])
  /\ (forall h p a st (db : Store),
        recordType p = snapshot ->
        (forall coll data,
           In (AddDoc coll data) (events (handleSubmit h p a (st, db))) ->
           data !! "tags" = Some (VArr (tagsArray (tags (form st)))))
        /\ (In OnClose (events (handleSubmit h p a (st, db))) ->
            exists stored,
              (final (handleSubmit h p a (st, db))).2 = db ++ [stored]
              /\ doc_data stored !! "tags"
                 = Some (VArr (tagsArray (tags (form st)))))).
Proof.
  split; [exact tagsArray_laid_out|]. split; [exact laid_out_exists|].
  split.
  - intros s Hs. rewrite <- (app_nil_r s).
    exact (tagsArray_laid_out s [] Hs I).
  - intros h p a st db Hty. split.
    + intros coll data Hin.
      destruct (handleSubmit_snapshot_calls _ _ _ _ _ _ _ Hty Hin)
        as (u & up & familyId & img & _ & _ & ->).
      apply dataToSave_snapshotData.
    + intros Hin.
      destruct (handleSubmit_snapshot_closed _ _ _ _ _ Hty Hin)
        as (u & up & familyId & img & stored & _ & _ & _ & Hfin & Hdata).
      exists stored. split; [exact Hfin|].
      rewrite Hdata, resolve_lookup.
      destruct (dataToSave_snapshotData h familyId (uid u) (notes (form st))
                  (uploadedURL h img (uid u)) (tagsArray (tags (form st))) up)
        as (_ & _ & _ & -> & _).
      reflexivity.
Qed.

Lemma tags_parsed_witness :
  tagsArray (js ", " ++ laid_out [(js "a", js ",，"); (js "b", js "  ");
                                  (js "c", js " ")])
  = [js "a"; js "b"; js "c"]
  /\ exists stored,
       (final (handleSubmit Sample.host Sample.snapshotProps Sample.auth
                 (Sample.ready, []))).2 = [stored]
       /\ doc_data stored !! "tags"
          = Some (VArr [js "park"; js "公園"; js "sun"]).
Proof.
  destruct tags_parsed as (Hlaid & _ & _ & Hstored).
  split.
  - apply (Hlaid (js ", ")
             [(js "a", js ",，"); (js "b", js "  "); (js "c", js " ")]).
    + vm_compute. repeat constructor.
    + vm_compute. repeat split; try discriminate; repeat constructor.
  - destruct (Hstored Sample.host Sample.snapshotProps Sample.auth
                Sample.ready [] eq_refl) as [_ H].
    destruct H as (stored & Hfin & Htags).
    + vm_compute. auto 10.
    + exists stored. split; [exact Hfin|]. rewrite Htags.
      vm_compute. reflexivity.
Defined.

(** ** C7 *)

Lemma attempt_no_close h p u up familyId st op (db : Store) :
  attempt h p u up familyId st = Invoke op ->
  ~ In OnClose (events (op db)).
Proof.
  unfold attempt. intros Hop Hin.
  assert (Hadd : forall rd,
            ~ In OnClose (events ((addRecord h rd (Some up) ;;; ret tt) db))).
  { intros rd H. unfold bind, ret in H.
    destruct (addRecord h rd (Some up) db) as [[r db'] ev] eqn:Hadd.
    assert (Hev : In OnClose ev).
    { destruct r; cbn [events snd] in H; [rewrite app_nil_r in H|]; exact H. }
    assert (Hev' : In OnClose (events (addRecord h rd (Some up) db)))
      by (rewrite Hadd; exact Hev).
    apply addRecord_no_callback in Hev'. destruct Hev' as [Hev' _].
    congruence. }
  destruct (recordType p).
  6:{ destruct (imageFile st) as [img|]; [|discriminate].
      injection Hop as <-. unfold bind at 1, uploadImage, bind, call, ret in Hin.
      destruct (fails h (UploadImage img (uid u))).
      - destruct Hin as [H | []]. discriminate.
      - cbn [app] in Hin.
        apply (Hadd (snapshotData familyId (uid u) (notes (form st))
                       (uploadedURL h img (uid u))
                       (tagsArray (tags (form st))))).
        unfold bind, ret.
        destruct (addRecord h _ (Some up) db) as [[[id|e] db'] ev];
          cbn [events snd app] in Hin |- *;
          destruct Hin as [H | Hin]; try discriminate; exact Hin. }
  all: destruct (recordData h _ (form st)) as [e|rd]; [discriminate|];
    injection Hop as <-;
    destruct (existingRecord p) as [er|];
    [ apply updateRecord_no_callback in Hin; destruct Hin as [Hin _]; congruence
    | exact (Hadd _ Hin) ].
Qed.

Lemma then_ret_returns {A} (m : M Store A) (db : Store) :
  outcome ((m ;;; ret tt) db) = Returns tt <-> exists a, outcome (m db) = Returns a.
Proof.
  unfold bind, ret. destruct (m db) as [[[a|e] db'] ev]; cbn [outcome fst].
  - split; eauto.
  - split; [discriminate | intros [a H]; discriminate].
Qed.

(** The operations of a snapshot submission complete when the upload does
    not fail and [addRecord] returns; those of another submission when
    [updateRecord], or [addRecord], returns. *)
Lemma attempt_completes h p u up familyId st (db : Store) :
  match recordType p with
  | snapshot =>
      forall img, imageFile st = Some img ->
      exists op,
        attempt h p u up familyId st = Invoke op
        /\ (outcome (op db) = Returns tt <->
            fails h (UploadImage img (uid u)) = None
            /\ exists id,
                 outcome (addRecord h
                            (snapshotData familyId (uid u) (notes (form st))
                               (uploadedURL h img (uid u))
                               (tagsArray (tags (form st))))
                            (Some up) db) = Returns id)
  | t =>
      forall rd, recordData h t (form st) = inr rd ->
      exists op,
        attempt h p u up familyId st = Invoke op
        /\ (outcome (op db) = Returns tt <->
            match existingRecord p with
            | Some er => outcome (updateRecord h (idOf er) rd db) = Returns tt
            | None =>
                exists id,
                  outcome (addRecord h (newRecordData t familyId (uid u) rd)
                             (Some up) db) = Returns id
            end)
  end.
Proof.
  unfold attempt. destruct (recordType p).
  6:{ intros img ->. eexists. split; [reflexivity|].
      unfold bind at 1, uploadImage, bind at 1, call, ret.
      destruct (fails h (UploadImage img (uid u))).
      - cbn [outcome fst]. split; [discriminate | intros [H _]; discriminate].
      - pose proof (then_ret_returns
                      (addRecord h
                         (snapshotData familyId (uid u) (notes (form st))
                            (uploadedURL h img (uid u))
                            (tagsArray (tags (form st)))) (Some up)) db) as H.
        unfold bind, ret in H |- *.
        destruct (addRecord h _ (Some up) db) as [[[id|e] db'] ev];
          cbn [outcome fst] in H |- *; rewrite H; tauto. }
  all: intros rd ->; eexists; (split; [reflexivity|]);
    destruct (existingRecord p) as [er|];
    [ destruct (outcome (updateRecord h (idOf er) rd db)) as [[]|e]; tauto
    | apply then_ret_returns ].
Qed.



(** A feeding is stored with the amount of the form and closes the modal;
    an edit of a record that is not in the collection fails and leaves the
    modal open with the message of the record module. *)
Example handleSubmit_feeding_sample :
  let r := handleSubmit Sample.host Sample.feedingProps Sample.auth
             (Sample.idle, []) in
  let edit := {| recordType := feeding;
                 existingRecord := Some {[ "id" := VStr (js "gone") ]} |} in
  In OnClose (events r)
  /\ (exists d,
        (final r).2 = [d]
        /\ doc_data d !! "type" = Some (VStr (js "feeding"))
        /\ doc_data d !! "amount" = Some (VNum 3)
        /\ doc_data d !! "notes" = Some (VStr (js "first steps"))
        /\ doc_data d !! "creatorId" = Some (VStr (js "u1")))
  /\ ~ In OnClose (events (handleSubmit Sample.host edit Sample.auth
                             (Sample.idle, [])))
  /\ error (final (handleSubmit Sample.host edit Sample.auth
                     (Sample.idle, []))).1
     = js "Failed to update record.".
Proof.
  cbv zeta. split; [vm_compute; auto 10|].
  split; [eexists; repeat split; vm_compute; reflexivity|].
  split; [|vm_compute; reflexivity].
  vm_compute. intros H.
  repeat (destruct H as [H | H]; [discriminate|]). exact H.
Qed.

End Submit.

(** ** C8 *)

Section Image.
Import AddRecordModal.

Lemma handleImageChange_rejected h file st (db : Store) :
  file_type file ∉ allowedTypes ->
  handleImageChange h (Some file) (st, db)
  = (Returns tt,
     (withError (js "檔案格式不符，僅接受 JPG 或 PNG 格式。") st, db),
     [ClearFileInput]).
Proof.
  intros Hty. unfold handleImageChange.
  rewrite (bool_decide_eq_false_2 _ Hty). run. reflexivity.
Qed.

Lemma handleImageChange_accepted h file st (db : Store) :
  file_type file ∈ allowedTypes ->
  handleImageChange h (Some file) (st, db)
  = match fails h (ImageCompression file compressionOptions) with
    | Some e =>
        (Returns tt,
         (withProcessing false
            (withError (js "無法處理此圖片，請更換一張試試。")
               (withError (js "") (withProcessing true st))), db),
         [ConsoleLog "開始壓縮圖片...";
          ImageCompression file compressionOptions;
          ConsoleError "圖片壓縮失敗:"])
    | None =>
        let compressed := compressedFile h file compressionOptions in
        (Returns tt,
         (withProcessing false
            (withImagePreview (Some (objectURL h compressed))
               (withImageFile (Some compressed)
                  (withError (js "") (withProcessing true st)))), db),
         [ConsoleLog "開始壓縮圖片...";
          ImageCompression file compressionOptions;
          ConsoleLog "圖片壓縮成功"]
         ++ (if truthy_str (imagePreview st)
             then [RevokeObjectURL (default [] (imagePreview st))] else [])
         ++ [CreateObjectURL compressed])
    end.
Proof.
  intros Hty. unfold handleImageChange.
  rewrite (bool_decide_eq_true_2 _ Hty). run.
  destruct (fails h _); run; [state; reflexivity|].
  destruct (truthy_str (imagePreview st)); run; state; reflexivity.
Qed.



End Image.

(** ** C10 *)

Lemma snapshot_query_year familyId perPage lastDoc y month tag :
  y <> 0 ->
  In (Where "year" OpEq (VNum y))
     (snapshot_query familyId perPage lastDoc (Some y) month tag).
Proof.
  intros Hy. unfold snapshot_query.
  apply in_or_app. right. apply in_or_app. left.
  rewrite (proj2 (Z.eqb_neq y 0) Hy). left. reflexivity.
Qed.

Lemma snapshot_query_month familyId perPage lastDoc year m tag :
  m <> 0 ->
  In (Where "month" OpEq (VNum m))
     (snapshot_query familyId perPage lastDoc year (Some m) tag).
Proof.
  intros Hm. unfold snapshot_query.
  apply in_or_app. right. apply in_or_app. right. apply in_or_app. left.
  rewrite (proj2 (Z.eqb_neq m 0) Hm). left. reflexivity.
Qed.

Lemma truthy_num_Some n : truthy_num n = true -> exists y, n = Some y /\ y <> 0.
Proof.
  rewrite truthy_num_spec. destruct n as [y|]; [|discriminate].
  intros H. exists y. split; [reflexivity|].
  apply Z.eqb_neq. destruct (y =? 0); [discriminate | reflexivity].
Qed.

(** What [getSnapshots] returns under a year or a month filter has the
    field of the filter. *)
Lemma getSnapshots_filtered h familyId options (store : Store) page o :
  truthy_num (Options.filter options ≫= Options.year) = true
  \/ truthy_num (Options.filter options ≫= Options.month) = true ->
  outcome (getSnapshots h familyId options store) = Returns page ->
  In o (snapshots page) ->
  is_Some (o !! "year") \/ is_Some (o !! "month").
Proof.
  intros Hf. rewrite getSnapshots_run. cbv zeta.
  destruct (query_fault _ _); [discriminate|].
  destruct (fails h _); [discriminate|]. cbn [outcome fst].
  intros [= <-]. cbn [snapshots]. intros Ho.
  apply in_map_iff in Ho. destruct Ho as (d & <- & Hd).
  apply runQuery_In in Hd. destruct Hd as [_ Hpass].
  destruct Hf as [Hf | Hf]; apply truthy_num_Some in Hf;
    destruct Hf as (y & Hy & Hne); rewrite Hy in Hpass.
  - left. specialize (Hpass _ (snapshot_query_year _ _ _ y _ _ Hne)).
    cbn [Firestore.passes] in Hpass. apply bool_decide_eq_true_1 in Hpass.
    rewrite (withId_field d _ _ Hpass). eauto.
  - right. specialize (Hpass _ (snapshot_query_month _ _ _ _ y _ Hne)).
    cbn [Firestore.passes] in Hpass. apply bool_decide_eq_true_1 in Hpass.
    rewrite (withId_field d _ _ Hpass). eauto.
Qed.

(** A caller may hand a year to [addRecord] without a timestamp: the year is
    stored as it is, and a year filter finds the document. *)
Lemma snapshot_with_year_counterexample :
  let recordData := <["year" := VNum 2024]> Sample.snapshotData in
  is_snapshot recordData
  /\ recordData !! "timestamp" = None
  /\ exists stored page,
       final (addRecord Sample.host recordData (Some Sample.profile) [])
       = [stored]
       /\ doc_data stored !! "year" = Some (VNum 2024)
       /\ outcome (getSnapshots Sample.host (js "fam1")
                     (Sample.yearOptions 2024) [stored]) = Returns page
       /\ In (withId stored) (snapshots page).
Proof.
  cbv zeta. split; [vm_compute; reflexivity|].
  split; [vm_compute; reflexivity|].
  eexists _, _. split; [vm_compute; reflexivity|].
  split; [vm_compute; reflexivity|].
  split; [vm_compute; reflexivity|].
  left. vm_compute. reflexivity.
Qed.

(** C10, amended. When [addRecord] stores a [recordData] of type
    ['snapshot'] that has no timestamp and no year or month of its own, the
    timestamp it hands to [addDoc] is the server-timestamp sentinel, which
    is not a [Timestamp]; no year and no month is written; and the document
    as stored is in no result of a [getSnapshots] call with a year or a
    month filter other than zero. The record modal creates its snapshots
    that way: whatever it hands to [addDoc] for a snapshot has the sentinel
    and neither year nor month. *)
Theorem snapshot_without_timestamp :
  (forall h recordData userProfile (store : Store) id,
     is_snapshot recordData ->
     recordData !! "timestamp" = None ->
     recordData !! "year" = None ->
     recordData !! "month" = None ->
     outcome (addRecord h recordData userProfile store) = Returns id ->
     exists up stored,
       userProfile = Some up
       /\ In (AddDoc "records" (dataToSave h recordData up))
             (events (addRecord h recordData userProfile store))
       /\ dataToSave h recordData up !! "timestamp" = Some VServerTimestamp
       /\ instanceof_Timestamp VServerTimestamp = None
       /\ dataToSave h recordData up !! "year" = None
       /\ dataToSave h recordData up !! "month" = None
       /\ final (addRecord h recordData userProfile store) = store ++ [stored]
       /\ doc_id stored = id
       /\ doc_data stored !! "year" = None
       /\ doc_data stored !! "month" = None
       /\ forall h' familyId options (later : Store) page,
            truthy_num (Options.filter options ≫= Options.year) = true
            \/ truthy_num (Options.filter options ≫= Options.month) = true ->
            outcome (getSnapshots h' familyId options later) = Returns page ->
            ~ In (withId stored) (snapshots page))
  /\ (forall h p a st (db : Store) coll data,
        AddRecordModal.recordType p = snapshot ->
        In (AddDoc coll data)
           (events (AddRecordModal.handleSubmit h p a (st, db))) ->
        data !! "timestamp" = Some VServerTimestamp
        /\ data !! "year" = None
        /\ data !! "month" = None).
Proof.
  split.
  - intros h rd userProfile store id Hty Hts Hy Hm Hret.
    destruct (addRecord_returns _ _ _ _ _ Hret)
      as (up & -> & _ & _ & _ & Hfin & Hev).
    assert (Hdy : dataToSave h rd up !! "year" = None).
    { rewrite dataToSave_no_timestamp by exact Hts.
      rewrite !lookup_insert_ne by discriminate. exact Hy. }
    assert (Hdm : dataToSave h rd up !! "month" = None).
    { rewrite dataToSave_no_timestamp by exact Hts.
      rewrite !lookup_insert_ne by discriminate. exact Hm. }
    eexists up, _. split; [reflexivity|].
    split; [rewrite Hev; left; reflexivity|].
    split; [rewrite dataToSave_no_timestamp by exact Hts;
            apply lookup_insert_eq|].
    split; [reflexivity|]. split; [exact Hdy|]. split; [exact Hdm|].
    split; [exact Hfin|]. cbn [doc_id doc_data]. split; [reflexivity|].
    rewrite !resolve_lookup, Hdy, Hdm.
    split; [reflexivity|]. split; [reflexivity|].
    intros h' familyId options later page Hf Hpage Hin.
    destruct (getSnapshots_filtered _ _ _ _ _ _ Hf Hpage Hin) as [[v Hv] | [v Hv]];
      rewrite withId_other in Hv by discriminate;
      cbn [doc_data] in Hv; rewrite resolve_lookup in Hv.
    + rewrite Hdy in Hv. discriminate.
    + rewrite Hdm in Hv. discriminate.
  - intros h p a st db coll data Hty Hin.
    destruct (handleSubmit_snapshot_calls _ _ _ _ _ _ _ Hty Hin)
      as (u & up & familyId & img & _ & _ & ->).
    destruct (dataToSave_snapshotData h familyId (uid u)
                (AddRecordModal.notes (AddRecordModal.form st))
                (uploadedURL h img (uid u))
                (AddRecordModal.tagsArray
                   (AddRecordModal.tags (AddRecordModal.form st))) up)
      as (Ht & Hy & Hm & _).
    auto.
Qed.

Lemma snapshot_without_timestamp_witness :
  exists stored,
    final (addRecord Sample.host Sample.snapshotData (Some Sample.profile) [])
    = [stored]
    /\ doc_data stored !! "year" = None
    /\ outcome (getSnapshots Sample.host (js "fam1") (Sample.yearOptions 2023)
                  [stored])
       = Returns {| snapshots := []; lastVisible := None |}.
Proof.
  destruct snapshot_without_timestamp as [H _].
  destruct (H Sample.host Sample.snapshotData (Some Sample.profile) []
              (js "doc0"))
    as (up & stored & _ & _ & _ & _ & _ & _ & Hfin & _ & Hy & _ & _);
    try (vm_compute; reflexivity).
  exists stored. split; [exact Hfin|]. split; [exact Hy|].
  vm_compute in Hfin. injection Hfin as <-. vm_compute. reflexivity.
Defined.

(** ** C6 *)

Section Button.
Import FloatingActionButton.

(** The button has no shortcut for solid food and none for a measurement. *)
Lemma shortcuts_counterexample :
  ~ In solid_food shortcuts /\ ~ In measurement shortcuts.
Proof.
  split; intros H; vm_compute in H;
    repeat (destruct H as [H | H]; [discriminate|]); exact H.
Qed.

(** C6, amended. The floating action button has a shortcut for four of the
    record types, the snapshot, sleep, the diaper and feeding; a click on
    any shortcut calls [onAddRecord] with exactly that type and closes the
    menu. *)
Theorem shortcuts_click :
  (forall t, In t shortcuts
             <-> t = snapshot \/ t = sleep \/ t = diaper \/ t = feeding)
  /\ (forall t s,
        In (SubButton t) buttons ->
        onClick (SubButton t) s
        = (Returns tt, {| isOpen := false |}, [OnAddRecord t])).
Proof.
  split.
  - intros t. unfold shortcuts, buttons. cbn [flat_map app In].
    split; [intros [H | [H | [H | [H | []]]]]; auto
           | intros [-> | [-> | [-> | ->]]]; auto 6].
  - intros t s _. reflexivity.
Qed.

Lemma shortcuts_click_witness :
  onClick (SubButton diaper) {| isOpen := true |}
  = (Returns tt, {| isOpen := false |}, [OnAddRecord diaper]).
Proof.
  destruct shortcuts_click as [_ H]. apply H.
  right. right. left. reflexivity.
Defined.

End Button.

(** * More of the record module *)

(** String literals are compared as they are written. *)
Opaque js.

Lemma updateDoc_cases h coll ref data (store : Store) :
  updateDoc h coll ref data store =
  match fails h (UpdateDoc coll ref data) with
  | Some e => (Throws e, store, [UpdateDoc coll ref data])
  | None =>
      if List.existsb (fun d => bool_decide (doc_id d = ref)) store
      then (Returns tt,
            List.map
              (fun d =>
                 if bool_decide (doc_id d = ref)
                 then {| doc_id := doc_id d;
                         doc_data := Firestore.resolve (serverNow h store) data
                                       ∪ doc_data d |}
                 else d) store,
            [UpdateDoc coll ref data])
      else (Throws (Error (js "No document to update")), store,
            [UpdateDoc coll ref data])
  end.
Proof.
  unfold updateDoc, bind, call, get, modify, throw.
  destruct (fails h _); [reflexivity|].
  destruct (existsb _ store); reflexivity.
Qed.

Lemma deleteRecord_run h recordId (store : Store) :
  recordId <> [] ->
  deleteRecord h recordId store =
  match fails h (DocRef "records" recordId) with
  | Some e => (Throws e, store, [DocRef "records" recordId])
  | None =>
      match fails h (DeleteDoc "records" recordId) with
      | Some _ =>
          (Throws (Error (js "Failed to delete record.")), store,
           [DocRef "records" recordId; DeleteDoc "records" recordId;
            ConsoleError "Error deleting document: "])
      | None =>
          (Returns tt,
           List.filter (fun d => negb (bool_decide (doc_id d = recordId))) store,
           [DocRef "records" recordId; DeleteDoc "records" recordId;
            ConsoleLog "Document deleted with ID: "])
      end
  end.
Proof.
  intros Hid. unfold deleteRecord, truthy_str.
  cbn [fmap option_fmap option_map truthy].
  rewrite (bool_decide_eq_false_2 _ Hid). cbn [negb].
  unfold bind at 1. unfold doc, bind at 1, call, ret.
  destruct (fails h (DocRef "records" recordId)); [reflexivity|].
  unfold try_catch, deleteDoc, bind, call, modify, console_log, console_error,
    emit, throw.
  destruct (fails h (DeleteDoc "records" recordId)); reflexivity.
Qed.

Lemma updateRecord_cases h recordId updatedData (store : Store) :
  recordId <> [] ->
  updateRecord h recordId updatedData store =
  match fails h (DocRef "records" recordId) with
  | Some e => (Throws e, store, [DocRef "records" recordId])
  | None =>
      if match fails h (UpdateDoc "records" recordId updatedData) with
         | Some _ => false
         | None => List.existsb (fun d => bool_decide (doc_id d = recordId)) store
         end
      then (Returns tt,
            List.map
              (fun d =>
                 if bool_decide (doc_id d = recordId)
                 then {| doc_id := doc_id d;
                         doc_data := Firestore.resolve (serverNow h store)
                                       updatedData ∪ doc_data d |}
                 else d) store,
            [DocRef "records" recordId;
             UpdateDoc "records" recordId updatedData;
             ConsoleLog "Document updated with ID: "])
      else (Throws (Error (js "Failed to update record.")), store,
            [DocRef "records" recordId;
             UpdateDoc "records" recordId updatedData;
             ConsoleError "Error updating document: "])
  end.
Proof.
  intros Hid. rewrite updateRecord_run by exact Hid.
  destruct (fails h (DocRef "records" recordId)); [reflexivity|].
  rewrite updateDoc_cases.
  destruct (fails h (UpdateDoc "records" recordId updatedData)); [reflexivity|].
  destruct (existsb _ store); reflexivity.
Qed.

(** X1. Whenever one of the three writing functions throws, the collection
    is as it was, and what is thrown is one of a few errors: for
    [addRecord] one of its two validation messages or
    ['Failed to add record.']; for [updateRecord] and [deleteRecord] the
    validation message, the generic ['Failed to ...'] message (which
    replaces whatever [updateDoc] or [deleteDoc] threw, also for a document
    that does not exist), or, unwrapped, what [doc()] threw, which is
    called outside the [try] block. *)
Theorem writers_throw_atomically h (store : Store) e :
  (forall recordData userProfile,
     outcome (addRecord h recordData userProfile store) = Throws e ->
     final (addRecord h recordData userProfile store) = store
     /\ (e = Error (js "Family ID and Creator ID are required.")
         \/ e = Error (js "User profile is not available.")
         \/ e = Error (js "Failed to add record.")))
  /\ (forall recordId updatedData,
        outcome (updateRecord h recordId updatedData store) = Throws e ->
        final (updateRecord h recordId updatedData store) = store
        /\ (e = Error (js "Record ID is required for updating.")
            \/ e = Error (js "Failed to update record.")
            \/ fails h (DocRef "records" recordId) = Some e))
  /\ (forall recordId,
        outcome (deleteRecord h recordId store) = Throws e ->
        final (deleteRecord h recordId store) = store
        /\ (e = Error (js "Record ID is required for deletion.")
            \/ e = Error (js "Failed to delete record.")
            \/ fails h (DocRef "records" recordId) = Some e)).
Proof.
  split; [|split].
  - intros rd up. rewrite addRecord_run.
    destruct (idsGiven rd); cbn [negb].
    2:{ intros [= <-]. split; [reflexivity | left; reflexivity]. }
    destruct up as [up|];
      [|intros [= <-]; split; [reflexivity | right; left; reflexivity]].
    cbv zeta. destruct (fails h _); [|discriminate].
    intros [= <-]. split; [reflexivity | right; right; reflexivity].
  - intros id data. destruct (decide (id = [])) as [-> | Hid].
    { intros [= <-]. split; [reflexivity | left; reflexivity]. }
    rewrite updateRecord_cases by exact Hid.
    destruct (fails h (DocRef "records" id)) as [e0|].
    { intros [= <-]. split; [reflexivity | right; right; reflexivity]. }
    destruct (match fails h (UpdateDoc "records" id data) with
              | Some _ => false
              | None => _
              end); [discriminate|].
    intros [= <-]. split; [reflexivity | right; left; reflexivity].
  - intros id. destruct (decide (id = [])) as [-> | Hid].
    { intros [= <-]. split; [reflexivity | left; reflexivity]. }
    rewrite deleteRecord_run by exact Hid.
    destruct (fails h (DocRef "records" id)) as [e0|].
    { intros [= <-]. split; [reflexivity | right; right; reflexivity]. }
    destruct (fails h (DeleteDoc "records" id)); [|discriminate].
    intros [= <-]. split; [reflexivity | right; left; reflexivity].
Qed.

Lemma writers_throw_atomically_witness :
  final (updateRecord Sample.host (js "gone") {[ "notes" := VStr (js "x") ]}
           [Sample.photo]) = [Sample.photo]
  /\ final (deleteRecord Sample.host [] [Sample.photo]) = [Sample.photo].
Proof.
  destruct (writers_throw_atomically Sample.host [Sample.photo]
              (Error (js "Failed to update record."))) as (_ & Hup & _).
  destruct (writers_throw_atomically Sample.host [Sample.photo]
              (Error (js "Record ID is required for deletion."))) as (_ & _ & Hdel).
  split.
  - apply Hup. vm_compute. reflexivity.
  - apply Hdel. vm_compute. reflexivity.
Defined.


(** ** What is stored, field by field *)

Lemma dataToSave_field h recordData up f :
  f <> "babyId" -> f <> "creatorName" -> f <> "timestamp" ->
  f <> "year" -> f <> "month" ->
  dataToSave h recordData up !! f = recordData !! f.
Proof.
  intros H1 H2 H3 H4 H5. unfold dataToSave.
  destruct (bool_decide _); [destruct (_ ≫= _)|];
    repeat (rewrite lookup_insert_ne by congruence); reflexivity.
Qed.

Lemma dataToSave_timestamp h recordData up :
  dataToSave h recordData up !! "timestamp"
  = Some (or_else (recordData !! "timestamp") VServerTimestamp).
Proof.
  unfold dataToSave.
  destruct (bool_decide _); [destruct (_ ≫= _)|];
    repeat (rewrite lookup_insert_ne by discriminate);
    apply lookup_insert_eq.
Qed.

(** X3. A document that [addRecord] stores holds every field of
    [recordData] other than [babyId], [creatorName], [timestamp], [year] and
    [month] as the caller gave it, as the database writes it: a [Timestamp]
    cut down to microseconds, the server's time for a sentinel. Its
    [timestamp] is the caller's when that is truthy, a [Timestamp] again cut
    down to microseconds, and the server's time otherwise; and the
    documents that were in the collection stay as they were, in front of
    it. *)
Theorem addRecord_keeps_fields h recordData userProfile (store : Store) id :
  outcome (addRecord h recordData userProfile store) = Returns id ->
  exists stored,
    final (addRecord h recordData userProfile store) = store ++ [stored]
    /\ doc_id stored = id
    /\ (forall f,
          f <> "babyId" -> f <> "creatorName" -> f <> "timestamp" ->
          f <> "year" -> f <> "month" ->
          doc_data stored !! f
          = Firestore.resolve_value (serverNow h store) <$> recordData !! f)
    /\ doc_data stored !! "timestamp"
       = Some (if truthy (recordData !! "timestamp")
               then Firestore.resolve_value (serverNow h store)
                      (default VNull (recordData !! "timestamp"))
               else VTimestamp (serverNow h store))
    /\ (forall ts,
          recordData !! "timestamp" = Some (VTimestamp ts) ->
          doc_data stored !! "timestamp"
          = Some (VTimestamp {| seconds := seconds ts;
                                nanoseconds := nanoseconds ts / 1000 * 1000 |}))
    /\ (forall f ts,
          f <> "babyId" -> f <> "creatorName" -> f <> "timestamp" ->
          f <> "year" -> f <> "month" ->
          recordData !! f = Some (VTimestamp ts) ->
          doc_data stored !! f
          = Some (VTimestamp {| seconds := seconds ts;
                                nanoseconds := nanoseconds ts / 1000 * 1000 |})).
Proof.
  intros Hret.
  destruct (addRecord_returns _ _ _ _ _ Hret) as (up & -> & _ & _ & _ & Hfin & _).
  eexists. split; [exact Hfin|]. cbn [doc_id doc_data].
  split; [reflexivity|].
  assert (Hts : Firestore.resolve (serverNow h store)
                  (dataToSave h recordData up) !! "timestamp"
                = Some (if truthy (recordData !! "timestamp")
                        then Firestore.resolve_value (serverNow h store)
                               (default VNull (recordData !! "timestamp"))
                        else VTimestamp (serverNow h store))).
  { rewrite resolve_lookup, dataToSave_timestamp.
    cbn [fmap option_fmap option_map]. f_equal.
    unfold or_else. destruct (recordData !! "timestamp") as [v|]; [|reflexivity].
    destruct (truthy (Some v)); reflexivity. }
  split; [|split; [exact Hts|split]].
  - intros f H1 H2 H3 H4 H5.
    rewrite resolve_lookup, dataToSave_field by assumption. reflexivity.
  - intros ts Hgiven. rewrite Hts, Hgiven. reflexivity.
  - intros f ts H1 H2 H3 H4 H5 Hgiven.
    rewrite resolve_lookup, dataToSave_field by assumption.
    rewrite Hgiven. reflexivity.
Qed.

Lemma addRecord_keeps_fields_witness :
  exists stored,
    final (addRecord Sample.host
             (<["timestamp" := VTimestamp Sample.lastOfFebruary]>
                Sample.measurementData)
             (Some Sample.profile) [Sample.photo]) = [Sample.photo; stored]
    /\ doc_data stored !! "familyId" = Some (VStr (js "fam1"))
    /\ doc_data stored !! "timestamp"
       = Some (VTimestamp {| seconds := 1709222399;
                             nanoseconds := 999999000 |}).
Proof.
  destruct (addRecord_keeps_fields Sample.host
              (<["timestamp" := VTimestamp Sample.lastOfFebruary]>
                 Sample.measurementData)
              (Some Sample.profile) [Sample.photo] (js "doc1"))
    as (stored & Hfin & _ & Hf & _ & Hts & _).
  - vm_compute. reflexivity.
  - exists stored. split; [exact Hfin|]. split.
    + rewrite Hf by discriminate. vm_compute. reflexivity.
    + rewrite (Hts Sample.lastOfFebruary) by (vm_compute; reflexivity).
      reflexivity.
Defined.



Lemma filter_keeps_all {A} (p : A -> bool) (l : list A) :
  (forall x, In x l -> p x = true) -> List.filter p l = l.
Proof.
  induction l as [|x l IH]; intros H; [reflexivity|]. cbn [List.filter].
  rewrite (H x (or_introl eq_refl)). f_equal. apply IH.
  intros y Hy. apply H. right. exact Hy.
Qed.

Lemma filter_twice {A} (p : A -> bool) (l : list A) :
  List.filter p (List.filter p l) = List.filter p l.
Proof.
  apply filter_keeps_all. intros x Hx. apply List.filter_In in Hx. tauto.
Qed.

(** X5. When [deleteRecord] returns, no document of the collection has the
    given id any more, and the documents with another id are all there, in
    the order they had; for an id that no document has the collection is
    unchanged, so that deleting a second time changes nothing. *)
Theorem deleteRecord_removes h recordId (store : Store) :
  outcome (deleteRecord h recordId store) = Returns tt ->
  let store' := final (deleteRecord h recordId store) in
  (forall d, In d store' <-> In d store /\ doc_id d <> recordId)
  /\ store' = List.filter (fun d => negb (bool_decide (doc_id d = recordId))) store
  /\ ((forall d, In d store -> doc_id d <> recordId) -> store' = store)
  /\ final (deleteRecord h recordId store') = store'.
Proof.
  destruct (decide (recordId = [])) as [-> | Hid]; [discriminate|].
  rewrite deleteRecord_run by exact Hid.
  destruct (fails h (DocRef "records" recordId)) eqn:Hdoc; [discriminate|].
  destruct (fails h (DeleteDoc "records" recordId)) eqn:Hdel; [discriminate|].
  intros _. cbn [final fst snd].
  rewrite deleteRecord_run by exact Hid. rewrite Hdoc, Hdel.
  cbn [final fst snd].
  split; [|split; [reflexivity|split]].
  - intros d. rewrite List.filter_In. split; intros [H1 H2]; split; auto.
    + intros Heq. rewrite (bool_decide_eq_true_2 _ Heq) in H2. discriminate.
    + rewrite (bool_decide_eq_false_2 _ H2). reflexivity.
  - intros Hall. apply filter_keeps_all. intros d Hd.
    rewrite (bool_decide_eq_false_2 _ (Hall d Hd)). reflexivity.
  - apply filter_twice.
Qed.

Lemma deleteRecord_removes_witness :
  final (deleteRecord Sample.host (js "a")
           [Sample.measured "a" 100; Sample.measured "b" 200])
  = [Sample.measured "b" 200].
Proof.
  destruct (deleteRecord_removes Sample.host (js "a")
              [Sample.measured "a" 100; Sample.measured "b" 200])
    as (_ & H & _).
  - vm_compute. reflexivity.
  - rewrite H. vm_compute. reflexivity.
Defined.

(** ** How the functions of the record module compose *)

(** X6. Deleting the record that [addRecord] has just added gives back the
    collection as it was before, provided the id the new document got is
    not empty and was not in use, and the two calls of the deletion do not
    fail. *)
Theorem add_then_delete h h' recordData userProfile (store : Store) id :
  outcome (addRecord h recordData userProfile store) = Returns id ->
  id <> [] ->
  (forall d, In d store -> doc_id d <> id) ->
  fails h' (DocRef "records" id) = None ->
  fails h' (DeleteDoc "records" id) = None ->
  outcome (deleteRecord h' id (final (addRecord h recordData userProfile store)))
  = Returns tt
  /\ final (deleteRecord h' id (final (addRecord h recordData userProfile store)))
     = store.
Proof.
  intros Hret Hid Hfresh Hdoc Hdel.
  destruct (addRecord_returns _ _ _ _ _ Hret) as (up & -> & _ & _ & _ & -> & _).
  rewrite deleteRecord_run by exact Hid. rewrite Hdoc, Hdel.
  cbn [outcome final fst snd]. split; [reflexivity|].
  rewrite List.filter_app. cbn [List.filter doc_id].
  rewrite (bool_decide_eq_true_2 _ eq_refl). cbn [negb].
  rewrite app_nil_r. apply filter_keeps_all. intros d Hd.
  rewrite (bool_decide_eq_false_2 _ (Hfresh d Hd)). reflexivity.
Qed.

Lemma add_then_delete_witness :
  final (deleteRecord Sample.host (js "doc1")
           (final (addRecord Sample.host Sample.measurementData
                     (Some Sample.profile) [Sample.photo])))
  = [Sample.photo].
Proof.
  apply (add_then_delete Sample.host Sample.host Sample.measurementData
           (Some Sample.profile) [Sample.photo] (js "doc1")).
  - vm_compute. reflexivity.
  - vm_compute. discriminate.
  - intros d [<- | []]. vm_compute. discriminate.
  - reflexivity.
  - reflexivity.
Defined.

(** X7. A measurement that [addRecord] has stored for a family is among the
    records that [getMeasurementRecords] returns for that family exactly
    when the baby asked for is ['baby_01'], whatever baby the caller of
    [addRecord] named: as long as the document is in the collection, a
    query for ['baby_01'] returns it and a query for any other baby does
    not. *)
Theorem added_measurement_is_found h recordData userProfile (store : Store)
    id familyId :
  recordData !! "type" = Some (VStr (js "measurement")) ->
  recordData !! "familyId" = Some (VStr familyId) ->
  outcome (addRecord h recordData userProfile store) = Returns id ->
  exists stored,
    final (addRecord h recordData userProfile store) = store ++ [stored]
    /\ forall h' babyId (later : Store) found,
         In stored later ->
         outcome (getMeasurementRecords h' familyId babyId later)
         = Returns found ->
         (In (withId stored) found <-> babyId = js "baby_01").
Proof.
  intros Hty Hfam Hret.
  destruct (addRecord_returns _ _ _ _ _ Hret) as (up & -> & _ & _ & _ & Hfin & _).
  eexists. split; [exact Hfin|].
  set (stored := {| doc_id := id;
                    doc_data := Firestore.resolve (serverNow h store)
                                  (dataToSave h recordData up) |}).
  assert (Hb : doc_data stored !! "babyId" = Some (VStr (js "baby_01"))).
  { cbn [stored doc_data]. rewrite resolve_lookup, dataToSave_babyId.
    reflexivity. }
  assert (Hf : doc_data stored !! "familyId" = Some (VStr familyId)).
  { cbn [stored doc_data].
    rewrite resolve_lookup, dataToSave_field, Hfam by discriminate.
    reflexivity. }
  assert (Ht : doc_data stored !! "type" = Some (VStr (js "measurement"))).
  { cbn [stored doc_data].
    rewrite resolve_lookup, dataToSave_field, Hty by discriminate.
    reflexivity. }
  assert (Hs : is_Some (doc_data stored !! "timestamp")).
  { cbn [stored doc_data]. rewrite resolve_lookup, dataToSave_timestamp.
    eexists. reflexivity. }
  clearbody stored. intros h' babyId later found Hin.
  rewrite getMeasurementRecords_run. cbv zeta.
  destruct (fails h' _); [discriminate|]. cbn [outcome fst]. intros [= <-].
  rewrite measurement_query_result. split.
  - intros Hw. apply in_map_iff in Hw. destruct Hw as (d & Hd & Hdin).
    apply list_elem_of_In in Hdin. rewrite merge_sort_Permutation in Hdin.
    apply list_elem_of_In, List.filter_In in Hdin. destruct Hdin as [_ Hm].
    unfold is_measurement_of in Hm.
    apply andb_true_iff in Hm. destruct Hm as [Hm _].
    apply andb_true_iff in Hm. destruct Hm as [Hm _].
    apply andb_true_iff in Hm. destruct Hm as [_ Hm].
    apply bool_decide_eq_true_1 in Hm.
    apply (withId_field d) in Hm. rewrite Hd in Hm.
    rewrite (withId_field stored _ _ Hb) in Hm. congruence.
  - intros ->. apply in_map. apply list_elem_of_In.
    rewrite merge_sort_Permutation. apply list_elem_of_In, List.filter_In.
    split; [exact Hin|]. unfold is_measurement_of.
    rewrite (bool_decide_eq_true_2 _ Hf), (bool_decide_eq_true_2 _ Hb),
      (bool_decide_eq_true_2 _ Ht), (bool_decide_eq_true_2 _ Hs).
    reflexivity.
Qed.

Lemma added_measurement_is_found_witness :
  exists stored found,
    final (addRecord Sample.host
             (<["babyId" := VStr (js "baby_02")]> Sample.measurementData)
             (Some Sample.profile) []) = [stored]
    /\ outcome (getMeasurementRecords Sample.host (js "fam1") (js "baby_02")
                  [stored]) = Returns found
    /\ ~ In (withId stored) found.
Proof.
  destruct (added_measurement_is_found Sample.host
              (<["babyId" := VStr (js "baby_02")]> Sample.measurementData)
              (Some Sample.profile) [] (js "doc0") (js "fam1"))
    as (stored & Hfin & H); try (vm_compute; reflexivity).
  exists stored, []. split; [exact Hfin|].
  assert (Hout : outcome (getMeasurementRecords Sample.host (js "fam1")
                            (js "baby_02") [stored]) = Returns []).
  { vm_compute in Hfin. injection Hfin as <-. vm_compute. reflexivity. }
  split; [exact Hout|].
  intros Hin.
  apply (H Sample.host (js "baby_02") [stored] [] (or_introl eq_refl) Hout) in Hin.
  vm_compute in Hin. discriminate.
Defined.

(** ** Pages of snapshots *)

Lemma lex_cmp_refl a : Firestore.lex_cmp a a = Eq.
Proof. induction a as [|x a IH]; cbn; [|rewrite Z.compare_refl]; auto. Qed.

Lemma lex_cmp_Eq a b : Firestore.lex_cmp a b = Eq -> a = b.
Proof.
  revert b. induction a as [|x a IH]; intros [|y b]; cbn; try congruence.
  destruct (Z.compare_spec x y) as [Hxy | Hxy | Hxy]; try discriminate.
  intros Hl. subst. f_equal. auto.
Qed.

Lemma lex_cmp_Lt_trans a b c :
  Firestore.lex_cmp a b = Lt -> Firestore.lex_cmp b c = Lt ->
  Firestore.lex_cmp a c = Lt.
Proof.
  revert b c. induction a as [|x a IH]; intros [|y b] [|z c]; cbn;
    try congruence.
  destruct (Z.compare_spec x y), (Z.compare_spec y z); subst; try congruence;
    intros H1 H2.
  - rewrite Z.compare_refl. eauto.
  - rewrite (proj2 (Z.compare_lt_iff _ _)) by lia. reflexivity.
  - rewrite (proj2 (Z.compare_lt_iff _ _)) by lia. reflexivity.
  - rewrite (proj2 (Z.compare_lt_iff _ _)) by lia. reflexivity.
Qed.

Section KeyOrder.
(** An order by a key, in a direction. *)
Variable key : DocSnap -> list Z.
Variable dir : Direction.

Lemma key_cmp_Eq x y :
  Firestore.directed dir (Firestore.lex_cmp (key x) (key y)) = Eq ->
  key x = key y.
Proof.
  destruct dir; cbn; intros H.
  - apply lex_cmp_Eq, H.
  - apply lex_cmp_Eq. destruct (Firestore.lex_cmp _ _); cbn in H; congruence.
Qed.

Lemma key_cmp_Lt_trans x y z :
  Firestore.directed dir (Firestore.lex_cmp (key x) (key y)) = Lt ->
  Firestore.directed dir (Firestore.lex_cmp (key y) (key z)) = Lt ->
  Firestore.directed dir (Firestore.lex_cmp (key x) (key z)) = Lt.
Proof.
  destruct dir; cbn.
  - apply lex_cmp_Lt_trans.
  - intros H1 H2.
    assert (H1' : Firestore.lex_cmp (key y) (key x) = Lt).
    { rewrite lex_cmp_antisym. destruct (Firestore.lex_cmp (key x) (key y));
        cbn in *; congruence. }
    assert (H2' : Firestore.lex_cmp (key z) (key y) = Lt).
    { rewrite lex_cmp_antisym. destruct (Firestore.lex_cmp (key y) (key z));
        cbn in *; congruence. }
    rewrite (lex_cmp_antisym (key z) (key x)),
      (lex_cmp_Lt_trans _ _ _ H2' H1'). reflexivity.
Qed.

End KeyOrder.

Lemma doc_cmp_Eq_same last obs x y z :
  Firestore.doc_cmp last obs x y = Eq ->
  Firestore.doc_cmp last obs x z = Firestore.doc_cmp last obs y z.
Proof.
  revert last. induction obs as [|[f d] obs IH]; intros last; cbn.
  - intros H.
    apply (key_cmp_Eq (fun d => Firestore.string_key (doc_id d)) last) in H.
    rewrite H. reflexivity.
  - destruct (Firestore.directed d
                (Firestore.lex_cmp (Firestore.field_key x f)
                   (Firestore.field_key y f))) eqn:Hc; try discriminate.
    apply (key_cmp_Eq (fun d => Firestore.field_key d f) d) in Hc.
    rewrite Hc. intros H. rewrite (IH d H). reflexivity.
Qed.

Lemma doc_cmp_Lt_trans last obs x y z :
  Firestore.doc_cmp last obs x y = Lt ->
  Firestore.doc_cmp last obs y z = Lt ->
  Firestore.doc_cmp last obs x z = Lt.
Proof.
  revert last. induction obs as [|[f d] obs IH]; intros last; cbn.
  - apply (key_cmp_Lt_trans (fun d => Firestore.string_key (doc_id d)) last).
  - pose proof (key_cmp_Lt_trans (fun d => Firestore.field_key d f) d x y z)
      as Htr.
    pose proof (key_cmp_Eq (fun d => Firestore.field_key d f) d x y) as Hxy.
    pose proof (key_cmp_Eq (fun d => Firestore.field_key d f) d y z) as Hyz.
    cbv beta in Htr, Hxy, Hyz.
    destruct (Firestore.directed d
                (Firestore.lex_cmp (Firestore.field_key x f)
                   (Firestore.field_key y f))) eqn:Hc1; try discriminate.
    + rewrite (Hxy eq_refl).
      destruct (Firestore.directed d
                  (Firestore.lex_cmp (Firestore.field_key y f)
                     (Firestore.field_key z f))) eqn:Hc2; try discriminate;
        auto.
    + destruct (Firestore.directed d
                  (Firestore.lex_cmp (Firestore.field_key y f)
                     (Firestore.field_key z f))) eqn:Hc2; try discriminate.
      * rewrite <- (Hyz eq_refl), Hc1. reflexivity.
      * rewrite (Htr eq_refl eq_refl). reflexivity.
Qed.

Lemma doc_cmp_refl last obs x : Firestore.doc_cmp last obs x x = Eq.
Proof.
  revert last. induction obs as [|[f d] obs IH]; intros last; cbn;
    rewrite lex_cmp_refl.
  - destruct last; reflexivity.
  - destruct d; cbn; apply IH.
Qed.

(** Ids are ordered by code point: the id U+FF5E comes before the id
    U+1F600, whose first code unit, a surrogate, is the smaller number. *)
Example id_order_sample :
  js "😀" = [55357; 56832]%N
  /\ js "～" = [65374]%N
  /\ Firestore.doc_cmp Asc []
       {| doc_id := js "～"; doc_data := ∅ |}
       {| doc_id := js "😀"; doc_data := ∅ |} = Lt
  /\ Firestore.lex_cmp (Firestore.value_key (VStr (js "～")))
       (Firestore.value_key (VStr (js "😀"))) = Lt
  /\ Firestore.lex_cmp (Firestore.value_key (VStr (js "a")))
       (Firestore.value_key (VStr (js "ab"))) = Lt.
Proof. repeat split; vm_compute; reflexivity. Qed.

#[global] Instance doc_le_refl obs : Reflexive (Firestore.doc_le obs).
Proof. intros x. unfold Firestore.doc_le. rewrite doc_cmp_refl. discriminate. Qed.

#[global] Instance doc_le_trans obs : Transitive (Firestore.doc_le obs).
Proof.
  intros x y z. unfold Firestore.doc_le. intros Hxy Hyz.
  destruct (Firestore.doc_cmp Asc obs x y) eqn:H1; [| |congruence].
  - rewrite (doc_cmp_Eq_same _ _ _ _ _ H1). exact Hyz.
  - destruct (Firestore.doc_cmp Asc obs y z) eqn:H2; [| |congruence].
    + assert (H2' : Firestore.doc_cmp Asc obs z y = Eq)
        by (rewrite doc_cmp_antisym, H2; reflexivity).
      pose proof (doc_cmp_Eq_same _ _ _ _ x H2') as H3.
      rewrite (doc_cmp_antisym Asc obs x z), (doc_cmp_antisym Asc obs x y), H1
        in H3.
      destruct (Firestore.doc_cmp Asc obs x z); cbn in H3; congruence.
    + rewrite (doc_cmp_Lt_trans _ _ _ _ _ H1 H2). discriminate.
Qed.

Lemma StronglySorted_filter {A} (R : relation A) (p : A -> bool) l :
  StronglySorted R l -> StronglySorted R (List.filter p l).
Proof.
  induction 1 as [|x l _ IH Hx]; cbn; [constructor|].
  destruct (p x); [|exact IH]. constructor; [exact IH|].
  rewrite Forall_forall in Hx |- *. intros y Hy. apply Hx.
  apply list_elem_of_In in Hy. apply List.filter_In in Hy.
  apply list_elem_of_In. tauto.
Qed.

Lemma StronglySorted_take {A} (R : relation A) n l :
  StronglySorted R l -> StronglySorted R (take n l).
Proof.
  intros H. revert n. induction H as [|x l _ IH Hx]; intros [|n]; cbn;
    try constructor; [apply IH|].
  rewrite Forall_forall in Hx |- *. intros y Hy. apply Hx.
  exact (subseteq_take _ _ _ Hy).
Qed.

Lemma StronglySorted_limited (R : relation DocSnap) q l :
  StronglySorted R l -> StronglySorted R (Firestore.limited q l).
Proof.
  intros H. unfold Firestore.limited. induction q as [|c q IH]; cbn; [exact H|].
  destruct c; auto. apply StronglySorted_take, IH.
Qed.

Lemma length_limited q l n :
  In (Limit n) q -> (length (Firestore.limited q l) <= Z.to_nat n)%nat.
Proof.
  unfold Firestore.limited. induction q as [|c q IH]; [intros []|].
  intros [-> | Hin]; cbn.
  - rewrite length_take. lia.
  - specialize (IH Hin). destruct c; auto. rewrite length_take. lia.
Qed.

(** The result of a query is in the order of the query. *)
Lemma runQuery_sorted store q (R : relation DocSnap) :
  Transitive R ->
  (forall d1 d2, Firestore.doc_le (Firestore.orderBys q) d1 d2 -> R d1 d2) ->
  StronglySorted R (Firestore.runQuery store q).
Proof.
  intros HR Hle. unfold Firestore.runQuery.
  apply StronglySorted_limited, StronglySorted_filter.
  apply Sorted_StronglySorted; [exact HR|].
  eapply Sorted_weaken; [exact Hle|]. apply Sorted_merge_sort. apply _.
Qed.

Lemma orderBys_snapshot_query familyId perPage lastDoc year month tag :
  Firestore.orderBys (snapshot_query familyId perPage lastDoc year month tag)
  = [("timestamp", Desc)].
Proof.
  unfold snapshot_query, Firestore.orderBys.
  rewrite !flat_map_app. cbn [flat_map app].
  destruct year as [y|]; [destruct (y =? 0)|];
    destruct month as [m|]; try destruct (m =? 0);
    destruct tag as [t|]; try destruct (all_whitespace t);
    destruct lastDoc; reflexivity.
Qed.

Lemma snapshot_query_fixed familyId perPage lastDoc year month tag :
  In (Where "familyId" OpEq (VStr familyId))
     (snapshot_query familyId perPage lastDoc year month tag)
  /\ In (Where "type" OpEq (VStr (js "snapshot")))
        (snapshot_query familyId perPage lastDoc year month tag)
  /\ In (OrderBy "timestamp" Desc)
        (snapshot_query familyId perPage lastDoc year month tag)
  /\ In (Limit (match perPage with
                | Some n => if n =? 0 then 20 else n
                | None => 20
                end))
        (snapshot_query familyId perPage lastDoc year month tag)
  /\ (forall d, lastDoc = Some d ->
                In (StartAfter d)
                   (snapshot_query familyId perPage lastDoc year month tag)).
Proof.
  unfold snapshot_query. split; [|split; [|split; [|split]]].
  - apply in_or_app. left. left. reflexivity.
  - apply in_or_app. left. right. left. reflexivity.
  - do 4 (apply in_or_app; right). apply in_or_app. left. left. reflexivity.
  - do 4 (apply in_or_app; right). apply in_or_app. left. right. left.
    reflexivity.
  - intros d ->. do 5 (apply in_or_app; right). left. reflexivity.
Qed.

(** X8. A page that [getSnapshots] returns is made of documents of the
    collection that belong to the family, are snapshots and have a
    timestamp, newest first; it holds at most [perPage] of them (at most 20
    when [perPage] is absent or zero); and [lastVisible] is the last
    document of the page, absent exactly when the page is empty. *)
Theorem getSnapshots_page h familyId options (store : Store) page :
  outcome (getSnapshots h familyId options store) = Returns page ->
  exists docs,
    snapshots page = List.map withId docs
    /\ lastVisible page = last docs
    /\ (lastVisible page = None <-> snapshots page = [])
    /\ (length (snapshots page)
        <= Z.to_nat (match Options.perPage options with
                     | Some n => if (n =? 0)%Z then 20%Z else n
                     | None => 20%Z
                     end))%nat
    /\ (forall d, In d docs ->
                  In d store
                  /\ doc_data d !! "familyId" = Some (VStr familyId)
                  /\ doc_data d !! "type" = Some (VStr (js "snapshot"))
                  /\ is_Some (doc_data d !! "timestamp"))
    /\ StronglySorted (fun d1 d2 => timestamp_le d2 d1) docs.
Proof.
  rewrite getSnapshots_run. cbv zeta.
  destruct (query_fault _ _); [discriminate|].
  destruct (fails h _); [discriminate|]. cbn [outcome fst]. intros [= <-].
  cbn [snapshots lastVisible]. eexists. split; [reflexivity|].
  split; [reflexivity|].
  destruct (snapshot_query_fixed familyId (Options.perPage options)
              (Options.lastDoc options)
              (Options.filter options ≫= Options.year)
              (Options.filter options ≫= Options.month)
              (Options.filter options ≫= Options.tag))
    as (Hfam & Hty & Hord & Hlim & _).
  split; [|split; [|split]].
  - rewrite last_None. split; [intros ->; reflexivity|].
    intros H. apply map_eq_nil in H. exact H.
  - rewrite length_map. unfold Firestore.runQuery.
    apply length_limited, Hlim.
  - intros d Hd. apply runQuery_In in Hd. destruct Hd as [Hin Hpass].
    split; [exact Hin|].
    pose proof (Hpass _ Hfam) as H1. pose proof (Hpass _ Hty) as H2.
    pose proof (Hpass _ Hord) as H3. cbn [Firestore.passes] in H1, H2, H3.
    split; [exact (bool_decide_eq_true_1 _ H1)|].
    split; [exact (bool_decide_eq_true_1 _ H2)|].
    exact (bool_decide_eq_true_1 _ H3).
  - apply runQuery_sorted.
    + intros d1 d2 d3 H12 H23. exact (timestamp_le_trans _ _ _ H23 H12).
    + rewrite orderBys_snapshot_query. intros d1 d2 H.
      exact (doc_le_timestamp Desc d1 d2 H).
Qed.

Lemma getSnapshots_page_witness :
  exists docs,
    List.map withId [Sample.photoAt "b" 300; Sample.photoAt "c" 200]
    = List.map withId docs
    /\ StronglySorted (fun d1 d2 => timestamp_le d2 d1) docs.
Proof.
  destruct (getSnapshots_page Sample.host (js "fam1")
              (Sample.pageOptions 2 None)
              [Sample.photoAt "a" 100; Sample.photoAt "b" 300;
               Sample.undated; Sample.photoAt "c" 200]
              {| snapshots := List.map withId [Sample.photoAt "b" 300;
                                               Sample.photoAt "c" 200];
                 lastVisible := Some (Sample.photoAt "c" 200) |})
    as (docs & Hs & _ & _ & _ & _ & Hsorted).
  - vm_compute. reflexivity.
  - exists docs. split; [exact Hs | exact Hsorted].
Defined.

Lemma StronglySorted_last {A} (R : relation A) `{!Reflexive R} l c :
  StronglySorted R l -> last l = Some c -> forall d, In d l -> R d c.
Proof.
  intros Hs Hl d Hd. apply last_Some in Hl. destruct Hl as [l' ->].
  apply in_app_or in Hd. destruct Hd as [Hd | [<- | []]]; [|reflexivity].
  apply (StronglySorted_app_1_elem_of _ _ _ _ _ Hs);
    [apply list_elem_of_In, Hd | apply list_elem_of_here].
Qed.

Lemma runQuery_behind store q cursor d :
  In d (Firestore.runQuery store q) ->
  In (StartAfter cursor) q ->
  Firestore.doc_cmp Asc (Firestore.orderBys q) cursor d = Lt.
Proof.
  unfold Firestore.runQuery. intros Hd Hc.
  apply In_limited, List.filter_In in Hd. destruct Hd as [_ Hb].
  unfold Firestore.behind_cursors in Hb.
  rewrite forallb_forall in Hb. specialize (Hb _ Hc). cbv beta iota in Hb.
  destruct (Firestore.doc_cmp Asc (Firestore.orderBys q) cursor d);
    [discriminate | reflexivity | discriminate].
Qed.

(** X9. Asking for the next page with the [lastVisible] of a page as
    [lastDoc], and with the same page size and filter, repeats no document
    of that page: every document of the next page comes strictly behind
    [lastVisible] in the order of the query, every document of the first
    page comes at or before it, whatever has been added to the collection
    in between. *)
Theorem next_page_is_behind h h' familyId options (store store' : Store)
    page page' cursor :
  outcome (getSnapshots h familyId options store) = Returns page ->
  lastVisible page = Some cursor ->
  outcome (getSnapshots h' familyId
             {| Options.perPage := Options.perPage options;
                Options.lastDoc := Some cursor;
                Options.filter := Options.filter options |} store')
  = Returns page' ->
  exists docs docs',
    snapshots page = List.map withId docs
    /\ snapshots page' = List.map withId docs'
    /\ In cursor docs
    /\ (forall d, In d docs ->
                  Firestore.doc_le [("timestamp", Desc)] d cursor)
    /\ (forall d, In d docs' ->
                  Firestore.doc_cmp Asc [("timestamp", Desc)] cursor d = Lt)
    /\ forall d, In d docs -> ~ In d docs'.
Proof.
  rewrite !getSnapshots_run. cbv zeta.
  cbn [Options.perPage Options.lastDoc Options.filter].
  destruct (query_fault _ (Options.lastDoc options)); [discriminate|].
  destruct (fails h _); [discriminate|]. cbn [outcome fst]. intros [= <-].
  cbn [snapshots lastVisible]. intros Hlast.
  destruct (query_fault _ _); [discriminate|].
  destruct (fails h' _); [discriminate|]. intros [= <-]. cbn [snapshots].
  eexists _, _. split; [reflexivity|]. split; [reflexivity|].
  assert (Hle : forall d,
            In d (Firestore.runQuery store
                    (snapshot_query familyId (Options.perPage options)
                       (Options.lastDoc options)
                       (Options.filter options ≫= Options.year)
                       (Options.filter options ≫= Options.month)
                       (Options.filter options ≫= Options.tag))) ->
            Firestore.doc_le [("timestamp", Desc)] d cursor).
  { apply (StronglySorted_last _ _ _); [|exact Hlast].
    apply runQuery_sorted; [apply _|].
    rewrite orderBys_snapshot_query. auto. }
  assert (Hlt : forall d,
            In d (Firestore.runQuery store'
                    (snapshot_query familyId (Options.perPage options)
                       (Some cursor)
                       (Options.filter options ≫= Options.year)
                       (Options.filter options ≫= Options.month)
                       (Options.filter options ≫= Options.tag))) ->
            Firestore.doc_cmp Asc [("timestamp", Desc)] cursor d = Lt).
  { intros d Hd.
    rewrite <- (orderBys_snapshot_query familyId (Options.perPage options)
                  (Some cursor)
                  (Options.filter options ≫= Options.year)
                  (Options.filter options ≫= Options.month)
                  (Options.filter options ≫= Options.tag)).
    apply (runQuery_behind store'); [exact Hd|].
    apply snapshot_query_fixed. reflexivity. }
  split; [apply list_elem_of_In, last_Some_elem_of, Hlast|].
  split; [exact Hle|]. split; [exact Hlt|].
  intros d H1 H2. specialize (Hle d H1). specialize (Hlt d H2).
  unfold Firestore.doc_le in Hle.
  rewrite doc_cmp_antisym, Hlt in Hle. apply Hle. reflexivity.
Qed.

Lemma next_page_is_behind_witness :
  exists docs docs',
    List.map withId [Sample.photoAt "b" 300; Sample.photoAt "c" 200]
    = List.map withId docs
    /\ List.map withId [Sample.photoAt "a" 100] = List.map withId docs'
    /\ forall d, In d docs -> ~ In d docs'.
Proof.
  destruct (next_page_is_behind Sample.host Sample.host (js "fam1")
              (Sample.pageOptions 2 None)
              [Sample.photoAt "a" 100; Sample.photoAt "b" 300;
               Sample.undated; Sample.photoAt "c" 200]
              [Sample.photoAt "a" 100; Sample.photoAt "b" 300;
               Sample.undated; Sample.photoAt "c" 200]
              {| snapshots := List.map withId [Sample.photoAt "b" 300;
                                               Sample.photoAt "c" 200];
                 lastVisible := Some (Sample.photoAt "c" 200) |}
              {| snapshots := List.map withId [Sample.photoAt "a" 100];
                 lastVisible := Some (Sample.photoAt "a" 100) |}
              (Sample.photoAt "c" 200))
    as (docs & docs' & H1 & H2 & _ & _ & _ & H3).
  - vm_compute. reflexivity.
  - reflexivity.
  - vm_compute. reflexivity.
  - exists docs, docs'. split; [exact H1|]. split; [exact H2 | exact H3].
Defined.

(** * More of the record modal *)

Section ModalExtras.
Import AddRecordModal ExistingRecord.

Lemma handleDelete_run h p confirmed st (db : Store) :
  handleDelete h p confirmed (st, db) =
  match existingRecord p with
  | Some er =>
      if confirmed then
        match deleteRecord h (idOf er) db with
        | (Returns _, db', ev) => (Returns tt, (st, db'), ev ++ [OnClose])
        | (Throws e, db', ev) =>
            (Returns tt, (withError (js "刪除失敗，請稍後再試。") st, db'),
             ev ++ [ConsoleError "err"])
        end
      else (Returns tt, (st, db), [])
  | None => (Returns tt, (st, db), [])
  end.
Proof.
  unfold handleDelete. destruct (existingRecord p) as [er|]; [|reflexivity].
  destruct confirmed; [|reflexivity]. run.
  destruct (deleteRecord h (idOf er) db) as [[[[]|e] db'] ev]; run;
    rewrite ?app_nil_r; reflexivity.
Qed.

Lemma deleteRecord_quiet h recordId (store : Store) :
  ~ In OnClose (events (deleteRecord h recordId store))
  /\ (forall e, outcome (deleteRecord h recordId store) = Throws e ->
                final (deleteRecord h recordId store) = store)
  /\ (outcome (deleteRecord h recordId store) = Returns tt ->
      final (deleteRecord h recordId store)
      = List.filter (fun d => negb (bool_decide (doc_id d = recordId))) store).
Proof.
  destruct (decide (recordId = [])) as [-> | Hid].
  - split; [intros []|]. split; [reflexivity | discriminate].
  - rewrite deleteRecord_run by exact Hid.
    destruct (fails h (DocRef "records" recordId)).
    { split; [intros [H | []]; discriminate|].
      split; [reflexivity | discriminate]. }
    destruct (fails h (DeleteDoc "records" recordId)).
    { split; [intros [H | [H | [H | []]]]; discriminate|].
      split; [reflexivity | discriminate]. }
    split; [intros [H | [H | [H | []]]]; discriminate|].
    split; [discriminate | reflexivity].
Qed.

(** X10. [handleDelete] never throws. Without an existing record, or when
    the user does not confirm, it does nothing at all. Otherwise it calls
    [deleteRecord] with the id of the record, and the modal closes exactly
    when that call returns: then the documents with that id are gone from
    the collection and the state of the modal is untouched. When the call
    throws, also because the record has no id, the modal stays open, the
    collection is as it was, and the error shown is one fixed message,
    whatever was thrown. *)
Theorem handleDelete_outcome h p confirmed st (db : Store) :
  let r := handleDelete h p confirmed (st, db) in
  outcome r = Returns tt
  /\ (existingRecord p = None \/ confirmed = false ->
      r = (Returns tt, (st, db), []))
  /\ (forall er,
        existingRecord p = Some er -> confirmed = true ->
        (In OnClose (events r)
         <-> outcome (deleteRecord h (idOf er) db) = Returns tt)
        /\ (In OnClose (events r) ->
            (final r).1 = st
            /\ (final r).2
               = List.filter
                   (fun d => negb (bool_decide (doc_id d = idOf er))) db)
        /\ (~ In OnClose (events r) ->
            (final r).1 = withError (js "刪除失敗，請稍後再試。") st
            /\ (final r).2 = db)).
Proof.
  intros r. subst r. rewrite handleDelete_run.
  split; [|split].
  - destruct (existingRecord p) as [er|]; [|reflexivity].
    destruct confirmed; [|reflexivity].
    destruct (deleteRecord h (idOf er) db) as [[[[]|e] db'] ev]; reflexivity.
  - intros [-> | ->]; [reflexivity|].
    destruct (existingRecord p); reflexivity.
  - intros er -> ->.
    destruct (deleteRecord_quiet h (idOf er) db) as (Hq & Ht & Hr).
    destruct (deleteRecord h (idOf er) db) as [[[[]|e] db'] ev];
      cbn [outcome final events fst snd] in *.
    + assert (Hin : In OnClose (ev ++ [OnClose])).
      { apply in_or_app. right. left. reflexivity. }
      split; [tauto|]. split; [|tauto].
      intros _. split; [reflexivity | apply Hr; reflexivity].
    + assert (Hout : ~ In OnClose (ev ++ [ConsoleError "err"])).
      { intros H. apply in_app_or in H.
        destruct H as [H | [H | []]]; [contradiction | discriminate]. }
      split; [split; [contradiction | discriminate]|].
      split; [contradiction|].
      intros _. split; [reflexivity | exact (Ht e eq_refl)].
Qed.

Lemma handleDelete_outcome_witness :
  (final (handleDelete Sample.host
            {| recordType := measurement;
               existingRecord := Some (withId (Sample.measured "b" 200)) |}
            true
            (Sample.idle,
             [Sample.measured "a" 100; Sample.measured "b" 200]))).2
  = [Sample.measured "a" 100].
Proof.
  destruct (handleDelete_outcome Sample.host
              {| recordType := measurement;
                 existingRecord := Some (withId (Sample.measured "b" 200)) |}
              true Sample.idle
              [Sample.measured "a" 100; Sample.measured "b" 200])
    as (_ & _ & H).
  destruct (H _ eq_refl eq_refl) as (Hiff & Hclosed & _).
  destruct Hclosed as [_ ->].
  - apply Hiff. vm_compute. reflexivity.
  - vm_compute. reflexivity.
Defined.

Lemma join_laid_out (tags : list jsstring) :
  Forall (fun t => t <> [] /\ sep_free t) tags ->
  exists pieces,
    well_laid pieces /\ List.map fst pieces = tags
    /\ laid_out pieces = join (js ", ") tags.
Proof.
  assert (Hsep : all_sep (js ", ")) by (vm_compute; repeat constructor).
  assert (Hne : js ", " <> []) by (vm_compute; discriminate).
  induction 1 as [|t tags [Ht Hfree] _ (pieces & Hw & Hm & Hl)].
  - exists []. repeat split.
  - destruct tags as [|t' tags].
    + exists [(t, [])]. cbn [well_laid laid_out List.map fst join].
      rewrite !app_nil_r.
      repeat split; try assumption; try constructor. congruence.
    + exists ((t, js ", ") :: pieces).
      cbn [well_laid laid_out List.map fst]. rewrite Hm, Hl.
      split; [|split; [f_equal | reflexivity]].
      split; [exact Ht|]. split; [exact Hfree|]. split; [exact Hsep|].
      split; [intros _; exact Hne | exact Hw].
Qed.

Lemma tagsArray_tags s :
  Forall (fun t => t <> [] /\ sep_free t) (tagsArray s).
Proof.
  destruct (laid_out_exists s) as (lead & pieces & Hl & Hw & ->).
  rewrite tagsArray_laid_out by assumption. clear Hl lead.
  induction pieces as [|[t r] rest IH]; [constructor|].
  destruct Hw as (Ht & Hfree & _ & _ & Hw).
  constructor; [split; assumption | apply IH, Hw].
Qed.

(** X11. The text that the modal puts into the tags input for an existing
    record, its tags joined by a comma and a space, is parsed by a
    submission into the same tags again, provided no tag is empty or has a
    comma or white space in it. The tags that a submission has parsed are
    always of that kind, so they survive being shown and submitted again.
    A record whose [tags] is not an array gives no tags. *)
Theorem tags_round_trip :
  (forall existingRecord tags,
     existingRecord !! "tags" = Some (VArr tags) ->
     Forall (fun t => t <> [] /\ sep_free t) tags ->
     tagsArray (tagsText existingRecord) = tags)
  /\ (forall s, Forall (fun t => t <> [] /\ sep_free t) (tagsArray s))
  /\ (forall existingRecord s,
        existingRecord !! "tags" = Some (VArr (tagsArray s)) ->
        tagsArray (tagsText existingRecord) = tagsArray s)
  /\ (forall existingRecord,
        (forall tags, existingRecord !! "tags" <> Some (VArr tags)) ->
        tagsArray (tagsText existingRecord) = []).
Proof.
  assert (Hround : forall existingRecord tags,
            existingRecord !! "tags" = Some (VArr tags) ->
            Forall (fun t => t <> [] /\ sep_free t) tags ->
            tagsArray (tagsText existingRecord) = tags).
  { intros er tags Her Htags. unfold tagsText. rewrite Her.
    destruct (join_laid_out tags Htags) as (pieces & Hw & <- & <-).
    apply (tagsArray_laid_out []); [constructor | exact Hw]. }
  split; [exact Hround|]. split; [exact tagsArray_tags|]. split.
  - intros er s Her. apply Hround; [exact Her | apply tagsArray_tags].
  - intros er Her. unfold tagsText.
    destruct (er !! "tags") as [[]|]; try (vm_compute; reflexivity).
    exfalso. eapply Her. reflexivity.
Qed.

Lemma tags_round_trip_witness :
  tagsArray (tagsText (withId (Sample.photoAt "a" 100))) = [js "park"]
  /\ tagsArray
       (tagsText
          (snapshotData (js "fam1") (js "u1") (js "") (js "url")
             (tagsArray (js " sun,, 公園，park "))))
     = tagsArray (js " sun,, 公園，park ").
Proof.
  destruct tags_round_trip as (H1 & _ & H2 & _). split.
  - apply H1; [vm_compute; reflexivity|].
    vm_compute. repeat constructor; discriminate.
  - apply H2. vm_compute. reflexivity.
Defined.

End ModalExtras.

(** ** What a submission does to the collection *)

Ltac not_in :=
  intros;
  let H := fresh "Hnot" in
  intros H; simpl in H;
  repeat (destruct H as [H | H]; [discriminate|]); exact H.

Section Submission.
Import AddRecordModal.

Lemma attempt_run h p u up familyId st op (db : Store) :
  attempt h p u up familyId st = Invoke op ->
  (exists img,
     recordType p = snapshot /\ imageFile st = Some img
     /\ op db
        = match fails h (UploadImage img (uid u)) with
          | Some e => (Throws e, db, [UploadImage img (uid u)])
          | None =>
              match addRecord h
                      (snapshotData familyId (uid u) (notes (form st))
                         (uploadedURL h img (uid u))
                         (tagsArray (tags (form st))))
                      (Some up) db with
              | (Returns _, db', ev) =>
                  (Returns tt, db', UploadImage img (uid u) :: ev)
              | (Throws e, db', ev) =>
                  (Throws e, db', UploadImage img (uid u) :: ev)
              end
          end)
  \/ (exists rd,
        recordType p <> snapshot
        /\ recordData h (recordType p) (form st) = inr rd
        /\ match existingRecord p with
           | Some er => op = updateRecord h (idOf er) rd
           | None =>
               op db
               = match addRecord h
                         (newRecordData (recordType p) familyId (uid u) rd)
                         (Some up) db with
                 | (Returns _, db', ev) => (Returns tt, db', ev)
                 | (Throws e, db', ev) => (Throws e, db', ev)
                 end
           end).
Proof.
  unfold attempt. destruct (recordType p) eqn:Hty.
  6:{ destruct (imageFile st) as [img|]; [|discriminate].
      intros [= <-]. left. exists img. split; [reflexivity|].
      split; [reflexivity|].
      unfold bind at 1, uploadImage, bind at 1, call, ret.
      destruct (fails h (UploadImage img (uid u))); [reflexivity|].
      unfold bind, ret.
      destruct (addRecord h _ (Some up) db) as [[[id|e] db'] ev];
        cbn [app]; rewrite ?app_nil_r; reflexivity. }
  all: destruct (recordData h _ (form st)) as [e|rd] eqn:Hrd; [discriminate|];
    intros [= <-]; right; exists rd; split; [discriminate|];
    split; [reflexivity|];
    destruct (existingRecord p) as [er|]; [reflexivity|];
    unfold bind, ret;
    destruct (addRecord h _ (Some up) db) as [[[id|e] db'] ev];
    rewrite ?app_nil_r; reflexivity.
Qed.

(** What [addRecord] does to the collection, and which calls it makes. *)
Lemma addRecord_effect h recordData userProfile (store : Store) :
  let r := addRecord h recordData userProfile store in
  ((final r = store /\ exists e, outcome r = Throws e)
   \/ exists stored,
        final r = store ++ [stored] /\ outcome r = Returns (doc_id stored))
  /\ forall ev, In ev (events r) ->
                (forall c i d, ev <> UpdateDoc c i d)
                /\ (forall c i, ev <> DeleteDoc c i)
                /\ ev <> OnClose.
Proof.
  cbv zeta. rewrite addRecord_run.
  destruct (idsGiven recordData);
    [|split; [left; eauto | intros ev []]].
  destruct userProfile as [up|]; [|split; [left; eauto | intros ev []]].
  cbv zeta. destruct (fails h _).
  - split; [left; eauto|].
    intros ev [<- | [<- | []]]; repeat split; intros; discriminate.
  - split; [right; eexists; split; reflexivity|].
    intros ev [<- | [<- | []]]; repeat split; intros; discriminate.
Qed.

(** What [updateRecord] does to the collection, and which calls it makes. *)
Lemma updateRecord_effect h recordId updatedData (store : Store) :
  let r := updateRecord h recordId updatedData store in
  List.map doc_id (final r) = List.map doc_id store
  /\ ((exists e, outcome r = Throws e) -> final r = store)
  /\ forall ev, In ev (events r) ->
                (forall c d, ev <> AddDoc c d)
                /\ (forall c i, ev <> DeleteDoc c i)
                /\ ev <> OnClose.
Proof.
  cbv zeta. destruct (decide (recordId = [])) as [-> | Hid].
  { split; [reflexivity|]. split; [reflexivity | intros ev []]. }
  rewrite updateRecord_cases by exact Hid.
  destruct (fails h (DocRef "records" recordId)).
  { split; [reflexivity|]. split; [reflexivity|].
    intros ev [<- | []]; repeat split; intros; discriminate. }
  match goal with |- context [if ?b then _ else _] => destruct b end.
  - split; [|split; [intros [e H]; discriminate|]].
    + cbn [final fst snd]. rewrite List.map_map. apply List.map_ext.
      intros d. destruct (bool_decide _); reflexivity.
    + intros ev [<- | [<- | [<- | []]]]; repeat split; intros; discriminate.
  - split; [reflexivity|]. split; [reflexivity|].
    intros ev [<- | [<- | [<- | []]]]; repeat split; intros; discriminate.
Qed.

(** X12. A submission never throws and never deletes a document. For a
    snapshot, also when the modal was opened on an existing record, and for
    any record type without an existing record, it updates no document:
    the collection stays as it was, or gets one new document at its end,
    and it gets one exactly when the modal closes. For another record type
    with an existing record it adds no document: the collection keeps its
    documents' ids in their order. *)
Theorem handleSubmit_collection h p a st (db : Store) :
  let r := handleSubmit h p a (st, db) in
  outcome r = Returns tt
  /\ (forall coll id, ~ In (DeleteDoc coll id) (events r))
  /\ (recordType p = snapshot \/ existingRecord p = None ->
      (forall coll id data, ~ In (UpdateDoc coll id data) (events r))
      /\ ((final r).2 = db /\ ~ In OnClose (events r)
          \/ exists stored,
               (final r).2 = db ++ [stored] /\ In OnClose (events r)))
  /\ (recordType p <> snapshot -> existingRecord p <> None ->
      (forall coll data, ~ In (AddDoc coll data) (events r))
      /\ List.map doc_id (final r).2 = List.map doc_id db).
Proof.
  cbv zeta.
  assert (Hquiet : forall ev : list Event,
            (forall x, In x ev -> (forall c i, x <> DeleteDoc c i)
                                  /\ x <> OnClose) ->
            forall tail,
              (tail = OnClose \/ tail = ConsoleError "err") ->
              (forall coll id,
                 ~ In (DeleteDoc coll id) (PreventDefault :: ev ++ [tail]))
              /\ (In OnClose (PreventDefault :: ev ++ [tail])
                  <-> tail = OnClose)).
  { intros ev Hev tail Htail. split.
    - intros coll id [H | H]; [discriminate|].
      apply in_app_or in H. destruct H as [H | [H | []]].
      + apply Hev in H. destruct H as [H _]. exact (H _ _ eq_refl).
      + destruct Htail; subst; discriminate.
    - split; [|intros ->; right; apply in_or_app; right; left; reflexivity].
      intros [H | H]; [discriminate|].
      apply in_app_or in H. destruct H as [H | [H | []]]; [|congruence].
      apply Hev in H. destruct H as [_ H]. congruence. }
  destruct (verified a) as [[[u up] familyId]|] eqn:Hv.
  2:{ rewrite (handleSubmit_unverified h p a st db Hv).
      cbn [outcome final events fst snd].
      split; [reflexivity|]. split; [not_in|].
      split; [intros _; split; [not_in|]; left; split; [reflexivity | not_in]
             | intros _ _; split; [not_in | reflexivity]]. }
  rewrite (handleSubmit_run h p a u up familyId st db Hv).
  destruct (attempt h p u up familyId st) as [| e0 | op] eqn:Hat.
  1,2: cbn [outcome final events fst snd];
    (split; [reflexivity|]); (split; [not_in|]);
    (split; [intros _; split; [not_in|]; left; split; [reflexivity | not_in]
            | intros _ _; split; [not_in | reflexivity]]).
  destruct (attempt_run h p u up familyId st op db Hat)
    as [(img & Hty & Himg & Hop) | (rd & Hty & Hrd & Hop)].
  - (* a snapshot *)
    rewrite Hop. clear Hop.
    destruct (fails h (UploadImage img (uid u))) as [e|].
    { cbn [outcome final events fst snd app].
      split; [reflexivity|]. split; [not_in|].
      split; [intros _ | intros H; contradiction].
      split; [not_in|]. left. split; [reflexivity | not_in]. }
    destruct (addRecord_effect h
                (snapshotData familyId (uid u) (notes (form st))
                   (uploadedURL h img (uid u)) (tagsArray (tags (form st))))
                (Some up) db) as [Hfin Hev].
    destruct (addRecord h _ (Some up) db) as [[[id|e] db'] ev];
      cbn [outcome final events fst snd] in *.
    all: match goal with
         | |- context [(?x :: ?l) ++ [?t]] =>
             destruct (Hquiet (x :: l)
                         ltac:(intros y [<- | Hy];
                               [split; intros; discriminate
                               | destruct (Hev y Hy) as (_ & Hd & Hc);
                                 split; assumption])
                         t ltac:(auto)) as [Hdel Hclose]
         end.
    all: split; [reflexivity|]; split; [exact Hdel|];
      split; [intros _ | intros H; contradiction].
    all: split;
      [ intros coll i d [H | H]; [discriminate|];
        apply in_app_or in H; destruct H as [[H | H] | [H | []]];
        [discriminate | apply Hev in H; destruct H as [H _];
                        exact (H _ _ _ eq_refl) | discriminate ] |].
    + destruct Hfin as [[_ [e H]] | (stored & -> & _)]; [discriminate|].
      right. exists stored. split; [reflexivity|]. apply Hclose. reflexivity.
    + destruct Hfin as [[-> _] | (stored & _ & H)]; [|discriminate].
      left. split; [reflexivity|]. rewrite Hclose. discriminate.
  - (* another record *)
    destruct (existingRecord p) as [er|] eqn:Her.
    + subst op.
      destruct (updateRecord_effect h (idOf er) rd db) as (Hids & _ & Hev).
      destruct (updateRecord h (idOf er) rd db) as [[[[]|e] db'] ev];
        cbn [outcome final events fst snd] in *.
      all: match goal with
           | |- context [?l ++ [?t]] =>
               destruct (Hquiet l
                           ltac:(intros y Hy;
                                 destruct (Hev y Hy) as (_ & Hd & Hc);
                                 split; assumption)
                           t ltac:(auto)) as [Hdel Hclose]
           end.
      all: split; [reflexivity|]; split; [exact Hdel|];
        split; [intros [H | H]; [contradiction | discriminate]|];
        intros _ _; split; [|exact Hids];
        intros coll d [H | H]; [discriminate|];
        apply in_app_or in H; destruct H as [H | [H | []]];
        [ apply Hev in H; destruct H as [H _]; exact (H _ _ eq_refl)
        | discriminate ].
    + rewrite Hop. clear Hop.
      destruct (addRecord_effect h
                  (newRecordData (recordType p) familyId (uid u) rd)
                  (Some up) db) as [Hfin Hev].
      destruct (addRecord h _ (Some up) db) as [[[id|e] db'] ev];
        cbn [outcome final events fst snd] in *.
      all: match goal with
           | |- context [?l ++ [?t]] =>
               destruct (Hquiet l
                           ltac:(intros y Hy;
                                 destruct (Hev y Hy) as (_ & Hd & Hc);
                                 split; assumption)
                           t ltac:(auto)) as [Hdel Hclose]
           end.
      all: split; [reflexivity|]; split; [exact Hdel|];
        split; [intros _ | intros _ H; contradiction].
      all: split;
        [ intros coll i d [H | H]; [discriminate|];
          apply in_app_or in H; destruct H as [H | [H | []]];
          [ apply Hev in H; destruct H as [H _]; exact (H _ _ _ eq_refl)
          | discriminate ] |].
      * destruct Hfin as [[_ [e H]] | (stored & -> & _)]; [discriminate|].
        right. exists stored. split; [reflexivity|]. apply Hclose. reflexivity.
      * destruct Hfin as [[-> _] | (stored & _ & H)]; [|discriminate].
        left. split; [reflexivity|]. rewrite Hclose. discriminate.
Qed.

Lemma handleSubmit_collection_witness :
  exists stored,
    (final (handleSubmit Sample.host
              {| recordType := snapshot;
                 existingRecord := Some (withId Sample.photo) |}
              Sample.auth (Sample.ready, [Sample.photo]))).2
    = [Sample.photo] ++ [stored].
Proof.
  destruct (handleSubmit_collection Sample.host
              {| recordType := snapshot;
                 existingRecord := Some (withId Sample.photo) |}
              Sample.auth Sample.ready [Sample.photo]) as (_ & _ & H & _).
  destruct (H (or_introl eq_refl)) as [_ [[_ Hno] | (stored & Hs & _)]].
  - exfalso. apply Hno. vm_compute.
    repeat ((left; reflexivity) || right).
  - exists stored. exact Hs.
Defined.

Lemma recordData_fields h t f rd :
  recordData h t f = inr rd ->
  rd !! "notes" = Some (VStr (notes f))
  /\ forall k, ~ In k (formFields t) -> rd !! k = None.
Proof.
  unfold recordData.
  destruct t; try destruct (timestampOfDateInput h _); try discriminate;
    intros [= <-]; (split;
    [ repeat (rewrite lookup_insert_ne by discriminate);
      apply lookup_singleton_eq
    | intros k Hk; cbn [formFields In] in Hk;
      repeat (rewrite lookup_insert_ne by (intros <-; apply Hk; auto 6));
      apply lookup_singleton_ne; intros <-; apply Hk; auto ]).
Qed.

(** An edit leaves the collection as it was, or it closes the modal and
    has updated the documents with the id of the record. *)
Lemma edit_store h p a st (db : Store) er :
  recordType p <> snapshot ->
  existingRecord p = Some er ->
  let r := handleSubmit h p a (st, db) in
  ((final r).2 = db /\ ~ In OnClose (events r))
  \/ exists rd,
       recordData h (recordType p) (form st) = inr rd
       /\ In OnClose (events r)
       /\ (final r).2
          = List.map
              (fun d =>
                 if bool_decide (doc_id d = idOf er)
                 then {| doc_id := doc_id d;
                         doc_data := Firestore.resolve (serverNow h db) rd
                                       ∪ doc_data d |}
                 else d) db.
Proof.
  intros Hty Her. cbv zeta.
  destruct (verified a) as [[[u up] familyId]|] eqn:Hv.
  2:{ rewrite (handleSubmit_unverified h p a st db Hv).
      left. split; [reflexivity | not_in]. }
  rewrite (handleSubmit_run h p a u up familyId st db Hv).
  destruct (attempt h p u up familyId st) as [| e0 | op] eqn:Hat.
  1,2: left; split; [reflexivity | not_in].
  destruct (attempt_run h p u up familyId st op db Hat)
    as [(img & Hty' & _) | (rd & _ & Hrd & Hop)]; [contradiction|].
  rewrite Her in Hop. subst op.
  destruct (decide (idOf er = [])) as [-> | Hid].
  { left. split; [reflexivity | not_in]. }
  rewrite updateRecord_cases by exact Hid.
  destruct (fails h (DocRef "records" (idOf er))).
  { left. split; [reflexivity | not_in]. }
  match goal with |- context [if ?b then _ else _] => destruct b end.
  - right. exists rd. split; [exact Hrd|]. split; [|reflexivity].
    cbn [events snd app In]. repeat ((left; reflexivity) || right).
  - left. split; [reflexivity | not_in].
Qed.

(** X13. Editing a record that is not a snapshot touches, in the whole
    collection, only the fields that the form of the record type writes:
    every document keeps its place, its id, and every other field, among
    them its type, family, creator, baby and, unless the record is a
    measurement, its timestamp; a document with another id than the edited
    record is left as it is. When the modal closes, the documents with the
    id of the record have the notes of the form. *)
Theorem edit_touches_form_fields h p a st (db : Store) er :
  recordType p <> snapshot ->
  existingRecord p = Some er ->
  let r := handleSubmit h p a (st, db) in
  forall i d,
    db !! i = Some d ->
    exists d',
      (final r).2 !! i = Some d'
      /\ doc_id d' = doc_id d
      /\ (doc_id d <> idOf er -> d' = d)
      /\ (forall f, ~ In f (formFields (recordType p)) ->
                    doc_data d' !! f = doc_data d !! f)
      /\ (In OnClose (events r) -> doc_id d = idOf er ->
          doc_data d' !! "notes" = Some (VStr (notes (form st)))).
Proof.
  intros Hty Her r i d Hi.
  destruct (edit_store h p a st db er Hty Her)
    as [[Hdb Hopen] | (rd & Hrd & _ & Hdb)]; fold r in Hdb |- *.
  { exists d. rewrite Hdb. fold r in Hopen. repeat split; tauto. }
  destruct (recordData_fields _ _ _ _ Hrd) as [Hnotes Hrest].
  rewrite Hdb. eexists. split.
  { change (List.map ?f ?l) with (f <$> l). rewrite list_lookup_fmap, Hi.
    reflexivity. }
  destruct (decide (doc_id d = idOf er)) as [Hd | Hd].
  - rewrite (bool_decide_eq_true_2 _ Hd). cbn [doc_id doc_data].
    split; [reflexivity|]. split; [contradiction|]. split.
    + intros f Hf. rewrite lookup_union, resolve_lookup, (Hrest f Hf).
      destruct (doc_data d !! f); reflexivity.
    + intros _ _. rewrite lookup_union, resolve_lookup, Hnotes.
      destruct (doc_data d !! "notes"); reflexivity.
  - rewrite (bool_decide_eq_false_2 _ Hd).
    split; [reflexivity|]. split; [reflexivity|]. split; [reflexivity|].
    intros _ H. contradiction.
Qed.

Lemma edit_touches_form_fields_witness :
  exists d',
    (final (handleSubmit Sample.host
              {| recordType := feeding;
                 existingRecord := Some (withId (Sample.measured "b" 200)) |}
              Sample.auth
              (Sample.idle,
               [Sample.measured "a" 100; Sample.measured "b" 200]))).2
    !! 1%nat = Some d'
    /\ doc_data d' !! "type" = Some (VStr (js "measurement"))
    /\ doc_data d' !! "notes" = Some (VStr (js "first steps")).
Proof.
  destruct (edit_touches_form_fields Sample.host
              {| recordType := feeding;
                 existingRecord := Some (withId (Sample.measured "b" 200)) |}
              Sample.auth Sample.idle
              [Sample.measured "a" 100; Sample.measured "b" 200]
              (withId (Sample.measured "b" 200))
              ltac:(discriminate) eq_refl
              1%nat (Sample.measured "b" 200) eq_refl)
    as (d' & Hd' & _ & _ & Hkeep & Hnotes).
  exists d'. split; [exact Hd'|]. split.
  - rewrite (Hkeep "type").
    + vm_compute. reflexivity.
    + cbn [recordType formFields In]. intros [H | [H | []]]; discriminate.
  - apply Hnotes.
    + vm_compute. repeat ((left; reflexivity) || right).
    + vm_compute. reflexivity.
Defined.

Lemma newRecordData_fields t familyId creatorId rd :
  let data := newRecordData t familyId creatorId rd in
  data !! "type" = Some (VStr (type_name t))
  /\ data !! "familyId" = Some (VStr familyId)
  /\ data !! "creatorId" = Some (VStr creatorId)
  /\ forall f, f <> "type" -> f <> "familyId" -> f <> "creatorId" ->
               data !! f = rd !! f.
Proof.
  unfold newRecordData. cbv zeta. split; [|split; [|split]].
  - rewrite !lookup_insert_ne by discriminate. apply lookup_insert_eq.
  - rewrite lookup_insert_ne by discriminate. apply lookup_insert_eq.
  - apply lookup_insert_eq.
  - intros f H1 H2 H3. rewrite !lookup_insert_ne by congruence. reflexivity.
Qed.

Lemma type_name_snapshot t : type_name t = js "snapshot" -> t = snapshot.
Proof. destruct t; intros H; vm_compute in H; congruence. Qed.

(** A new record that is not a snapshot either leaves the collection as it
    was, or closes the modal and has stored what [addRecord] makes of the
    form's data. *)
Lemma new_record_store h p a u up familyId st (db : Store) :
  verified a = Some (u, up, familyId) ->
  recordType p <> snapshot ->
  existingRecord p = None ->
  let r := handleSubmit h p a (st, db) in
  ((final r).2 = db /\ ~ In OnClose (events r))
  \/ exists rd,
       recordData h (recordType p) (form st) = inr rd
       /\ In OnClose (events r)
       /\ (final r).2
          = db ++ [{| doc_id :=
                        autoId h db
                          (dataToSave h
                             (newRecordData (recordType p) familyId (uid u) rd)
                             up);
                      doc_data :=
                        Firestore.resolve (serverNow h db)
                          (dataToSave h
                             (newRecordData (recordType p) familyId (uid u) rd)
                             up) |}].
Proof.
  intros Hv Hty Her. cbv zeta.
  rewrite (handleSubmit_run h p a u up familyId st db Hv).
  destruct (attempt h p u up familyId st) as [| e0 | op] eqn:Hat.
  1,2: left; split; [reflexivity | not_in].
  destruct (attempt_run h p u up familyId st op db Hat)
    as [(img & Hty' & _) | (rd & _ & Hrd & Hop)]; [contradiction|].
  rewrite Her in Hop. rewrite Hop, addRecord_run. clear Hop.
  destruct (idsGiven _); [|left; split; [reflexivity | not_in]].
  cbv zeta. cbn [negb].
  destruct (fails h _); [left; split; [reflexivity | not_in]|].
  right. exists rd. split; [exact Hrd|]. split; [|reflexivity].
  cbn [events snd app In]. repeat ((left; reflexivity) || right).
Qed.

(** X14. When the submission of a new record that is not a snapshot closes
    the modal, the collection has one more document, at its end, and that
    document has the type of the modal, the first family of the profile,
    the user as creator, the baby ['baby_01'], the profile's display name,
    the notes of the form, and neither a year nor a month. Its timestamp
    is the date of the form, as the database writes it, cut down to
    microseconds, for a measurement, and the server's time for every other
    type. *)
Theorem new_record_fields h p a u up familyId st (db : Store) :
  verified a = Some (u, up, familyId) ->
  recordType p <> snapshot ->
  existingRecord p = None ->
  let r := handleSubmit h p a (st, db) in
  In OnClose (events r) ->
  exists stored,
    (final r).2 = db ++ [stored]
    /\ doc_data stored !! "type" = Some (VStr (type_name (recordType p)))
    /\ doc_data stored !! "familyId" = Some (VStr familyId)
    /\ doc_data stored !! "creatorId" = Some (VStr (uid u))
    /\ doc_data stored !! "babyId" = Some (VStr (js "baby_01"))
    /\ doc_data stored !! "creatorName" = Some (of_nullable (displayName up))
    /\ doc_data stored !! "notes" = Some (VStr (notes (form st)))
    /\ doc_data stored !! "year" = None
    /\ doc_data stored !! "month" = None
    /\ (recordType p = measurement ->
        exists ts,
          timestampOfDateInput h (recordDate (form st)) = inr ts
          /\ doc_data stored !! "timestamp"
             = Some (VTimestamp
                       {| seconds := seconds ts;
                          nanoseconds := nanoseconds ts / 1000 * 1000 |}))
    /\ (recordType p <> measurement ->
        doc_data stored !! "timestamp" = Some (VTimestamp (serverNow h db))).
Proof.
  intros Hv Hty Her r Hclose.
  destruct (new_record_store h p a u up familyId st db Hv Hty Her)
    as [[_ Hopen] | (rd & Hrd & _ & Hdb)];
    [exfalso; exact (Hopen Hclose)|].
  fold r in Hdb.
  destruct (recordData_fields _ _ _ _ Hrd) as [Hnotes Hrest].
  destruct (newRecordData_fields (recordType p) familyId (uid u) rd)
    as (Hnt & Hnf & Hnc & Hno).
  assert (Hns : ~ is_snapshot
                    (newRecordData (recordType p) familyId (uid u) rd)).
  { unfold is_snapshot. rewrite Hnt. intros [= H].
    apply Hty, type_name_snapshot, H. }
  assert (Hrd' : forall f, ~ In f (formFields (recordType p)) ->
                 f <> "type" -> f <> "familyId" -> f <> "creatorId" ->
                 newRecordData (recordType p) familyId (uid u) rd !! f = None).
  { intros f Hf H1 H2 H3. rewrite Hno by assumption. apply Hrest, Hf. }
  assert (Hff : forall f, In f ["year"; "month"] ->
                          ~ In f (formFields (recordType p))).
  { intros f Hf Hin. destruct (recordType p); cbn [formFields In] in Hin;
      destruct Hf as [<- | [<- | []]];
      repeat (destruct Hin as [Hin | Hin]; [discriminate|]); exact Hin. }
  eexists. split; [exact Hdb|]. cbn [doc_data]. rewrite !resolve_lookup.
  rewrite dataToSave_babyId, dataToSave_creatorName, dataToSave_timestamp.
  rewrite !dataToSave_field by discriminate.
  rewrite Hnt, Hnf, Hnc, (Hno "notes"), Hnotes by discriminate.
  rewrite (dataToSave_other _ _ _ Hns).
  rewrite !lookup_insert_ne by discriminate.
  rewrite (Hrd' "year"), (Hrd' "month")
    by (try discriminate; apply Hff; cbn [In]; auto).
  rewrite (Hno "timestamp") by discriminate.
  repeat (split; [reflexivity|]).
  split; [destruct (displayName up); reflexivity|].
  split; [reflexivity|]. split; [reflexivity|]. split; [reflexivity|].
  split.
  - intros Hm. rewrite Hm in Hrd. unfold recordData in Hrd.
    destruct (timestampOfDateInput h _) as [e|ts]; [discriminate|].
    injection Hrd as <-. exists ts. split; [reflexivity|].
    rewrite lookup_insert_eq. reflexivity.
  - intros Hm. rewrite Hrest; [reflexivity|].
    destruct (recordType p); cbn [formFields In]; try contradiction;
      intros Hin;
      repeat (destruct Hin as [Hin | Hin]; [discriminate|]); exact Hin.
Qed.

Lemma new_record_fields_witness :
  exists stored,
    (final (handleSubmit Sample.host
              {| recordType := measurement; existingRecord := None |}
              Sample.auth (Sample.idle, [Sample.photo]))).2
    = [Sample.photo] ++ [stored]
    /\ doc_data stored !! "type" = Some (VStr (js "measurement"))
    /\ doc_data stored !! "babyId" = Some (VStr (js "baby_01"))
    /\ doc_data stored !! "timestamp"
       = Some (VTimestamp {| seconds := 864000; nanoseconds := 0 |}).
Proof.
  destruct (new_record_fields Sample.host
              {| recordType := measurement; existingRecord := None |}
              Sample.auth Sample.user Sample.profile (js "fam1")
              Sample.idle [Sample.photo] eq_refl ltac:(discriminate) eq_refl)
    as (stored & Hs & Hty & _ & _ & Hb & _ & _ & _ & _ & Hts & _).
  - vm_compute. repeat ((left; reflexivity) || right).
  - exists stored. split; [exact Hs|]. split; [exact Hty|].
    split; [exact Hb|].
    destruct (Hts eq_refl) as (ts & Hin & ->).
    vm_compute in Hin. injection Hin as <-. reflexivity.
Defined.

End Submission.

(** ** The chosen image and its preview *)

Section Preview.
Import AddRecordModal.

(** X15. Choosing an image never throws and never touches the collection,
    and without a file it does nothing. When the file is refused or its
    compression fails, the image chosen before and its preview stay as
    they were, and no object URL is revoked or created. When the
    compression succeeds, the compressed file and its object URL become
    the chosen image and the preview, a single object URL is created, and
    the preview shown before is revoked, once and before that, exactly when
    it was a string that is not empty. Once a file of an accepted type has
    been handled, [isProcessing] is false. *)
Theorem handleImageChange_preview h file st (db : Store) :
  let r := handleImageChange h file (st, db) in
  outcome r = Returns tt
  /\ (final r).2 = db
  /\ (file = None -> r = (Returns tt, (st, db), []))
  /\ (forall f,
        file = Some f ->
        (file_type f ∈ allowedTypes -> isProcessing (final r).1 = false)
        /\ (file_type f ∉ allowedTypes
            \/ fails h (ImageCompression f compressionOptions) <> None ->
            imageFile (final r).1 = imageFile st
            /\ imagePreview (final r).1 = imagePreview st
            /\ error (final r).1 <> js ""
            /\ (forall u, ~ In (RevokeObjectURL u) (events r))
            /\ (forall c, ~ In (CreateObjectURL c) (events r)))
        /\ (file_type f ∈ allowedTypes ->
            fails h (ImageCompression f compressionOptions) = None ->
            let c := compressedFile h f compressionOptions in
            imageFile (final r).1 = Some c
            /\ imagePreview (final r).1 = Some (objectURL h c)
            /\ error (final r).1 = js ""
            /\ List.filter
                 (fun ev => match ev with
                            | RevokeObjectURL _ | CreateObjectURL _ => true
                            | _ => false
                            end) (events r)
               = match imagePreview st with
                 | Some ((_ :: _) as u) => [RevokeObjectURL u; CreateObjectURL c]
                 | _ => [CreateObjectURL c]
                 end)).
Proof.
  cbv zeta. destruct file as [f|].
  2:{ split; [reflexivity|]. split; [reflexivity|].
      split; [reflexivity | intros f H; discriminate]. }
  assert (Herr1 : js "檔案格式不符，僅接受 JPG 或 PNG 格式。" <> js "")
    by (vm_compute; discriminate).
  assert (Herr2 : js "無法處理此圖片，請更換一張試試。" <> js "")
    by (vm_compute; discriminate).
  destruct (decide (file_type f ∈ allowedTypes)) as [Hty | Hty].
  - rewrite (handleImageChange_accepted h f st db Hty).
    destruct (fails h (ImageCompression f compressionOptions)) as [e|] eqn:Hf.
    + split; [reflexivity|]. split; [reflexivity|].
      split; [intros H; discriminate H|]. intros f' [= <-].
      split; [reflexivity|]. split; [|intros _ H; congruence].
      intros _. cbn [final events fst snd]. state.
      split; [reflexivity|]. split; [reflexivity|]. split; [exact Herr2|].
      split; not_in.
    + cbv zeta. split; [reflexivity|]. split; [reflexivity|].
      split; [intros H; discriminate H|]. intros f' [= <-].
      split; [reflexivity|].
      split; [intros [H | H]; [contradiction | congruence]|].
      intros _ _. cbn [final events fst snd].
      destruct st as [? ? ? ? [[|c u]|] ?]; state;
        (split; [reflexivity|]); (split; [reflexivity|]);
        (split; reflexivity).
  - rewrite (handleImageChange_rejected h f st db Hty).
    split; [reflexivity|]. split; [reflexivity|].
    split; [intros H; discriminate H|]. intros f' [= <-].
    split; [intros H; contradiction|].
    split; [|intros H; contradiction].
    intros _. cbn [final events fst snd]. state.
    split; [reflexivity|]. split; [reflexivity|]. split; [exact Herr1|].
    split; not_in.
Qed.

Lemma handleImageChange_preview_witness :
  imageFile
    (final (handleImageChange Sample.host (Some Sample.gif)
              (Sample.ready, []))).1
  = imageFile Sample.ready.
Proof.
  destruct (handleImageChange_preview Sample.host (Some Sample.gif)
              Sample.ready []) as (_ & _ & _ & H).
  destruct (H _ eq_refl) as (_ & Hkeep & _).
  apply Hkeep. left. vm_compute.
  intros Hin. apply list_elem_of_In in Hin.
  destruct Hin as [Hin | [Hin | []]]; discriminate.
Defined.

End Preview.

(** * More of the floating action button *)

Section Clicks.
Import FloatingActionButton.

Lemma clicks_cons b bs s :
  clicks (b :: bs) s
  = (Returns tt,
     final (clicks bs (final (onClick b s))),
     events (onClick b s) ++ events (clicks bs (final (onClick b s)))).
Proof.
  revert b s. induction bs as [|b' bs IH]; intros b s.
  - destruct b; reflexivity.
  - change (clicks (b :: b' :: bs) s)
      with ((onClick b ;;; clicks (b' :: bs)) s).
    unfold bind. destruct b; cbn -[clicks]; rewrite IH; reflexivity.
Qed.

Lemma clicks_returns bs s : outcome (clicks bs s) = Returns tt.
Proof. destruct bs; [reflexivity | rewrite clicks_cons; reflexivity]. Qed.

Lemma clicks_app bs1 bs2 s :
  final (clicks (bs1 ++ bs2) s) = final (clicks bs2 (final (clicks bs1 s)))
  /\ events (clicks (bs1 ++ bs2) s)
     = events (clicks bs1 s) ++ events (clicks bs2 (final (clicks bs1 s))).
Proof.
  revert s. induction bs1 as [|b bs1 IH]; intros s; [split; reflexivity|].
  cbn [app]. rewrite !clicks_cons. cbn [final events fst snd].
  destruct (IH (final (onClick b s))) as [-> ->].
  split; [reflexivity | apply app_assoc].
Qed.

Lemma clicks_events bs s :
  events (clicks bs s) = List.map OnAddRecord (subButtonTypes bs).
Proof.
  revert s. induction bs as [|b bs IH]; intros s; [reflexivity|].
  rewrite clicks_cons. cbn [events snd]. rewrite IH.
  destruct b; reflexivity.
Qed.

Lemma clicks_main n s :
  clicks (repeat MainButton n) s
  = (Returns tt, {| isOpen := xorb (isOpen s) (Nat.odd n) |}, []).
Proof.
  revert s. induction n as [|n IH]; intros [o].
  - cbn. rewrite xorb_false_r. reflexivity.
  - cbn [repeat]. rewrite clicks_cons, IH. cbn [final events fst snd app].
    rewrite Nat.odd_succ, <- Nat.negb_odd.
    destruct o, (Nat.odd n); reflexivity.
Qed.

(** X16. Whatever buttons of the floating action button are clicked one
    after the other, [onAddRecord] is called once for each click on a
    sub-button, with the type of that sub-button and in the order of the
    clicks, hence only ever with one of the four types that have a
    shortcut; a click on the main button calls nothing. The menu is closed
    after a click on a sub-button, and a run of clicks on the main button
    leaves it as it was when their number is even and toggles it when
    their number is odd. *)
Theorem clicks_call_back bs s :
  (forall b, In b bs -> In b buttons) ->
  let r := clicks bs s in
  outcome r = Returns tt
  /\ events r = List.map OnAddRecord (subButtonTypes bs)
  /\ (forall t, In (OnAddRecord t) (events r) -> In t shortcuts)
  /\ (forall bs' t, bs = bs' ++ [SubButton t] -> isOpen (final r) = false)
  /\ (forall bs' n,
        bs = bs' ++ repeat MainButton n ->
        isOpen (final r) = xorb (isOpen (final (clicks bs' s))) (Nat.odd n)
        /\ events r = events (clicks bs' s)).
Proof.
  intros Hbs r. subst r.
  split; [apply clicks_returns|]. split; [apply clicks_events|]. split.
  - intros t. rewrite clicks_events. intros Hin.
    apply in_map_iff in Hin. destruct Hin as (t' & [= ->] & Hin).
    unfold subButtonTypes in Hin. apply in_flat_map in Hin.
    destruct Hin as (b & Hb & Ht). unfold shortcuts.
    apply in_flat_map. exists b. split; [apply Hbs, Hb | exact Ht].
  - split.
    + intros bs' t ->. destruct (clicks_app bs' [SubButton t] s) as [-> _].
      reflexivity.
    + intros bs' n ->.
      destruct (clicks_app bs' (repeat MainButton n) s) as [-> ->].
      rewrite clicks_main. cbn [final events fst snd isOpen].
      split; [reflexivity | apply app_nil_r].
Qed.

Lemma clicks_call_back_witness :
  events (clicks [MainButton; SubButton sleep; MainButton; MainButton;
                  SubButton feeding] {| isOpen := false |})
  = [OnAddRecord sleep; OnAddRecord feeding].
Proof.
  destruct (clicks_call_back
              [MainButton; SubButton sleep; MainButton; MainButton;
               SubButton feeding] {| isOpen := false |}) as (_ & -> & _).
  - intros b Hb. unfold buttons. cbn [In] in Hb |- *.
    repeat (destruct Hb as [<- | Hb]; [auto 6|]). destruct Hb.
  - reflexivity.
Defined.

End Clicks.

(** * Walking through the pages *)

Lemma limited_snapshot_query familyId perPage lastDoc year month tag l :
  Firestore.limited
    (snapshot_query familyId perPage lastDoc year month tag) l
  = take (Z.to_nat (match perPage with
                    | Some n => if n =? 0 then 20 else n
                    | None => 20
                    end)) l.
Proof.
  unfold snapshot_query, Firestore.limited.
  rewrite !fold_right_app. cbn [fold_right].
  destruct year as [y|]; [destruct (y =? 0)|];
    (destruct month as [m|]; [destruct (m =? 0)|]);
    (destruct tag as [t|]; [destruct (all_whitespace t)|]);
    destruct lastDoc; reflexivity.
Qed.

Lemma behind_snapshot_query familyId perPage lastDoc year month tag d :
  Firestore.behind_cursors
    (snapshot_query familyId perPage lastDoc year month tag) d
  = match lastDoc with
    | Some cursor =>
        match Firestore.doc_cmp Asc [("timestamp", Desc)] cursor d with
        | Lt => true
        | _ => false
        end
    | None => true
    end.
Proof.
  unfold Firestore.behind_cursors. rewrite orderBys_snapshot_query.
  unfold snapshot_query. rewrite !forallb_app. cbn [forallb andb].
  destruct year as [y|]; [destruct (y =? 0)|];
    (destruct month as [m|]; [destruct (m =? 0)|]);
    (destruct tag as [t|]; [destruct (all_whitespace t)|]);
    destruct lastDoc; cbn [forallb andb]; rewrite ?andb_true_r; reflexivity.
Qed.

Lemma passes_snapshot_query familyId perPage lastDoc year month tag d :
  forallb (Firestore.passes d)
    (snapshot_query familyId perPage lastDoc year month tag)
  = forallb (Firestore.passes d)
      (snapshot_query familyId None None year month tag).
Proof.
  unfold snapshot_query. rewrite !forallb_app.
  cbn [forallb Firestore.passes andb].
  destruct lastDoc; cbn [forallb Firestore.passes andb];
    rewrite ?andb_true_r; reflexivity.
Qed.

(** What a query of [getSnapshots] returns: the documents that match its
    filters, newest first, behind the cursor, and a page of them. *)
Lemma runQuery_snapshot_query store familyId perPage lastDoc year month tag :
  Firestore.runQuery store
    (snapshot_query familyId perPage lastDoc year month tag)
  = take (Z.to_nat (match perPage with
                    | Some n => if n =? 0 then 20 else n
                    | None => 20
                    end))
      (List.filter
         (fun d =>
            match lastDoc with
            | Some cursor =>
                match Firestore.doc_cmp Asc [("timestamp", Desc)] cursor d with
                | Lt => true
                | _ => false
                end
            | None => true
            end)
         (merge_sort (Firestore.doc_le [("timestamp", Desc)])
            (List.filter
               (fun d =>
                  forallb (Firestore.passes d)
                    (snapshot_query familyId None None year month tag))
               store))).
Proof.
  unfold Firestore.runQuery.
  rewrite limited_snapshot_query, orderBys_snapshot_query.
  f_equal.
  rewrite (List.filter_ext _ _
             (behind_snapshot_query familyId perPage lastDoc year month tag)).
  f_equal. f_equal. apply List.filter_ext. intros d.
  apply passes_snapshot_query.
Qed.

Lemma doc_cmp_Eq_id last obs x y :
  Firestore.doc_cmp last obs x y = Eq -> doc_id x = doc_id y.
Proof.
  revert last. induction obs as [|[f d] obs IH]; intros last; cbn.
  - intros H.
    apply (key_cmp_Eq (fun d => Firestore.string_key (doc_id d)) last) in H.
    revert H. generalize (doc_id x) (doc_id y). unfold Firestore.string_key.
    induction l as [|a l IHl]; intros [|b l']; cbn [flat_map app];
      try discriminate; [reflexivity|].
    intros [= _ Hab Hl]. apply N2Z.inj in Hab. subst. f_equal. auto.
  - destruct (Firestore.directed d _); try discriminate. apply IH.
Qed.

Lemma NoDup_map_In_inj {A B} (f : A -> B) l a b :
  NoDup (List.map f l) -> In a l -> In b l -> f a = f b -> a = b.
Proof.
  induction l as [|x l IH]; [intros _ []|].
  cbn [List.map]. intros Hnd Ha Hb Hf. apply NoDup_cons in Hnd.
  destruct Hnd as [Hx Hnd].
  destruct Ha as [<- | Ha], Hb as [<- | Hb]; [reflexivity | | | auto].
  - exfalso. apply Hx. rewrite Hf. apply list_elem_of_In, in_map, Hb.
  - exfalso. apply Hx. rewrite <- Hf. apply list_elem_of_In, in_map, Ha.
Qed.

Lemma NoDup_List_filter {A} (p : A -> bool) l :
  NoDup l -> NoDup (List.filter p l).
Proof.
  induction 1 as [|x l Hx _ IH]; cbn [List.filter]; [constructor|].
  destruct (p x); [|exact IH]. constructor; [|exact IH].
  intros Hin. apply Hx. apply list_elem_of_In in Hin.
  apply List.filter_In in Hin. apply list_elem_of_In. tauto.
Qed.

(** In a collection whose documents have different ids, the order of a
    query is strict. *)
Lemma merge_sort_strict (store : Store) obs (p : DocSnap -> bool) :
  NoDup (List.map doc_id store) ->
  StronglySorted (fun a b => Firestore.doc_cmp Asc obs a b = Lt)
    (merge_sort (Firestore.doc_le obs) (List.filter p store)).
Proof.
  intros Hids.
  assert (Hnd : NoDup (merge_sort (Firestore.doc_le obs) (List.filter p store))).
  { rewrite merge_sort_Permutation. apply NoDup_List_filter.
    exact (NoDup_fmap_1 doc_id store Hids). }
  assert (Hin : forall d,
            In d (merge_sort (Firestore.doc_le obs) (List.filter p store)) ->
            In d store).
  { intros d Hd. apply list_elem_of_In in Hd.
    rewrite merge_sort_Permutation in Hd.
    apply list_elem_of_In, List.filter_In in Hd. tauto. }
  pose proof (StronglySorted_merge_sort (Firestore.doc_le obs)
                (List.filter p store)) as Hs.
  induction Hs as [|x l Hs IH Hx]; [constructor|].
  apply NoDup_cons in Hnd. destruct Hnd as [Hxl Hnd].
  constructor.
  - apply IH; [exact Hnd|]. intros d Hd. apply Hin. right. exact Hd.
  - rewrite Forall_forall in Hx |- *. intros y Hy.
    specialize (Hx y Hy). apply list_elem_of_In in Hy.
    unfold Firestore.doc_le in Hx.
    destruct (Firestore.doc_cmp Asc obs x y) eqn:Hc;
      [|reflexivity | congruence].
    exfalso. apply Hxl. apply list_elem_of_In.
    rewrite (NoDup_map_In_inj doc_id store x y Hids); auto.
    + apply Hin. left. reflexivity.
    + apply Hin. right. exact Hy.
    + apply doc_cmp_Eq_id in Hc. exact Hc.
Qed.

Lemma filter_drops_all {A} (p : A -> bool) (l : list A) :
  (forall x, In x l -> p x = false) -> List.filter p l = [].
Proof.
  induction l as [|x l IH]; intros H; [reflexivity|]. cbn [List.filter].
  rewrite (H x (or_introl eq_refl)). apply IH.
  intros y Hy. apply H. right. exact Hy.
Qed.

(** In a strictly sorted list, the documents behind one of its documents
    are those that follow it. *)
Lemma filter_behind_sorted obs l1 c l2 :
  StronglySorted (fun a b => Firestore.doc_cmp Asc obs a b = Lt)
    (l1 ++ c :: l2) ->
  List.filter
    (fun d => match Firestore.doc_cmp Asc obs c d with
              | Lt => true
              | _ => false
              end) (l1 ++ c :: l2)
  = l2.
Proof.
  intros Hs. apply StronglySorted_app in Hs. destruct Hs as (H12 & _ & H2).
  apply StronglySorted_cons in H2. destruct H2 as [Hc _].
  rewrite List.filter_app. cbn [List.filter]. rewrite doc_cmp_refl.
  rewrite filter_drops_all, filter_keeps_all; [reflexivity | |].
  - intros d Hd. rewrite Forall_forall in Hc.
    rewrite (Hc d); [reflexivity | apply list_elem_of_In, Hd].
  - intros d Hd.
    rewrite doc_cmp_antisym, (H12 d c);
      [reflexivity | apply list_elem_of_In, Hd | apply list_elem_of_here].
Qed.

Lemma filter_filter_implied {A} (f g : A -> bool) l :
  (forall x, In x l -> f x = true -> g x = true) ->
  List.filter f (List.filter g l) = List.filter f l.
Proof.
  induction l as [|x l IH]; intros H; [reflexivity|]. cbn [List.filter].
  assert (IH' := IH (fun y Hy => H y (or_intror Hy))).
  destruct (g x) eqn:Hg; cbn [List.filter].
  - rewrite IH'. reflexivity.
  - destruct (f x) eqn:Hf; [|exact IH'].
    rewrite (H x (or_introl eq_refl) Hf) in Hg. discriminate.
Qed.

(** X17. Two pages in a row leave no gap: in a collection whose documents
    have different ids, a page of [perPage] snapshots followed by the page
    that is asked for with its [lastVisible] as [lastDoc] is, in this
    order, what one page of twice the size gives, as long as the
    collection and the filter stay the same. *)
Theorem pages_leave_no_gap h h' h'' familyId n after filter (store : Store)
    page cursor page' both :
  NoDup (List.map doc_id store) ->
  0 < n ->
  outcome (getSnapshots h familyId
             {| Options.perPage := Some n; Options.lastDoc := after;
                Options.filter := filter |} store) = Returns page ->
  lastVisible page = Some cursor ->
  outcome (getSnapshots h' familyId
             {| Options.perPage := Some n; Options.lastDoc := Some cursor;
                Options.filter := filter |} store) = Returns page' ->
  outcome (getSnapshots h'' familyId
             {| Options.perPage := Some (2 * n); Options.lastDoc := after;
                Options.filter := filter |} store) = Returns both ->
  snapshots both = snapshots page ++ snapshots page'.
Proof.
  intros Hids Hn. rewrite !getSnapshots_run.
  cbv beta iota zeta delta [Options.perPage Options.lastDoc Options.filter].
  destruct (query_fault (Some n) after); [discriminate|].
  destruct (fails h _); [discriminate|].
  cbv beta iota delta [outcome fst snapshots lastVisible]. intros [= <-].
  cbv beta iota delta [snapshots lastVisible]. intros Hlast.
  destruct (query_fault (Some n) (Some cursor)); [discriminate|].
  destruct (fails h' _); [discriminate|]. intros [= <-].
  destruct (query_fault (Some (2 * n)) after); [discriminate|].
  destruct (fails h'' _); [discriminate|]. intros [= <-].
  cbv beta iota delta [snapshots]. rewrite <- List.map_app. f_equal.
  revert Hlast.
  rewrite !runQuery_snapshot_query.
  rewrite (proj2 (Z.eqb_neq n 0)), (proj2 (Z.eqb_neq (2 * n) 0)) by lia.
  pose proof (merge_sort_strict store [("timestamp", Desc)]
                (fun d =>
                   forallb (Firestore.passes d)
                     (snapshot_query familyId None None
                        (filter ≫= Options.year) (filter ≫= Options.month)
                        (filter ≫= Options.tag))) Hids) as Hs.
  revert Hs.
  generalize (merge_sort (Firestore.doc_le [("timestamp", Desc)])
                (List.filter
                   (fun d =>
                      forallb (Firestore.passes d)
                        (snapshot_query familyId None None
                           (filter ≫= Options.year) (filter ≫= Options.month)
                           (filter ≫= Options.tag))) store)).
  intros L0 Hs Hlast.
  apply (StronglySorted_filter _
           (fun d =>
              match after with
              | Some cursor =>
                  match Firestore.doc_cmp Asc [("timestamp", Desc)] cursor d with
                  | Lt => true
                  | _ => false
                  end
              | None => true
              end)) in Hs.
  assert (Hbehind :
            List.filter
              (fun d =>
                 match Firestore.doc_cmp Asc [("timestamp", Desc)] cursor d with
                 | Lt => true
                 | _ => false
                 end) L0
            = List.filter
                (fun d =>
                   match Firestore.doc_cmp Asc [("timestamp", Desc)] cursor d with
                   | Lt => true
                   | _ => false
                   end)
                (List.filter
                   (fun d =>
                      match after with
                      | Some cursor =>
                          match Firestore.doc_cmp Asc [("timestamp", Desc)]
                                  cursor d with
                          | Lt => true
                          | _ => false
                          end
                      | None => true
                      end) L0)).
  { symmetry. apply filter_filter_implied. intros d _ Hd.
    destruct after as [a|]; [|reflexivity].
    assert (Hc : Firestore.doc_cmp Asc [("timestamp", Desc)] a cursor = Lt).
    { apply last_Some_elem_of, list_elem_of_In in Hlast.
      apply list_elem_of_In, subseteq_take, list_elem_of_In in Hlast.
      apply List.filter_In in Hlast. destruct Hlast as [_ Hlast].
      change (match Firestore.doc_cmp Asc [("timestamp", Desc)] a cursor with
              | Lt => true
              | _ => false
              end = true) in Hlast.
      destruct (Firestore.doc_cmp Asc _ a cursor); congruence. }
    destruct (Firestore.doc_cmp Asc _ cursor d) eqn:Hcd; try discriminate.
    rewrite (doc_cmp_Lt_trans _ _ _ _ _ Hc Hcd). reflexivity. }
  rewrite Hbehind. clear Hbehind.
  revert Hs Hlast.
  generalize (List.filter
                (fun d =>
                   match after with
                   | Some cursor =>
                       match Firestore.doc_cmp Asc [("timestamp", Desc)]
                               cursor d with
                       | Lt => true
                       | _ => false
                       end
                   | None => true
                   end) L0).
  intros L Hs Hlast.
  replace (Z.to_nat (2 * n)) with (Z.to_nat n + Z.to_nat n)%nat by lia.
  rewrite <- take_take_drop. f_equal. f_equal.
  apply last_Some in Hlast. destruct Hlast as [l1 Hl1].
  assert (HL : L = l1 ++ cursor :: drop (Z.to_nat n) L).
  { rewrite <- (take_drop (Z.to_nat n) L) at 1.
    rewrite Hl1, <- app_assoc. reflexivity. }
  symmetry.
  transitivity
    (List.filter
       (fun d =>
          match Firestore.doc_cmp Asc [("timestamp", Desc)] cursor d with
          | Lt => true
          | _ => false
          end) (l1 ++ cursor :: drop (Z.to_nat n) L)).
  - f_equal. exact HL.
  - apply filter_behind_sorted. rewrite <- HL. exact Hs.
Qed.

Lemma pages_leave_no_gap_witness :
  List.map withId [Sample.photoAt "b" 300; Sample.photoAt "c" 200;
                   Sample.photoAt "a" 100]
  = List.map withId [Sample.photoAt "b" 300; Sample.photoAt "c" 200]
    ++ List.map withId [Sample.photoAt "a" 100].
Proof.
  apply (pages_leave_no_gap Sample.host Sample.host Sample.host (js "fam1") 2
           None
           (Some {| Options.year := None; Options.month := Some 0;
                    Options.tag := Some (js " park ") |})
           [Sample.photoAt "a" 100; Sample.photoAt "b" 300;
            Sample.undated; Sample.photoAt "c" 200]
           {| snapshots := List.map withId [Sample.photoAt "b" 300;
                                            Sample.photoAt "c" 200];
              lastVisible := Some (Sample.photoAt "c" 200) |}
           (Sample.photoAt "c" 200)
           {| snapshots := List.map withId [Sample.photoAt "a" 100];
              lastVisible := Some (Sample.photoAt "a" 100) |}
           {| snapshots := List.map withId [Sample.photoAt "b" 300;
                                            Sample.photoAt "c" 200;
                                            Sample.photoAt "a" 100];
              lastVisible := Some (Sample.photoAt "a" 100) |}).
  - vm_compute. repeat constructor; intros H;
      repeat (apply elem_of_cons in H; destruct H as [H | H];
              [discriminate|]);
      apply elem_of_nil in H; exact H.
  - lia.
  - vm_compute. reflexivity.
  - reflexivity.
  - vm_compute. reflexivity.
  - vm_compute. reflexivity.
Defined.

(** * The date of the form *)

Section DateString.
Import JsDate IsoDate.

Lemma length_digits n x : length (digits n x) = n.
Proof.
  revert x. induction n as [|n IH]; intros x; [reflexivity|].
  cbn [digits]. rewrite length_app, IH. cbn. lia.
Qed.

Lemma digits_inj n x y :
  0 <= x < 10 ^ Z.of_nat n -> 0 <= y < 10 ^ Z.of_nat n ->
  digits n x = digits n y -> x = y.
Proof.
  revert x y. induction n as [|n IH]; intros x y Hx Hy.
  - cbn in Hx, Hy. lia.
  - rewrite Nat2Z.inj_succ, Z.pow_succ_r in Hx, Hy by lia.
    cbn [digits]. intros H.
    apply app_inj_2 in H; [|reflexivity]. destruct H as [Hd Hm].
    injection Hm as Hm.
    assert (Hxm := Z.mod_pos_bound x 10 ltac:(lia)).
    assert (Hym := Z.mod_pos_bound y 10 ltac:(lia)).
    apply Z2N.inj in Hm; [|lia|lia].
    apply IH in Hd; [| Z.div_mod_to_equations; lia
                     | Z.div_mod_to_equations; lia].
    rewrite (Z.div_mod x 10), (Z.div_mod y 10) by lia. lia.
Qed.

Lemma digits_no_T n x : Forall (fun c => c <> 84%N) (digits n x).
Proof.
  revert x. induction n as [|n IH]; intros x; [constructor|].
  cbn [digits]. apply Forall_app. split; [apply IH|].
  constructor; [|constructor].
  assert (Hxm := Z.mod_pos_bound x 10 ltac:(lia)). lia.
Qed.

Lemma split_hd sep p rest :
  Forall (fun c => c <> sep) p ->
  List.hd [] (split sep (p ++ sep :: rest)) = p.
Proof.
  induction 1 as [|c p Hc _ IH]; cbn [app split].
  - rewrite N.eqb_refl. reflexivity.
  - rewrite (proj2 (N.eqb_neq c sep) Hc).
    destruct (split sep (p ++ sep :: rest)) as [|piece pieces] eqn:E.
    + exfalso. clear -E. destruct p; cbn in E;
        repeat match type of E with
               | context [if ?b then _ else _] => destruct b
               | context [match ?l with [] => _ | _ :: _ => _ end] =>
                   destruct l
               end; discriminate.
    + cbn [List.hd] in IH |- *. rewrite IH. reflexivity.
Qed.

Lemma year_in_range t :
  -62167219200000 <= t < 253402300800000 ->
  0 <= YearFromTime t <= 9999.
Proof.
  intros Ht. pose proof (YearFromTime_spec t) as Hy.
  assert (Hd : -719528 <= Day t < 2932897).
  { unfold Day, msPerDay. Z.div_mod_to_equations. lia. }
  revert Hy. generalize (YearFromTime t) (Day t) Hd. clear.
  intros y d Hd. unfold DayFromYear. Z.div_mod_to_equations. lia.
Qed.

Lemma DaysInYear_cases y : DaysInYear y = 365 \/ DaysInYear y = 366.
Proof.
  unfold DaysInYear.
  repeat match goal with
         | |- context [ ?a =? ?b ] => destruct (a =? b)
         end; cbn [negb]; auto.
Qed.

Lemma DateFromTime_range t : 1 <= DateFromTime t <= 31.
Proof.
  pose proof (DayWithinYear_range t) as Hd.
  unfold DateFromTime, MonthFromTime, InLeapYear in *. cbv zeta.
  destruct (DaysInYear_cases (YearFromTime t)) as [Hy | Hy];
    rewrite Hy in *; cbn [Z.eqb Pos.eqb] in *;
    repeat match goal with
           | |- context [ ?a <? ?b ] => destruct (Z.ltb_spec a b)
           end; lia.
Qed.

(** The calendar date of a time value is that of its day. *)
Lemma date_of_Day t1 t2 :
  Day t1 = Day t2 ->
  YearFromTime t1 = YearFromTime t2
  /\ MonthFromTime t1 = MonthFromTime t2
  /\ DateFromTime t1 = DateFromTime t2.
Proof.
  intros H.
  assert (Hy : YearFromTime t1 = YearFromTime t2)
    by (unfold YearFromTime; rewrite H; reflexivity).
  assert (Hw : DayWithinYear t1 = DayWithinYear t2)
    by (unfold DayWithinYear; rewrite H, Hy; reflexivity).
  assert (Hl : InLeapYear t1 = InLeapYear t2)
    by (unfold InLeapYear; rewrite Hy; reflexivity).
  assert (Hm : MonthFromTime t1 = MonthFromTime t2)
    by (unfold MonthFromTime; rewrite Hw, Hl; reflexivity).
  split; [exact Hy|]. split; [exact Hm|].
  unfold DateFromTime. rewrite Hw, Hl, Hm. reflexivity.
Qed.

(** And the day is that of the calendar date. *)
Lemma Day_of_date t1 t2 :
  YearFromTime t1 = YearFromTime t2 ->
  MonthFromTime t1 = MonthFromTime t2 ->
  DateFromTime t1 = DateFromTime t2 ->
  Day t1 = Day t2.
Proof.
  intros Hy Hm Hd.
  assert (Hl : InLeapYear t1 = InLeapYear t2)
    by (unfold InLeapYear; rewrite Hy; reflexivity).
  assert (Hw : DayWithinYear t1 = DayWithinYear t2).
  { unfold DateFromTime in Hd. rewrite <- Hm, <- Hl in Hd. cbv zeta in Hd.
    pose proof (MonthFromTime_range t1) as Hr.
    remember (MonthFromTime t1) as m eqn:Em. clear Em Hm.
    assert (Hc : m = 0 \/ m = 1 \/ m = 2 \/ m = 3 \/ m = 4 \/ m = 5
                 \/ m = 6 \/ m = 7 \/ m = 8 \/ m = 9 \/ m = 10 \/ m = 11)
      by lia.
    repeat (destruct Hc as [-> | Hc]; [cbv iota in Hd; lia|]).
    subst m. cbv iota in Hd. lia. }
  unfold DayWithinYear in Hw. rewrite Hy in Hw. lia.
Qed.

Lemma dateToString_date t :
  dateToString (Some t)
  = Some ((if (0 <=? YearFromTime t) && (YearFromTime t <=? 9999)
           then digits 4 (YearFromTime t)
           else (if YearFromTime t <? 0 then js "-" else js "+")
                ++ digits 6 (Z.abs (YearFromTime t)))
          ++ js "-" ++ digits 2 (MonthFromTime t + 1)
          ++ js "-" ++ digits 2 (DateFromTime t)).
Proof.
  unfold dateToString, toISOString. cbv zeta. f_equal.
  assert (HT : js "T" = [84%N]) by (vm_compute; reflexivity).
  assert (Hdash : Forall (fun c => c <> 84%N) (js "-"))
    by (vm_compute; repeat constructor; discriminate).
  assert (Hplus : Forall (fun c => c <> 84%N) (js "+"))
    by (vm_compute; repeat constructor; discriminate).
  rewrite HT. cbn [app].
  match goal with
  | |- List.hd [] (split 84 (?a ++ ?b ++ ?c ++ ?d ++ ?e ++ 84%N :: ?r)) = _ =>
      replace (a ++ b ++ c ++ d ++ e ++ 84%N :: r)
        with ((a ++ b ++ c ++ d ++ e) ++ 84%N :: r)
        by (rewrite <- !app_assoc; reflexivity)
  end.
  apply split_hd.
  apply Forall_app. split.
  { destruct (_ && _); [apply digits_no_T|].
    apply Forall_app. split; [|apply digits_no_T].
    destruct (_ <? _); assumption. }
  apply Forall_app. split; [exact Hdash|].
  apply Forall_app. split; [apply digits_no_T|].
  apply Forall_app. split; [exact Hdash | apply digits_no_T].
Qed.

(** X18. For a date from the year 0 to the year 9999, which every
    [Timestamp] of the database is, [dateToString] gives ten characters,
    the year in four digits, the month in two and the day of the month in
    two with dashes between them, and they are the date in UTC, not the
    local one: two such dates give the same string exactly when they fall
    on the same UTC day. An invalid date makes it throw. *)
Theorem dateToString_utc_day t1 t2 :
  -62167219200000 <= t1 < 253402300800000 ->
  -62167219200000 <= t2 < 253402300800000 ->
  dateToString (Some t1)
  = Some (digits 4 (YearFromTime t1) ++ js "-"
          ++ digits 2 (MonthFromTime t1 + 1) ++ js "-"
          ++ digits 2 (DateFromTime t1))
  /\ (exists s, dateToString (Some t1) = Some s /\ length s = 10%nat)
  /\ (dateToString (Some t1) = dateToString (Some t2) <-> Day t1 = Day t2)
  /\ dateToString None = None.
Proof.
  intros H1 H2.
  pose proof (year_in_range t1 H1) as Hy1.
  pose proof (year_in_range t2 H2) as Hy2.
  assert (Hdash : js "-" = [45%N]) by (vm_compute; reflexivity).
  assert (Hs : forall t,
            0 <= YearFromTime t <= 9999 ->
            dateToString (Some t)
            = Some (digits 4 (YearFromTime t) ++ js "-"
                    ++ digits 2 (MonthFromTime t + 1) ++ js "-"
                    ++ digits 2 (DateFromTime t))).
  { intros t Hy. rewrite dateToString_date.
    rewrite (proj2 (Z.leb_le 0 _)), (proj2 (Z.leb_le _ 9999)) by lia.
    reflexivity. }
  split; [apply Hs, Hy1|]. split; [|split; [|reflexivity]].
  - eexists. split; [apply Hs, Hy1|].
    rewrite Hdash, !length_app, !length_digits. reflexivity.
  - rewrite (Hs t1 Hy1), (Hs t2 Hy2). split.
    + intros H. apply (inj Some) in H.
      apply app_inj_1 in H; [|rewrite !length_digits; reflexivity].
      destruct H as [Hy H].
      apply (app_inj_1 (js "-")) in H; [|reflexivity].
      destruct H as [_ H].
      apply app_inj_1 in H; [|rewrite !length_digits; reflexivity].
      destruct H as [Hm H].
      apply (app_inj_1 (js "-")) in H; [|reflexivity].
      destruct H as [_ Hd].
      pose proof (MonthFromTime_range t1). pose proof (MonthFromTime_range t2).
      pose proof (DateFromTime_range t1). pose proof (DateFromTime_range t2).
      apply digits_inj in Hy; [|cbn; lia|cbn; lia].
      apply digits_inj in Hm; [|cbn; lia|cbn; lia].
      apply digits_inj in Hd; [|cbn; lia|cbn; lia].
      apply Day_of_date; [exact Hy | lia | exact Hd].
    + intros H. destruct (date_of_Day t1 t2 H) as (-> & -> & ->).
      reflexivity.
Qed.

Lemma dateToString_utc_day_witness :
  dateToString (Some (toDate Sample.leapDay)) = Some (js "2024-02-29").
Proof.
  destruct (dateToString_utc_day (toDate Sample.leapDay) 0) as [-> _].
  - vm_compute. split; [discriminate | reflexivity].
  - lia.
  - vm_compute. reflexivity.
Defined.

End DateString.

(** * From a stored snapshot to the pages *)

(** The filters of [getSnapshots] read the fields of a document, apart from
    [id]. *)
Lemma passes_same_fields d1 d2 familyId year month tag :
  (forall f, f <> "id" -> doc_data d1 !! f = doc_data d2 !! f) ->
  forallb (Firestore.passes d1)
    (snapshot_query familyId None None year month tag)
  = forallb (Firestore.passes d2)
      (snapshot_query familyId None None year month tag).
Proof.
  intros H. unfold snapshot_query. rewrite !forallb_app.
  assert (Hw : forall f op v,
            f <> "id" ->
            Firestore.passes d1 (Where f op v)
            = Firestore.passes d2 (Where f op v)).
  { intros f op v Hf. cbn [Firestore.passes]. rewrite (H f Hf). reflexivity. }
  assert (Ho : Firestore.passes d1 (OrderBy "timestamp" Desc)
               = Firestore.passes d2 (OrderBy "timestamp" Desc)).
  { cbn [Firestore.passes]. rewrite (H "timestamp") by discriminate.
    reflexivity. }
  cbn [forallb].
  rewrite !(Hw "familyId"), !(Hw "type"), Ho by discriminate.
  destruct year as [y|]; [destruct (y =? 0)|];
    (destruct month as [m|]; [destruct (m =? 0)|]);
    (destruct tag as [t|]; [destruct (all_whitespace t)|]);
    cbn [forallb];
    rewrite ?(Hw "year"), ?(Hw "month"), ?(Hw "tags") by discriminate;
    reflexivity.
Qed.

(** A page that is large enough for the whole collection lists a document
    exactly when the document passes the filters. *)
Lemma getSnapshots_lists h familyId n year month tag (later : Store) page
    stored :
  0 < n -> (length later <= Z.to_nat n)%nat ->
  In stored later ->
  outcome (getSnapshots h familyId
             {| Options.perPage := Some n; Options.lastDoc := None;
                Options.filter :=
                  Some {| Options.year := year; Options.month := month;
                          Options.tag := tag |} |} later) = Returns page ->
  (In (withId stored) (snapshots page)
   <-> forallb (Firestore.passes stored)
         (snapshot_query familyId None None year month tag) = true).
Proof.
  intros Hn Hlen Hin. rewrite getSnapshots_run.
  cbv beta iota zeta delta [Options.perPage Options.lastDoc Options.filter
                            Options.year Options.month Options.tag
                            mbind option_bind].
  destruct (query_fault _ _); [discriminate|].
  destruct (fails h _); [discriminate|].
  cbv beta iota delta [outcome fst]. intros [= <-].
  cbv beta iota delta [snapshots].
  rewrite runQuery_snapshot_query, filter_all.
  rewrite (proj2 (Z.eqb_neq n 0)) by lia.
  rewrite take_ge.
  2:{ rewrite merge_sort_Permutation.
      etransitivity; [apply List.filter_length_le | exact Hlen]. }
  split.
  - intros H. apply in_map_iff in H. destruct H as (d & Hd & Hl).
    apply list_elem_of_In in Hl. rewrite merge_sort_Permutation in Hl.
    apply list_elem_of_In, List.filter_In in Hl. destruct Hl as [_ Hp].
    rewrite <- Hp. apply passes_same_fields. intros f Hf.
    rewrite <- !(withId_other _ f Hf), Hd. reflexivity.
  - intros Hp. apply in_map. apply list_elem_of_In.
    rewrite merge_sort_Permutation. apply list_elem_of_In, List.filter_In.
    split; assumption.
Qed.

(** What the filters of [getSnapshots] ask of a document. *)
Lemma passes_snapshot_query_spec d familyId year month tag :
  forallb (Firestore.passes d)
    (snapshot_query familyId None None year month tag) = true
  <-> doc_data d !! "familyId" = Some (VStr familyId)
      /\ doc_data d !! "type" = Some (VStr (js "snapshot"))
      /\ match year with
         | Some y => y = 0 \/ doc_data d !! "year" = Some (VNum y)
         | None => True
         end
      /\ match month with
         | Some m => m = 0 \/ doc_data d !! "month" = Some (VNum m)
         | None => True
         end
      /\ match tag with
         | Some tg =>
             all_whitespace tg = true
             \/ exists l, doc_data d !! "tags" = Some (VArr l) /\ trim tg ∈ l
         | None => True
         end
      /\ is_Some (doc_data d !! "timestamp").
Proof.
  unfold snapshot_query. rewrite !forallb_app, !andb_true_iff.
  cbn [forallb Firestore.passes]. rewrite !andb_true_iff, !bool_decide_eq_true.
  assert (Hy : forall f (o : option Z),
            forallb (Firestore.passes d)
              match o with
              | Some y => if y =? 0 then [] else [Where f OpEq (VNum y)]
              | None => []
              end = true
            <-> match o with
                | Some y => y = 0 \/ doc_data d !! f = Some (VNum y)
                | None => True
                end).
  { intros f [y|]; [|cbn; tauto].
    destruct (Z.eqb_spec y 0) as [-> | Hne]; [cbn; tauto|].
    cbn [forallb Firestore.passes]. rewrite andb_true_r, bool_decide_eq_true.
    tauto. }
  assert (Ht : forallb (Firestore.passes d)
                 match tag with
                 | Some t => if all_whitespace t then []
                             else [Where "tags" OpArrayContains (VStr (trim t))]
                 | None => []
                 end = true
               <-> match tag with
                   | Some tg =>
                       all_whitespace tg = true
                       \/ exists l, doc_data d !! "tags" = Some (VArr l)
                                    /\ trim tg ∈ l
                   | None => True
                   end).
  { destruct tag as [tg|]; [|cbn; tauto].
    destruct (all_whitespace tg); [cbn; tauto|].
    cbn [forallb Firestore.passes]. rewrite andb_true_r.
    destruct (doc_data d !! "tags") as [[]|];
      try (split; [discriminate | intros [H | (l & H & _)]; discriminate]).
    rewrite bool_decide_eq_true. split; [eauto|].
    intros [H | (l' & [= <-] & H)]; [discriminate | exact H]. }
  rewrite (Hy "year"), (Hy "month"), Ht. tauto.
Qed.

Section Listed.
Import AddRecordModal.

(** X19. A snapshot that a submission has stored is on the page that
    [getSnapshots] returns for the family of the submission, without a year
    and a month and with a page large enough for the collection, as long
    as the document is in the collection: always when no tag is asked for
    or the tag is white space only, and otherwise exactly when the trimmed
    tag is one of the tags that the submission parsed from the form. *)
Theorem submitted_snapshot_is_listed h p a u up familyId st (db : Store) :
  verified a = Some (u, up, familyId) ->
  recordType p = snapshot ->
  let r := handleSubmit h p a (st, db) in
  In OnClose (events r) ->
  exists stored,
    (final r).2 = db ++ [stored]
    /\ forall h' (later : Store) n tag page,
         0 < n -> (length later <= Z.to_nat n)%nat ->
         In stored later ->
         outcome (getSnapshots h' familyId
                    {| Options.perPage := Some n; Options.lastDoc := None;
                       Options.filter :=
                         Some {| Options.year := None; Options.month := None;
                                 Options.tag := tag |} |} later)
         = Returns page ->
         (In (withId stored) (snapshots page)
          <-> match tag with
              | Some tg =>
                  all_whitespace tg = true
                  \/ In (trim tg) (tagsArray (tags (form st)))
              | None => True
              end).
Proof.
  intros Hv Hty r Hclose.
  destruct (handleSubmit_snapshot_closed h p a st db Hty Hclose)
    as (u' & up' & familyId' & img & stored & Hv' & _ & _ & Hfin & Hdata).
  rewrite Hv in Hv'. injection Hv' as <- <- <-.
  exists stored. split; [exact Hfin|].
  intros h' later n tag page Hn Hlen Hin Hpage.
  rewrite (getSnapshots_lists h' familyId n None None tag later page stored
             Hn Hlen Hin Hpage).
  rewrite passes_snapshot_query_spec, Hdata, !resolve_lookup.
  destruct (dataToSave_snapshotData h familyId (uid u) (notes (form st))
              (uploadedURL h img (uid u)) (tagsArray (tags (form st))) up)
    as (Hts & _ & _ & Htags & _).
  destruct (snapshotData_fields familyId (uid u) (notes (form st))
              (uploadedURL h img (uid u)) (tagsArray (tags (form st))))
    as (Htype & Hfam & _).
  rewrite Hts, Htags, !dataToSave_field, Htype, Hfam by discriminate.
  cbn [fmap option_fmap option_map Firestore.resolve_value].
  split.
  - intros (_ & _ & _ & _ & Ht & _). destruct tag as [tg|]; [|exact I].
    destruct Ht as [Ht | (l & [= <-] & Ht)]; [left; exact Ht|].
    right. apply list_elem_of_In, Ht.
  - intros Ht. split; [reflexivity|]. split; [reflexivity|].
    split; [exact I|]. split; [exact I|]. split; [|eexists; reflexivity].
    destruct tag as [tg|]; [|exact I].
    destruct Ht as [Ht | Ht]; [left; exact Ht|].
    right. eexists. split; [reflexivity | apply list_elem_of_In, Ht].
Qed.

Lemma submitted_snapshot_is_listed_witness :
  exists stored page,
    (final (handleSubmit Sample.host Sample.snapshotProps Sample.auth
              (Sample.ready, [Sample.photo]))).2
    = [Sample.photo] ++ [stored]
    /\ outcome (getSnapshots Sample.host (js "fam1")
                  {| Options.perPage := Some 5; Options.lastDoc := None;
                     Options.filter :=
                       Some {| Options.year := None; Options.month := None;
                               Options.tag := Some (js " sun ") |} |}
                  (final (handleSubmit Sample.host Sample.snapshotProps
                            Sample.auth (Sample.ready, [Sample.photo]))).2)
       = Returns page
    /\ In (withId stored) (snapshots page).
Proof.
  destruct (submitted_snapshot_is_listed Sample.host Sample.snapshotProps
              Sample.auth Sample.user Sample.profile (js "fam1")
              Sample.ready [Sample.photo] eq_refl eq_refl)
    as (stored & Hfin & Hlisted).
  { vm_compute. repeat ((left; reflexivity) || right). }
  assert (Hpage : exists page,
            outcome (getSnapshots Sample.host (js "fam1")
                       {| Options.perPage := Some 5; Options.lastDoc := None;
                          Options.filter :=
                            Some {| Options.year := None;
                                    Options.month := None;
                                    Options.tag := Some (js " sun ") |} |}
                       (final (handleSubmit Sample.host Sample.snapshotProps
                                 Sample.auth
                                 (Sample.ready, [Sample.photo]))).2)
            = Returns page).
  { vm_compute. eexists. reflexivity. }
  destruct Hpage as [page Hpage]. exists stored, page.
  split; [exact Hfin|]. split; [exact Hpage|].
  refine (proj2 (Hlisted Sample.host _ 5 (Some (js " sun ")) page _ _ _ Hpage)
            _); [lia | | |].
  - rewrite Hfin. cbn. lia.
  - rewrite Hfin. apply in_or_app. right. left. reflexivity.
  - right. vm_compute. repeat ((left; reflexivity) || right).
Defined.

End Listed.

(** X20. A snapshot that [addRecord] has stored with a [Timestamp] of its
    own is on the page that [getSnapshots] returns for its family and for
    a year and a month, with a page large enough for the collection,
    exactly when these are [getFullYear()] and [getMonth() + 1] of the date
    that [toDate()] makes of the timestamp, in the local time of the host
    that stored it: exactly when the local day of that date is a day of
    that month of that year, whatever year and month the caller of
    [addRecord] gave. *)
Theorem dated_snapshot_is_listed h recordData userProfile (store : Store) id
    familyId ts :
  recordData !! "type" = Some (VStr (js "snapshot")) ->
  recordData !! "familyId" = Some (VStr familyId) ->
  recordData !! "timestamp" = Some (VTimestamp ts) ->
  outcome (addRecord h recordData userProfile store) = Returns id ->
  exists stored,
    final (addRecord h recordData userProfile store) = store ++ [stored]
    /\ forall h' (later : Store) n y m page,
         0 < n -> (length later <= Z.to_nat n)%nat ->
         In stored later ->
         y <> 0 -> m <> 0 ->
         outcome (getSnapshots h' familyId
                    {| Options.perPage := Some n; Options.lastDoc := None;
                       Options.filter :=
                         Some {| Options.year := Some y;
                                 Options.month := Some m;
                                 Options.tag := None |} |} later)
         = Returns page ->
         (In (withId stored) (snapshots page)
          <-> y = JsDate.getFullYear (LocalTZA h) (JsDate.toDate ts)
              /\ m = JsDate.getMonth (LocalTZA h) (JsDate.toDate ts) + 1)
         /\ (In (withId stored) (snapshots page)
             <-> 1 <= m <= 12
                 /\ month_start y m
                    <= JsDate.Day
                         (JsDate.LocalTime (LocalTZA h) (JsDate.toDate ts))
                    < month_end y m).
Proof.
  intros Hty Hfam Hts Hret.
  destruct (addRecord_returns _ _ _ _ _ Hret)
    as (up & -> & _ & _ & _ & Hfin & _).
  eexists. split; [exact Hfin|].
  intros h' later n y m page Hn Hlen Hin Hy Hm Hpage.
  assert (Hcal : y = JsDate.getFullYear (LocalTZA h) (JsDate.toDate ts)
                 /\ m = JsDate.getMonth (LocalTZA h) (JsDate.toDate ts) + 1
                 <-> 1 <= m <= 12
                     /\ month_start y m
                        <= JsDate.Day
                             (JsDate.LocalTime (LocalTZA h) (JsDate.toDate ts))
                        < month_end y m).
  { unfold JsDate.getFullYear, JsDate.getMonth. split.
    - intros [-> ->]. apply month_of_day.
    - intros [H1 H2]. apply month_of_day_unique; assumption. }
  rewrite <- Hcal. clear Hcal.
  match goal with
  | |- (?A <-> ?B) /\ _ => enough (Hiff : A <-> B) by (split; exact Hiff)
  end.
  rewrite (getSnapshots_lists h' familyId n (Some y) (Some m) None later page
             _ Hn Hlen Hin Hpage).
  rewrite passes_snapshot_query_spec. cbn [doc_data].
  rewrite !resolve_lookup, (dataToSave_snapshot h recordData up ts Hty Hts).
  rewrite lookup_insert_eq.
  rewrite (lookup_insert_ne _ "month" "year"), lookup_insert_eq by discriminate.
  rewrite !(lookup_insert_ne _ _ "familyId"), !(lookup_insert_ne _ _ "type"),
    Hfam, Hty by discriminate.
  rewrite !(lookup_insert_ne _ "month" "timestamp"),
    !(lookup_insert_ne _ "year" "timestamp"), lookup_insert_eq by discriminate.
  cbn [fmap option_fmap option_map Firestore.resolve_value].
  split.
  - intros (_ & _ & [Hy' | Hy'] & [Hm' | Hm'] & _); try contradiction.
    injection Hy' as Hy'. injection Hm' as Hm'. split; congruence.
  - intros [-> ->]. split; [reflexivity|]. split; [reflexivity|].
    split; [right; reflexivity|]. split; [right; reflexivity|].
    split; [exact I | eexists; reflexivity].
Qed.

Lemma dated_snapshot_is_listed_witness :
  exists stored page,
    final (addRecord Sample.host
             (<["timestamp" := VTimestamp Sample.leapDay]> Sample.snapshotData)
             (Some Sample.profile) [])
    = [] ++ [stored]
    /\ outcome (getSnapshots Sample.host (js "fam1")
                  {| Options.perPage := Some 5; Options.lastDoc := None;
                     Options.filter :=
                       Some {| Options.year := Some 2024;
                               Options.month := Some 3;
                               Options.tag := None |} |}
                  (final (addRecord Sample.host
                            (<["timestamp" := VTimestamp Sample.leapDay]>
                               Sample.snapshotData)
                            (Some Sample.profile) [])))
       = Returns page
    /\ In (withId stored) (snapshots page).
Proof.
  destruct (dated_snapshot_is_listed Sample.host
              (<["timestamp" := VTimestamp Sample.leapDay]> Sample.snapshotData)
              (Some Sample.profile) [] (js "doc0") (js "fam1") Sample.leapDay)
    as (stored & Hfin & Hlisted).
  - vm_compute. reflexivity.
  - vm_compute. reflexivity.
  - vm_compute. reflexivity.
  - vm_compute. reflexivity.
  - assert (Hpage : exists page,
              outcome (getSnapshots Sample.host (js "fam1")
                         {| Options.perPage := Some 5; Options.lastDoc := None;
                            Options.filter :=
                              Some {| Options.year := Some 2024;
                                      Options.month := Some 3;
                                      Options.tag := None |} |}
                         (final (addRecord Sample.host
                                   (<["timestamp" := VTimestamp Sample.leapDay]>
                                      Sample.snapshotData)
                                   (Some Sample.profile) [])))
              = Returns page).
    { vm_compute. eexists. reflexivity. }
    destruct Hpage as [page Hpage]. exists stored, page.
    split; [exact Hfin|]. split; [exact Hpage|].
    refine (proj2 (proj1 (Hlisted Sample.host _ 5 2024 3 page _ _ _ _ _ Hpage))
              _);
      [lia | | | lia | lia |].
    + rewrite Hfin. cbn. lia.
    + rewrite Hfin. left. reflexivity.
    + vm_compute. split; reflexivity.
Defined.

(** * What the rendered form can store *)

Section Rendered.
Import AddRecordModal RecordForm.

Lemma typed_keeps edits f :
  amount (typed edits f) = amount f
  /\ foodItems (typed edits f) = foodItems f
  /\ reaction (typed edits f) = reaction f
  /\ measurementType (typed edits f) = measurementType f
  /\ value (typed edits f) = value f
  /\ recordDate (typed edits f) = recordDate f.
Proof.
  unfold typed. revert f. induction edits as [|[i v] edits IH]; intros f;
    [repeat split|].
  cbn [fold_left]. destruct (IH (onChange (i, v).1 (i, v).2 f))
    as (-> & -> & -> & -> & -> & ->).
  destruct i; repeat split.
Qed.

Lemma dateToString_Some t : is_Some (IsoDate.dateToString (Some t)).
Proof. rewrite dateToString_date. eexists. reflexivity. Qed.

(** The data that the submission of a new record hands to [addDoc]. *)
Lemma new_record_calls h p a st (db : Store) coll data :
  recordType p <> snapshot ->
  existingRecord p = None ->
  In (AddDoc coll data) (events (handleSubmit h p a (st, db))) ->
  exists u up familyId rd,
    verified a = Some (u, up, familyId)
    /\ recordData h (recordType p) (form st) = inr rd
    /\ data = dataToSave h
                (newRecordData (recordType p) familyId (uid u) rd) up.
Proof.
  intros Hty Her.
  destruct (verified a) as [[[u up] familyId]|] eqn:Hv.
  2:{ rewrite (handleSubmit_unverified h p a st db Hv).
      intros [H | []]. discriminate. }
  rewrite (handleSubmit_run h p a u up familyId st db Hv).
  destruct (attempt h p u up familyId st) as [| e0 | op] eqn:Hat.
  1,2: intros Hin; simpl in Hin;
    repeat (destruct Hin as [Hin | Hin]; [discriminate|]); destruct Hin.
  destruct (attempt_run h p u up familyId st op db Hat)
    as [(img & Hty' & _) | (rd & _ & Hrd & Hop)]; [contradiction|].
  rewrite Her in Hop. rewrite Hop. clear Hop. intros Hin.
  exists u, up, familyId, rd. split; [reflexivity|]. split; [exact Hrd|].
  assert (Hadd : In (AddDoc coll data)
                   (events (addRecord h
                              (newRecordData (recordType p) familyId (uid u) rd)
                              (Some up) db))).
  { destruct (addRecord h _ (Some up) db) as [[[id|e] db'] ev];
      cbn [events snd] in Hin |- *;
      destruct Hin as [Hin | Hin]; try discriminate;
      apply in_app_or in Hin; destruct Hin as [Hin | [Hin | []]];
      try discriminate; exact Hin. }
  apply addRecord_calls in Hadd. destruct Hadd as (up' & [= <-] & _ & ->).
  reflexivity.
Qed.

(** X21. The modal renders a text input for the notes and, for a snapshot,
    for the tags, and none for the other fields of the form. So whatever
    the user types before submitting a new record, the data handed to the
    database has the amount [Number('')] for a feeding, no food and the
    reaction ['good'] for solid food, and for a measurement the type
    ['weight'], the value [Number('')] and as timestamp the date on which
    the modal was opened, which is a date in UTC. *)
Theorem new_record_defaults h p a now edits st (db : Store) coll data :
  recordType p <> snapshot ->
  existingRecord p = None ->
  form st = typed edits (initialForm now) ->
  In (AddDoc coll data) (events (handleSubmit h p a (st, db))) ->
  match recordType p with
  | feeding => data !! "amount" = Some (toNumber h (js ""))
  | solid_food =>
      data !! "foodItems" = Some (VStr (js ""))
      /\ data !! "reaction" = Some (VStr (js "good"))
  | measurement =>
      data !! "measurementType" = Some (VStr (js "weight"))
      /\ data !! "value" = Some (toNumber h (js ""))
      /\ exists today ts,
           IsoDate.dateToString (Some now) = Some today
           /\ timestampOfDateInput h today = inr ts
           /\ data !! "timestamp" = Some (VTimestamp ts)
  | _ => True
  end.
Proof.
  intros Hty Her Hform Hin.
  destruct (new_record_calls h p a st db coll data Hty Her Hin)
    as (u & up & familyId & rd & _ & Hrd & ->).
  destruct (typed_keeps edits (initialForm now))
    as (Ham & Hfo & Hre & Hmt & Hva & Hda).
  rewrite <- Hform in Ham, Hfo, Hre, Hmt, Hva, Hda.
  cbn [initialForm amount foodItems reaction measurementType value recordDate]
    in Ham, Hfo, Hre, Hmt, Hva, Hda.
  destruct (newRecordData_fields (recordType p) familyId (uid u) rd)
    as (_ & _ & _ & Hno).
  destruct (recordType p) eqn:Et; try exact I; unfold recordData in Hrd.
  - injection Hrd as <-.
    rewrite dataToSave_field, Hno, lookup_insert_eq, Ham by discriminate.
    reflexivity.
  - injection Hrd as <-.
    rewrite !dataToSave_field, !Hno by discriminate.
    rewrite lookup_insert_ne, !lookup_insert_eq, Hfo, Hre by discriminate.
    split; reflexivity.
  - destruct (timestampOfDateInput h _) as [e|ts] eqn:Hts; [discriminate|].
    injection Hrd as <-.
    rewrite !dataToSave_field, dataToSave_timestamp, !Hno by discriminate.
    rewrite !(lookup_insert_ne _ "timestamp"), !lookup_insert_eq by discriminate.
    rewrite (lookup_insert_ne _ "value" "measurementType"), lookup_insert_eq
      by discriminate.
    rewrite Hmt, Hva. split; [reflexivity|]. split; [reflexivity|].
    destruct (dateToString_Some now) as [today Htoday].
    exists today, ts. split; [exact Htoday|].
    rewrite Hda, Htoday in Hts. split; [exact Hts | reflexivity].
Qed.

Lemma new_record_defaults_witness :
  exists coll data,
    In (AddDoc coll data)
      (events (handleSubmit Sample.host Sample.feedingProps Sample.auth
                 ({| isSubmitting := false; isProcessing := false;
                     error := js ""; imageFile := None;
                     imagePreview := None;
                     form := typed [(NotesInput, js "120 ml")]
                               (initialForm 1709249400000) |}, [])))
    /\ data !! "amount" = Some (VNum 0).
Proof.
  assert (Hex : exists coll data,
            In (AddDoc coll data)
              (events (handleSubmit Sample.host Sample.feedingProps
                         Sample.auth
                         ({| isSubmitting := false; isProcessing := false;
                             error := js ""; imageFile := None;
                             imagePreview := None;
                             form := typed [(NotesInput, js "120 ml")]
                                       (initialForm 1709249400000) |}, [])))).
  { vm_compute. eexists _, _. right. left. reflexivity. }
  destruct Hex as (coll & data & Hin). exists coll, data.
  split; [exact Hin|].
  exact (new_record_defaults Sample.host Sample.feedingProps Sample.auth
           1709249400000 [(NotesInput, js "120 ml")]
           {| isSubmitting := false; isProcessing := false;
              error := js ""; imageFile := None; imagePreview := None;
              form := typed [(NotesInput, js "120 ml")]
                        (initialForm 1709249400000) |}
           [] coll data ltac:(discriminate) eq_refl eq_refl Hin).
Defined.

End Rendered.
